(** * Context Buddy: a shallow embedding of the resolver and of the note UI

    The development follows the two scripts of the extension.

    - [JsString]: the string primitives of the host language that the code
      calls ([trim], [toLowerCase], [includes], [split], [replace]).
    - [Content]: the content script (second part of [background.js]): the
      extractors, the navigation watchers of [observeUrlChanges] and the
      timer-driven stabilisation loop of [waitForContextAndUpdate].
    - [Sidebar]: the note UI ([sidebar.js]): the message listener, the note
      store behind [chrome.storage.local], and the related-notes scan.

    Strings are sequences of code units in the range 0..255 (the Latin-1
    part of the host's strings); timestamps and array indices are integers;
    instants are natural numbers of milliseconds.

    What lies outside the scripts is an input of the model: the host
    document at each instant ([Content.Doc]), the answer to the confirm
    dialog, the clock, and whether a write to the store goes through. The
    callback of a store call runs right after the call, and a timer
    callback runs at the instant it is due. The elements that the sidebar
    looks up by id are those of its own page and are taken to exist. *)

From Stdlib Require Import String Ascii List ZArith NArith Lia Bool Arith PeanoNat.
From Stdlib Require Import Permutation Sorted.
Import ListNotations.

Set Implicit Arguments.

(* ------------------------------------------------------------------------- *)
(** ** Host-language string primitives *)
(* ------------------------------------------------------------------------- *)

Module JsString.

Local Open Scope nat_scope.

(** Truthiness of a string: only the empty string is falsy. *)
Definition truthy (s : string) : bool :=
  match s with
  | EmptyString => false
  | String _ _ => true
  end.

(** [a || b] on strings. *)
Definition orElse (a b : string) : string := if truthy a then a else b.

(** White space and line terminators in the range of the model:
    TAB, LF, VT, FF, CR, SPACE and NBSP. *)
Definition isSpace (c : ascii) : bool :=
  let n := nat_of_ascii c in
  ((9 <=? n) && (n <=? 13)) || (n =? 32) || (n =? 160).

(** [String.prototype.toLowerCase] on one code unit: A-Z, and the
    upper-case letters of Latin-1 (0xC0-0xDE but for the multiplication
    sign 0xD7), move 32 places up. *)
Definition lowerChar (c : ascii) : ascii :=
  let n := nat_of_ascii c in
  if ((65 <=? n) && (n <=? 90))
     || ((192 <=? n) && (n <=? 222) && negb (n =? 215))
  then ascii_of_nat (n + 32)
  else c.

Fixpoint toLowerCase (s : string) : string :=
  match s with
  | EmptyString => EmptyString
  | String c r => String (lowerChar c) (toLowerCase r)
  end.

(** [s.includes(pat)]. *)
Fixpoint includes (pat s : string) : bool :=
  prefix pat s ||
  match s with
  | EmptyString => false
  | String _ r => includes pat r
  end.

Fixpoint trimStart (s : string) : string :=
  match s with
  | EmptyString => EmptyString
  | String c r => if isSpace c then trimStart r else s
  end.

Fixpoint trimEnd (s : string) : string :=
  match s with
  | EmptyString => EmptyString
  | String c r =>
      match trimEnd r with
      | EmptyString => if isSpace c then EmptyString else String c EmptyString
      | r' => String c r'
      end
  end.

(** [s.trim()]. *)
Definition trim (s : string) : string := trimEnd (trimStart s).

(** Adds a code unit in front of the token being built. *)
Definition consHead (c : ascii) (ts : list string) : list string :=
  match ts with
  | [] => [String c EmptyString]
  | t :: ts' => String c t :: ts'
  end.

(** [s.split(/\s+/)]: a maximal run of white space is one separator; the
    result is never empty, and a separator at either end leaves an empty
    token there. [inSep] tells that the previous code unit was white
    space. *)
Fixpoint splitWsFrom (inSep : bool) (s : string) : list string :=
  match s with
  | EmptyString => [EmptyString]
  | String c r =>
      if isSpace c then
        if inSep then splitWsFrom true r
        else EmptyString :: splitWsFrom true r
      else consHead c (splitWsFrom false r)
  end.

Definition splitWs (s : string) : list string := splitWsFrom false s.

(** [s.split(sep)] for a separator of one code unit. *)
Fixpoint splitOn (sep : ascii) (s : string) : list string :=
  match s with
  | EmptyString => [EmptyString]
  | String c r =>
      if Ascii.eqb c sep then EmptyString :: splitOn sep r
      else consHead c (splitOn sep r)
  end.

(** [parts.join(sep)]. *)
Definition join (sep : string) (parts : list string) : string :=
  String.concat sep parts.

Fixpoint dropChars (n : nat) (s : string) : string :=
  match n, s with
  | O, _ => s
  | S _, EmptyString => EmptyString
  | S m, String _ r => dropChars m r
  end.

(** [s.replace(pat, '')] for a string pattern: the first occurrence of
    [pat] is removed. *)
Fixpoint removeFirst (pat s : string) : string :=
  if prefix pat s then dropChars (String.length pat) s
  else
    match s with
    | EmptyString => EmptyString
    | String c r => String c (removeFirst pat r)
    end.

(** [xs.includes(w)] on an array of strings. *)
Definition includesStr (xs : list string) (w : string) : bool :=
  existsb (String.eqb w) xs.

End JsString.

Import JsString.

Local Open Scope string_scope.
Local Open Scope nat_scope.

(* ------------------------------------------------------------------------- *)
(** ** Contexts and messages (shared by both scripts) *)
(* ------------------------------------------------------------------------- *)

(** The context object. The scripts build it with different optional
    fields per application; a field that a given extractor does not set is
    the empty string, the empty list or [false] here. *)
Record Context : Type := mkContext {
  app : string;
  title : string;
  sender : string;
  participants : list string;
  threadId : string;
  channel : string;
  url : string;
  key : string;
  isLoading : bool
}.

(** Messages posted from the content script to the sidebar frame. *)
Inductive Msg : Type :=
| CONTEXT_UPDATE (context : Context)
| PAGE_CONTENT (content : string).

(** [a === b] where either side may be [undefined]. *)
Definition sameStr (a b : option string) : bool :=
  match a, b with
  | Some x, Some y => String.eqb x y
  | None, None => true
  | _, _ => false
  end.

(** Truthiness of a string that may be [undefined] or [null]. *)
Definition truthyOpt (a : option string) : bool :=
  match a with
  | Some x => truthy x
  | None => false
  end.

(* ------------------------------------------------------------------------- *)
(** ** The content script *)
(* ------------------------------------------------------------------------- *)

Module Content.

(** What the script reads from the host document at one instant. Each
    selector field holds what the first match of the script's chain of
    [querySelector] calls yields ([None]: no element matches). *)
Record Doc : Type := mkDoc {
  href : string;                       (* window.location.href *)
  hostname : string;                   (* window.location.hostname *)
  pathname : string;                   (* window.location.pathname *)
  searchQuery : option string;         (* URLSearchParams(search).get('search_query') *)
  docTitle : string;                   (* document.title *)
  titleTagText : option string;        (* querySelector('title')?.textContent *)
  hidden : bool;                       (* document.hidden *)
  gmailSubject : option string;        (* h2.hP || [data-legacy-thread-id] : textContent *)
  gmailThreadMatch : option string;    (* group 1 of the thread pattern on href *)
  gmailSenderEmail : option string;    (* span.go[email] : its email attribute *)
  meetTitle : option string;           (* [data-meeting-title] || div[jsname=rQC7Ie] *)
  meetParticipants : list string;      (* [data-participant-id] : textContent of each *)
  docsTitle : option (string * option string);
                                       (* .docs-title-input || [aria-label*=Document] :
                                          textContent and value *)
  calendarEvent : option (option string * option string * string);
                                       (* event element: data-title attribute,
                                          value, textContent *)
  ytTitle : option string;             (* the five h1 selectors of a watch page *)
  ytChannel : option string;           (* the four channel-link selectors *)
  ytChannelName : option string        (* channel page name selectors *)
}.

Definition optTrim (o : option string) : string :=
  match o with
  | Some s => trim s
  | None => ""
  end.

Definition detectGmailContext (d : Doc) : Context :=
  let title0 :=
    match gmailSubject d with
    | Some text => orElse (trim text) ""
    | None => ""
    end in
  let threadId0 :=
    match gmailSubject d, gmailThreadMatch d with
    | Some _, Some m => m
    | _, _ => ""
    end in
  let sender0 :=
    match gmailSenderEmail d with
    | Some e => orElse e ""
    | None => ""
    end in
  let title1 :=
    if truthy title0 then title0
    else trim (removeFirst " - Gmail" (docTitle d)) in
  let key0 := if truthy sender0 then "gmail:" ++ sender0 else "gmail:" ++ title1 in
  {| app := "gmail";
     title := orElse title1 "Gmail";
     sender := sender0;
     participants := if truthy sender0 then [sender0] else [];
     threadId := threadId0;
     channel := "";
     url := href d;
     key := key0;
     isLoading := false |}.

Definition detectMeetContext (d : Doc) : Context :=
  let title0 :=
    match meetTitle d with
    | Some text => orElse (trim text) ""
    | None => ""
    end in
  let title1 :=
    if truthy title0 then title0
    else trim (removeFirst " - Google Meet" (docTitle d)) in
  {| app := "meet";
     title := orElse title1 "Google Meet";
     sender := "";
     participants := filter truthy (map trim (meetParticipants d));
     threadId := "";
     channel := "";
     url := href d;
     key := "meet:" ++ title1;
     isLoading := false |}.

Definition detectDocsContext (d : Doc) : Context :=
  let title0 :=
    match docsTitle d with
    | Some (text, value) => orElse (trim text) (orElse (optTrim value) "")
    | None => ""
    end in
  let title1 :=
    if truthy title0 then title0
    else trim (removeFirst " - Google Docs" (docTitle d)) in
  {| app := "docs";
     title := orElse title1 "Google Docs";
     sender := "";
     participants := [];
     threadId := "";
     channel := "";
     url := href d;
     key := "doc:" ++ title1;
     isLoading := false |}.

Definition detectCalendarContext (d : Doc) : Context :=
  let title0 :=
    match calendarEvent d with
    | Some (dataTitle, value, text) =>
        match dataTitle with
        | Some a => if truthy a then a else orElse (optTrim value) (orElse (trim text) "")
        | None => orElse (optTrim value) (orElse (trim text) "")
        end
    | None => ""
    end in
  let title1 := if truthy title0 then title0 else "Google Calendar" in
  {| app := "calendar";
     title := title1;
     sender := "";
     participants := [];
     threadId := "";
     channel := "";
     url := href d;
     key := if String.eqb title1 "Google Calendar" then "calendar:general"
            else "calendar:" ++ title1;
     isLoading := false |}.

Definition isHomeUrl (u : string) : bool :=
  String.eqb u "https://www.youtube.com/" || String.eqb u "https://www.youtube.com".

Definition detectYouTubeContext (d : Doc) : Context :=
  let u := href d in
  if isHomeUrl u then
    {| app := "youtube"; title := "Home Page"; sender := "";
       participants := []; threadId := ""; channel := "";
       url := u; key := "youtube:Home Page"; isLoading := false |}
  else
    let isVideoPage := includes "watch?v=" u in
    let title1 :=
      if isVideoPage then
        let title0 :=
          match ytTitle d with
          | Some text => orElse (trim text) ""
          | None => ""
          end in
        if negb (truthy title0) || String.eqb title0 "YouTube" then
          let pageTitle :=
            match titleTagText d with
            | Some t => orElse t (docTitle d)
            | None => docTitle d
            end in
          if truthy pageTitle && negb (String.eqb pageTitle "YouTube")
             && negb (includes "watch?v=" pageTitle)
          then trim (removeFirst " - YouTube" pageTitle)
          else title0
        else title0
      else
        let path := pathname d in
        if includes "/results" path then
          match searchQuery d with
          | Some q => if truthy q then "Search: " ++ q else "YouTube Search"
          | None => "YouTube Search"
          end
        else if includes "/channel/" path || includes "/@" path then
          match ytChannelName d with
          | Some text => orElse (trim text) "YouTube Channel"
          | None => "YouTube Channel"
          end
        else if includes "/feed/subscriptions" path then "Subscriptions"
        else if includes "/feed/trending" path then "Trending"
        else if includes "/feed/library" path then "Library"
        else if includes "/feed/history" path then "History"
        else "YouTube" in
    let channel0 :=
      if isVideoPage then
        match ytChannel d with
        | Some text => orElse (trim text) ""
        | None => ""
        end
      else "" in
    {| app := "youtube";
       title := orElse title1 "YouTube";
       sender := "";
       participants := if truthy channel0 then [channel0] else [];
       threadId := "";
       channel := channel0;
       url := u;
       key := "youtube:" ++ title1;
       isLoading := false |}.

(** [detectContext]: dispatch on the host name; [None] is the script's
    [null] (unsupported page). *)
Definition detectContext (d : Doc) : option Context :=
  if String.eqb (hostname d) "mail.google.com" then Some (detectGmailContext d)
  else if String.eqb (hostname d) "meet.google.com" then Some (detectMeetContext d)
  else if String.eqb (hostname d) "docs.google.com" then Some (detectDocsContext d)
  else if String.eqb (hostname d) "calendar.google.com" then Some (detectCalendarContext d)
  else if String.eqb (hostname d) "www.youtube.com" then Some (detectYouTubeContext d)
  else None.

(** *** The resolver: watchers, timers and the stabilisation loop *)

(** A pending [setTimeout] callback of [waitForContextAndUpdate]. Both the
    2000 ms callback and every 200 ms re-run of [checkAndUpdate] are a poll
    that closes over the [url] read when the cycle was triggered and over
    the cycle's own [attempts] counter; the 2000 ms callback sets the
    counter to 0 and polls at once. ([lastSeenTitle] only feeds the
    console and is left out.) *)
Inductive Task : Type :=
| Poll (url0 : string) (attempts : nat).

(** State of the content script. Time is in milliseconds. The sidebar is
    opened and closed by clicks only, which the runs below do not contain,
    so [sidebarOpen] and [iframeReady] stay as they start. *)
Record State : Type := mkState {
  currentContext : option Context;
  sidebarOpen : bool;
  iframeReady : bool;   (* getElementById('context-buddy-iframe') has a contentWindow *)
  lastUrl : string;     (* closure variables of observeUrlChanges *)
  lastTitle : string;
  timers : list (N * Task);        (* pending callbacks, soonest first *)
  outbox : list (N * Msg);         (* messages posted to the frame, oldest first *)
  finalized : list (N * Context)     (* calls of updateContext, oldest first *)
}.

Definition setTimers (q : list (N * Task)) (st : State) : State :=
  mkState (currentContext st) (sidebarOpen st) (iframeReady st)
          (lastUrl st) (lastTitle st) q (outbox st) (finalized st).

Definition setLast (u t : string) (st : State) : State :=
  mkState (currentContext st) (sidebarOpen st) (iframeReady st)
          u t (timers st) (outbox st) (finalized st).

(** [iframe.contentWindow.postMessage(m, '*')], guarded as in the script. *)
Definition postToSidebar (now : N) (m : Msg) (st : State) : State :=
  if sidebarOpen st && iframeReady st then
    mkState (currentContext st) (sidebarOpen st) (iframeReady st)
            (lastUrl st) (lastTitle st) (timers st)
            (outbox st ++ [(now, m)]) (finalized st)
  else st.

(** Callbacks due at the same instant run in the order they were set. *)
Fixpoint insertTimer (x : N * Task) (q : list (N * Task)) : list (N * Task) :=
  match q with
  | [] => [x]
  | y :: q' => if (fst y <=? fst x)%N then y :: insertTimer x q' else x :: q
  end.

Definition setTimeout (now : N) (k : Task) (delay : N) (st : State) : State :=
  setTimers (insertTimer ((now + delay)%N, k) (timers st)) st.

(** The placeholder sent on every trigger. *)
Definition loadingContext (u : string) : Context :=
  {| app := "youtube"; title := "Loading..."; sender := ""; participants := [];
     threadId := ""; channel := ""; url := u; key := "youtube:loading";
     isLoading := true |}.

Definition maxAttempts : nat := 25.

Definition hasRealTitle (c : Context) : bool :=
  truthy (title c)
  && negb (String.eqb (title c) "YouTube")
  && negb (String.eqb (title c) "Loading...")
  && (0 <? String.length (title c))
  && negb (includes "watch?v=" (title c)).

(** What one run of [checkAndUpdate] decides. *)
Inductive Outcome : Type :=
| Commit (c : Context)   (* updateContext(newContext) *)
| Retry                  (* setTimeout(checkAndUpdate, 200) *)
| GiveUp.                (* return without a timer *)

(** The body of [checkAndUpdate] after [attempts++]: [attempts] is the
    incremented counter, [d] the document at the instant of the poll,
    [url0] the address captured by the cycle. *)
Definition checkAndUpdate (d : Doc) (url0 : string) (attempts : nat) : Outcome :=
  match detectContext d with
  | None => if attempts <? maxAttempts then Retry else GiveUp
  | Some newContext =>
      if isHomeUrl url0 then Commit newContext
      else
        let isYouTubeVideoPage :=
          String.eqb (app newContext) "youtube" && includes "watch?v=" url0 in
        if isYouTubeVideoPage then
          if hasRealTitle newContext || (maxAttempts <=? attempts)
          then Commit newContext
          else Retry
        else Commit newContext
  end.

Definition updateContext (now : N) (newContext : Context) (st : State) : State :=
  let st1 :=
    mkState (Some newContext) (sidebarOpen st) (iframeReady st)
            (lastUrl st) (lastTitle st) (timers st) (outbox st)
            (finalized st ++ [(now, newContext)]) in
  postToSidebar now (CONTEXT_UPDATE newContext) st1.

(** The committed contexts among the messages posted to the sidebar. *)
Definition delivered (st : State) : list (N * Context) :=
  flat_map (fun x : N * Msg =>
              match snd x with
              | CONTEXT_UPDATE c => if isLoading c then [] else [(fst x, c)]
              | PAGE_CONTENT _ => []
              end)
           (outbox st).

(** What the observers of [observeUrlChanges] react to. *)
Inductive Event : Type :=
| Mutation             (* MutationObserver on the document *)
| TitleMutation        (* MutationObserver on the title element *)
| PushState            (* patched history.pushState *)
| ReplaceState         (* patched history.replaceState *)
| PopState
| YtNavigateFinish
| YtNavigateStart
| YtPageDataUpdated
| VisibilityChange.

Section Resolver.

(** The host document as a function of time. *)
Variable doc : N -> Doc.

Definition waitForContextAndUpdate (forceUpdate : bool) (now : N) (st : State) : State :=
  let url0 := href (doc now) in
  let st1 := postToSidebar now (CONTEXT_UPDATE (loadingContext url0)) st in
  setTimeout now (Poll url0 0) 2000%N st1.

(** The decision each observer takes: the new values of [lastUrl] and
    [lastTitle], and whether it calls [waitForContextAndUpdate]. *)
Definition observe (ev : Event) (d : Doc) (lastU lastT : string)
  : string * string * bool :=
  match ev with
  | Mutation =>
      if negb (String.eqb lastU (href d)) then (href d, docTitle d, true)
      else if negb (String.eqb lastT (docTitle d)) && includes "watch?v=" (href d)
      then (lastU, docTitle d, true)
      else (lastU, lastT, false)
  | TitleMutation =>
      if negb (String.eqb lastT (docTitle d)) && includes "watch?v=" (href d)
      then (lastU, docTitle d, true)
      else (lastU, lastT, false)
  | PushState | ReplaceState => (lastU, lastT, true)
  | PopState | YtNavigateFinish => (href d, docTitle d, true)
  | YtNavigateStart => (lastU, lastT, false)
  | YtPageDataUpdated => (lastU, lastT, true)
  | VisibilityChange =>
      if negb (hidden d) && negb (String.eqb (href d) lastU)
      then (href d, docTitle d, true)
      else (lastU, lastT, false)
  end.

Definition forced (ev : Event) : bool :=
  match ev with
  | PushState | ReplaceState | PopState | YtNavigateFinish | VisibilityChange => true
  | _ => false
  end.

Definition onEvent (ev : Event) (now : N) (st : State) : State :=
  match observe ev (doc now) (lastUrl st) (lastTitle st) with
  | (u, t, go) =>
      let st1 := setLast u t st in
      if go then waitForContextAndUpdate (forced ev) now st1 else st1
  end.

(** A timer fires at its due time [now]. *)
Definition fire (now : N) (k : Task) (st : State) : State :=
  match k with
  | Poll url0 attempts =>
      let attempts' := S attempts in
      match checkAndUpdate (doc now) url0 attempts' with
      | Commit c => updateContext now c st
      | Retry => setTimeout now (Poll url0 attempts') 200%N st
      | GiveUp => st
      end
  end.

(** The event loop: the next pending callback runs when it is due no later
    than the next observed event, else the event is handled. *)
Fixpoint run (fuel : nat) (evs : list (N * Event)) (st : State) : State :=
  match fuel with
  | O => st
  | S f =>
      match timers st, evs with
      | [], [] => st
      | (d, k) :: q, [] => run f [] (fire d k (setTimers q st))
      | [], (t, ev) :: evs' => run f evs' (onEvent ev t st)
      | (d, k) :: q, (t, ev) :: evs' =>
          if (d <=? t)%N then run f evs (fire d k (setTimers q st))
          else run f evs' (onEvent ev t st)
      end
  end.

(** One cycle on its own: the polls that follow a callback due at [t] with
    counter [attempts], and the commit they end in, if any. *)
Fixpoint pollFrom (fuel : nat) (url0 : string) (t : N) (attempts : nat)
  : option (N * Context) :=
  match fuel with
  | O => None
  | S f =>
      match checkAndUpdate (doc t) url0 (S attempts) with
      | Commit c => Some (t, c)
      | Retry => pollFrom f url0 (t + 200)%N (S attempts)
      | GiveUp => None
      end
  end.

(** Polls a cycle may still make when its counter is [attempts]. *)
Definition pollsLeft (attempts : nat) : nat := S (maxAttempts - S attempts).

Definition commitOf (x : N * Task) : list (N * Context) :=
  match x with
  | (t, Poll url0 attempts) =>
      match pollFrom (pollsLeft attempts) url0 t attempts with
      | Some r => [r]
      | None => []
      end
  end.

(** The cycle a trigger at [t] starts. *)
Definition cycleOf (t : N) : list (N * Context) :=
  commitOf ((t + 2000)%N, Poll (href (doc t)) 0).

(** The instants at which the observers call [waitForContextAndUpdate]. *)
Fixpoint triggerTimes (evs : list (N * Event)) (lastU lastT : string) : list N :=
  match evs with
  | [] => []
  | (t, ev) :: evs' =>
      match observe ev (doc t) lastU lastT with
      | (u, ti, go) =>
          if go then t :: triggerTimes evs' u ti else triggerTimes evs' u ti
      end
  end.

(** Enough fuel for [run]: every event costs one step and may start a
    cycle of [maxAttempts] polls. *)
Definition budget (evs : list (N * Event)) (q : list (N * Task)) : nat :=
  list_sum (map (fun x => match snd x with Poll _ a => pollsLeft a end) q)
  + S maxAttempts * List.length evs.

End Resolver.

End Content.

(* ------------------------------------------------------------------------- *)
(** ** The sidebar *)
(* ------------------------------------------------------------------------- *)

Module Sidebar.

Local Open Scope Z_scope.

Record Note : Type := mkNote {
  text : string;
  timestamp : Z;
  context : Context
}.

(** [{...note, contextKey, index}] *)
Record RelatedNote : Type := mkRelated {
  relNote : Note;
  contextKey : string;
  index : nat
}.

(** [{...note, app, contextTitle, contextKey, index}] *)
Record AllNote : Type := mkAll {
  allNote : Note;
  allApp : string;
  allContextTitle : string;
  allContextKey : string;
  allIndex : nat
}.

(** *** chrome.storage.local *)

(** A stored value is an array of notes or something else (the service
    worker stores an object under [notes_index]). *)
Inductive Stored : Type :=
| Notes (notes : list Note)
| Other.

(** The store, in the order in which [Object.keys] lists it. *)
Definition Store : Type := list (string * Stored).

Fixpoint lookup (k : string) (s : Store) : option Stored :=
  match s with
  | [] => None
  | (k', v) :: r => if String.eqb k' k then Some v else lookup k r
  end.

Fixpoint put (k : string) (v : Stored) (s : Store) : Store :=
  match s with
  | [] => [(k, v)]
  | (k', v') :: r =>
      if String.eqb k' k then (k, v) :: r else (k', v') :: put k v r
  end.

(** [chrome.storage.local.set({[k]: v}, callback)]: the callback runs
    whether or not the write went through ([ok]); a failed write leaves
    the store as it was and only sets [chrome.runtime.lastError]. *)
Definition storageSet (ok : bool) (k : string) (v : Stored) (s : Store) : Store :=
  if ok then put k v s else s.

(** The bucket of a key as [list(key)] sees it: [result[key] || []]. *)
Definition bucket (k : string) (s : Store) : list Note :=
  match lookup k s with
  | Some (Notes notes) => notes
  | _ => []
  end.

(** *** Arrays *)

Definition indexed {A : Type} (l : list A) : list (nat * A) :=
  combine (seq 0 (List.length l)) l.

Definition removeAt {A : Type} (n : nat) (l : list A) : list A :=
  firstn n l ++ skipn (S n) l.

(** [l.splice(index, 1)]: a negative index counts from the end, the start
    is clamped to [0, length], and one element is removed when there is
    one at the start position. *)
Definition splice1 {A : Type} (index : Z) (l : list A) : list A :=
  let len := Z.of_nat (List.length l) in
  let start := if index <? 0 then Z.max (len + index) 0 else Z.min index len in
  removeAt (Z.to_nat start) l.

(** [l.sort(cmp)]: stable; [x] stays in front of [y] unless [cmp x y > 0]. *)
Fixpoint insertBy {A : Type} (cmp : A -> A -> Z) (x : A) (l : list A) : list A :=
  match l with
  | [] => [x]
  | y :: r => if cmp x y <=? 0 then x :: l else y :: insertBy cmp x r
  end.

Definition sortBy {A : Type} (cmp : A -> A -> Z) (l : list A) : list A :=
  fold_right (insertBy cmp) [] l.

(** *** The page of the sidebar *)

Inductive View : Type := CurrentView | AllView.

Inductive SortOrder : Type := Newest | Oldest.

Inductive Icon : Type :=
| IconPage | IconMail | IconMeet | IconDocs | IconCalendar
| IconHome | IconSearch | IconSubscriptions | IconHistory | IconLibrary
| IconTrending | IconVideo.

(** Text of [#contextTitle]. *)
Inductive HeaderTitle : Type :=
| HeaderLoading                          (* 'Loading new context...' *)
| HeaderOf (icon : Icon) (t : string).

(** Content of [#notesList]. *)
Inductive NotesList : Type :=
| ListLoading
| ListEmpty
| ListNotes (items : list (nat * Note)).  (* each with the index its button deletes *)

Record Dom : Type := mkDom {
  noteInput : string;               (* #noteInput value *)
  headerApp : string;               (* #contextApp *)
  headerTitle : HeaderTitle;        (* #contextTitle *)
  titleDimmed : bool;               (* #contextTitle opacity 0.5 *)
  notesList : NotesList;
  relatedVisible : bool;            (* #relatedNotesSection displayed *)
  relatedList : list RelatedNote;   (* #relatedNotesList items *)
  allNotesList : list AllNote;      (* #allNotesList items *)
  statsBar : nat * nat              (* #noteCount, #appCount *)
}.

Record UI : Type := mkUI {
  currentContext : option Context;
  currentNotes : list Note;
  relatedNotes : list RelatedNote;
  allNotes : list AllNote;
  currentView : View;
  appFilter : string;
  sortOrder : SortOrder;
  dom : Dom;
  storage : Store;
  pendingReloads : nat   (* 100 ms callbacks of reloadExtension not yet run *)
}.

(** An uncaught [TypeError] ends the handler; the model does not describe
    the page after it. *)
Inductive Result : Type :=
| Done (u : UI)
| Thrown.

Definition bind (r : Result) (f : UI -> Result) : Result :=
  match r with
  | Done u => f u
  | Thrown => Thrown
  end.

Definition setContext (c : option Context) (u : UI) : UI :=
  mkUI c (currentNotes u) (relatedNotes u) (allNotes u) (currentView u)
       (appFilter u) (sortOrder u) (dom u) (storage u) (pendingReloads u).

Definition setCurrentNotes (l : list Note) (u : UI) : UI :=
  mkUI (currentContext u) l (relatedNotes u) (allNotes u) (currentView u)
       (appFilter u) (sortOrder u) (dom u) (storage u) (pendingReloads u).

Definition setRelatedNotes (l : list RelatedNote) (u : UI) : UI :=
  mkUI (currentContext u) (currentNotes u) l (allNotes u) (currentView u)
       (appFilter u) (sortOrder u) (dom u) (storage u) (pendingReloads u).

Definition setAllNotes (l : list AllNote) (u : UI) : UI :=
  mkUI (currentContext u) (currentNotes u) (relatedNotes u) l (currentView u)
       (appFilter u) (sortOrder u) (dom u) (storage u) (pendingReloads u).

Definition setView (v : View) (u : UI) : UI :=
  mkUI (currentContext u) (currentNotes u) (relatedNotes u) (allNotes u) v
       (appFilter u) (sortOrder u) (dom u) (storage u) (pendingReloads u).

Definition setDom (d : Dom) (u : UI) : UI :=
  mkUI (currentContext u) (currentNotes u) (relatedNotes u) (allNotes u)
       (currentView u) (appFilter u) (sortOrder u) d (storage u)
       (pendingReloads u).

Definition setStorage (s : Store) (u : UI) : UI :=
  mkUI (currentContext u) (currentNotes u) (relatedNotes u) (allNotes u)
       (currentView u) (appFilter u) (sortOrder u) (dom u) s
       (pendingReloads u).

Definition setPending (n : nat) (u : UI) : UI :=
  mkUI (currentContext u) (currentNotes u) (relatedNotes u) (allNotes u)
       (currentView u) (appFilter u) (sortOrder u) (dom u) (storage u) n.

Definition setNoteInput (s : string) (d : Dom) : Dom :=
  mkDom s (headerApp d) (headerTitle d) (titleDimmed d) (notesList d)
        (relatedVisible d) (relatedList d) (allNotesList d) (statsBar d).

Definition setHeader (a : string) (t : HeaderTitle) (d : Dom) : Dom :=
  mkDom (noteInput d) a t (titleDimmed d) (notesList d)
        (relatedVisible d) (relatedList d) (allNotesList d) (statsBar d).

Definition setDimmed (b : bool) (d : Dom) : Dom :=
  mkDom (noteInput d) (headerApp d) (headerTitle d) b (notesList d)
        (relatedVisible d) (relatedList d) (allNotesList d) (statsBar d).

Definition setNotesList (l : NotesList) (d : Dom) : Dom :=
  mkDom (noteInput d) (headerApp d) (headerTitle d) (titleDimmed d) l
        (relatedVisible d) (relatedList d) (allNotesList d) (statsBar d).

Definition setRelatedVisible (b : bool) (d : Dom) : Dom :=
  mkDom (noteInput d) (headerApp d) (headerTitle d) (titleDimmed d)
        (notesList d) b (relatedList d) (allNotesList d) (statsBar d).

Definition setRelatedList (l : list RelatedNote) (d : Dom) : Dom :=
  mkDom (noteInput d) (headerApp d) (headerTitle d) (titleDimmed d)
        (notesList d) (relatedVisible d) l (allNotesList d) (statsBar d).

Definition setAllNotesList (l : list AllNote) (n : nat * nat) (d : Dom) : Dom :=
  mkDom (noteInput d) (headerApp d) (headerTitle d) (titleDimmed d)
        (notesList d) (relatedVisible d) (relatedList d) l n.

(** *** Rendering *)

Definition showLoadingState (u : UI) : UI :=
  let d := dom u in
  let d1 := setDimmed true (setHeader (headerApp d) HeaderLoading d) in
  setDom (setRelatedVisible false (setNotesList ListLoading d1)) u.

Definition hideLoadingState (u : UI) : UI :=
  setDom (setDimmed false (dom u)) u.

Definition iconOf (c : Context) : Icon :=
  if String.eqb (app c) "gmail" then IconMail
  else if String.eqb (app c) "meet" then IconMeet
  else if String.eqb (app c) "docs" then IconDocs
  else if String.eqb (app c) "calendar" then IconCalendar
  else if String.eqb (app c) "youtube" then
    if String.eqb (title c) "Home Page" then IconHome
    else if prefix "Search:" (title c) then IconSearch
    else if String.eqb (title c) "Subscriptions" then IconSubscriptions
    else if String.eqb (title c) "History" then IconHistory
    else if String.eqb (title c) "Library" then IconLibrary
    else if String.eqb (title c) "Trending" then IconTrending
    else IconVideo
  else IconPage.

Definition updateContextDisplay (u : UI) : UI :=
  match currentContext u with
  | None => u
  | Some c => setDom (setHeader (app c) (HeaderOf (iconOf c) (title c)) (dom u)) u
  end.

(** Newest first; every item keeps the index its delete button passes. *)
Definition renderNotes (u : UI) : UI :=
  match currentNotes u with
  | [] => setDom (setNotesList ListEmpty (dom u)) u
  | _ => setDom (setNotesList (ListNotes (rev (indexed (currentNotes u)))) (dom u)) u
  end.

Definition newestFirst (a b : RelatedNote) : Z :=
  timestamp (relNote b) - timestamp (relNote a).

(** [renderRelatedNotes]: the sort is in place, so it also reorders the
    global [relatedNotes]; an empty result only hides the section. *)
Definition renderRelatedNotes (u : UI) : UI :=
  match relatedNotes u with
  | [] => setDom (setRelatedVisible false (dom u)) u
  | _ =>
      let sorted := sortBy newestFirst (relatedNotes u) in
      let recentRelated := firstn 5 sorted in
      let u1 := setRelatedNotes sorted u in
      setDom (setRelatedList recentRelated (setRelatedVisible true (dom u1))) u1
  end.

(** What the related section shows. *)
Definition surfaced (u : UI) : list RelatedNote :=
  if relatedVisible (dom u) then relatedList (dom u) else [].

(** *** Title similarity *)

Definition commonWords : list string :=
  ["the"; "a"; "an"; "and"; "or"; "but"; "in"; "on"; "at"; "to"; "for"].

(** The filter applied to the words of either title. *)
Definition keepWord (w : string) : bool :=
  (2 <? String.length w)%nat && negb (includesStr commonWords w).

Definition isSimilarTitle (title1 title2 : string) : bool :=
  if negb (truthy title1) || negb (truthy title2) then false
  else if String.eqb title1 title2 then false
  else
    let words1 := filter keepWord (splitWs title1) in
    let words2 := filter keepWord (splitWs title2) in
    let commonCount := List.length (filter (fun w => includesStr words2 w) words1) in
    (0 <? commonCount)%nat.

(** The test [findRelatedNotes] makes on two titles: both reach
    [isSimilarTitle] lower-cased. *)
Definition relatedTitles (title1 title2 : string) : bool :=
  isSimilarTitle (toLowerCase title1) (toLowerCase title2).

(** The title that [findRelatedNotes] reads off a key:
    [key.split(':')[1]?.toLowerCase() || '']. *)
Definition keyTitleOf (k : string) : string :=
  match nth_error (splitOn ":"%char k) 1 with
  | Some t => orElse (toLowerCase t) ""
  | None => ""
  end.

(** The notes [findRelatedNotes] takes from one stored entry. *)
Definition relatedOfEntry (currentKey currentTitle : string)
           (entry : string * Stored) : list RelatedNote :=
  let (k, v) := entry in
  if String.eqb k currentKey then []
  else if negb (includes ":" k) then []
  else
    match v with
    | Other => []
    | Notes [] => []
    | Notes notes =>
        if isSimilarTitle currentTitle (keyTitleOf k)
        then map (fun p => mkRelated (snd p) k (fst p)) (indexed notes)
        else []
    end.

Definition findRelatedNotes (u : UI) : UI :=
  match currentContext u with
  | None => u
  | Some c =>
      let currentKey := key c in
      let currentTitle := toLowerCase (title c) in
      let found := flat_map (relatedOfEntry currentKey currentTitle) (storage u) in
      renderRelatedNotes (setRelatedNotes found u)
  end.

(** *** The all-notes view *)

Definition allOfEntry (entry : string * Stored) : list AllNote :=
  let (k, v) := entry in
  if negb (includes ":" k) then []
  else
    match v with
    | Other => []
    | Notes [] => []
    | Notes notes =>
        match splitOn ":"%char k with
        | [] => []
        | a :: titleParts =>
            map (fun p => mkAll (snd p) a (join ":" titleParts) k (fst p))
                (indexed notes)
        end
    end.

Definition byOrder (o : SortOrder) (a b : AllNote) : Z :=
  match o with
  | Newest => timestamp (allNote b) - timestamp (allNote a)
  | Oldest => timestamp (allNote a) - timestamp (allNote b)
  end.

(** [renderAllNotes]: without a filter the sorted array is [allNotes]
    itself. *)
Definition renderAllNotes (u : UI) : UI :=
  let unfiltered := String.eqb (appFilter u) "all" in
  let filteredNotes :=
    if unfiltered then allNotes u
    else filter (fun n => String.eqb (allApp n) (appFilter u)) (allNotes u) in
  let sorted := sortBy (byOrder (sortOrder u)) filteredNotes in
  let u1 := if unfiltered then setAllNotes sorted u else u in
  let uniqueApps := nodup string_dec (map allApp sorted) in
  setDom (setAllNotesList sorted (List.length sorted, List.length uniqueApps) (dom u1)) u1.

Definition loadAllNotes (u : UI) : UI :=
  renderAllNotes (setAllNotes (flat_map allOfEntry (storage u)) u).

Definition switchView (v : View) (u : UI) : UI :=
  let u1 := setView v u in
  match v with
  | AllView => loadAllNotes u1
  | CurrentView => u1
  end.

(** *** Loading, adding and deleting notes *)

(** [loadNotes]: [currentNotes = result[key] || []], then [renderNotes].
    A stored value that is not an array makes [renderNotes] raise. *)
Definition loadNotes (u : UI) : Result :=
  match currentContext u with
  | None => Done u
  | Some c =>
      match lookup (key c) (storage u) with
      | Some Other => Thrown
      | Some (Notes notes) => Done (renderNotes (setCurrentNotes notes u))
      | None => Done (renderNotes (setCurrentNotes [] u))
      end
  end.

(** [handleAddNote]: [now] is [Date.now()], [writeOk] tells whether the
    write to the store goes through. *)
Definition handleAddNote (now : Z) (writeOk : bool) (u : UI) : UI :=
  let noteText := trim (noteInput (dom u)) in
  match currentContext u with
  | None => u
  | Some c =>
      if negb (truthy noteText) then u
      else
        let note := mkNote noteText now c in
        let u1 := setCurrentNotes (currentNotes u ++ [note]) u in
        let u2 := setStorage
                    (storageSet writeOk (key c) (Notes (currentNotes u1)) (storage u1))
                    u1 in
        (* the callback of set *)
        let u3 := setDom (setNoteInput "" (dom u2)) u2 in
        let u4 := findRelatedNotes (renderNotes u3) in
        match currentView u4 with
        | AllView => loadAllNotes u4
        | CurrentView => u4
        end
  end.

(** [handleDeleteNote]: [confirmed] is the answer to the confirm dialog. *)
Definition handleDeleteNote (confirmed writeOk : bool) (index : Z)
           (relatedContextKey : option string) (fromAllView : bool)
           (u : UI) : Result :=
  if negb confirmed then Done u
  else if truthyOpt relatedContextKey || fromAllView then
    match relatedContextKey with
    | None => Thrown   (* storage.get([null]) is refused *)
    | Some contextKey =>
        match lookup contextKey (storage u) with
        | Some Other => Thrown   (* splice is not a function *)
        | found =>
            let notes := match found with Some (Notes l) => l | _ => [] end in
            let notes' := splice1 index notes in
            let u1 := setStorage
                        (storageSet writeOk contextKey (Notes notes') (storage u))
                        u in
            Done (if fromAllView then loadAllNotes u1 else findRelatedNotes u1)
        end
    end
  else
    let u1 := setCurrentNotes (splice1 index (currentNotes u)) u in
    match currentContext u1 with
    | None => Thrown   (* currentContext.key on null *)
    | Some c =>
        let u2 := setStorage
                    (storageSet writeOk (key c) (Notes (currentNotes u1)) (storage u1))
                    u1 in
        Done (renderNotes u2)
    end.

(** *** Context updates *)

Definition reloadExtension (u : UI) : UI :=
  let u1 := showLoadingState u in
  let u2 := setDom (setNoteInput "" (dom u1)) u1 in
  let u3 := match currentView u2 with
            | AllView => switchView CurrentView u2
            | CurrentView => u2
            end in
  setPending (S (pendingReloads u3)) u3.

(** The callback [reloadExtension] sets for 100 ms later. *)
Definition reloadTimeout (u : UI) : Result :=
  let u0 := setPending (Nat.pred (pendingReloads u)) u in
  bind (loadNotes (updateContextDisplay u0))
       (fun u1 => Done (hideLoadingState (findRelatedNotes u1))).

(** The message listener of [setupMessageListener]. *)
Definition onMessage (m : Msg) (u : UI) : UI :=
  match m with
  | CONTEXT_UPDATE newContext =>
      if isLoading newContext then
        showLoadingState (setContext (Some newContext) u)
      else
        let previousUrl := option_map url (currentContext u) in
        let previousTitle := option_map title (currentContext u) in
        let u1 := setContext (Some newContext) u in
        let urlChanged :=
          truthyOpt previousUrl
          && negb (sameStr previousUrl (Some (url newContext))) in
        if urlChanged || negb (truthyOpt previousUrl)
           || sameStr previousTitle (Some "Loading...")
        then reloadExtension u1
        else updateContextDisplay u1
  | PAGE_CONTENT _ => u
  end.

End Sidebar.

(* ------------------------------------------------------------------------- *)
(** ** The similarity rule as the specification words it *)
(* ------------------------------------------------------------------------- *)

Module Spec.

Definition stopWords : list string :=
  ["the"; "a"; "an"; "and"; "or"; "but"; "in"; "on"; "at"; "to"; "for"].

(** Lower-case the title, split on white space, drop tokens of length at
    most 2 and stop words. *)
Definition tokens (t : string) : list string :=
  filter (fun w => negb (String.length w <=? 2)
                   && negb (existsb (String.eqb w) stopWords))
         (splitWs (toLowerCase t)).

(** Two titles are related when their token sets meet and the lower-cased
    titles differ. *)
Definition related (a b : string) : Prop :=
  (exists w, In w (tokens a) /\ In w (tokens b))
  /\ toLowerCase a <> toLowerCase b.

End Spec.


(* ------------------------------------------------------------------------- *)
(** ** Concrete pages and sidebar states used by the examples *)
(* ------------------------------------------------------------------------- *)

Module Examples.

Import Sidebar.

Definition plainContext (a t u k : string) : Context :=
  {| app := a; title := t; sender := ""; participants := []; threadId := "";
     channel := ""; url := u; key := k; isLoading := false |}.

(** A watch page committed with the fallback title, then with its title. *)
Definition videoFallback : Context :=
  plainContext "youtube" "YouTube" "https://www.youtube.com/watch?v=abc" "youtube:".

Definition videoTitled : Context :=
  plainContext "youtube" "Real Title" "https://www.youtube.com/watch?v=abc"
               "youtube:Real Title".

(** Two threads of one sender: same key, different address. *)
Definition mailFirst : Context :=
  {| app := "gmail"; title := "Lunch"; sender := "alice@example.com";
     participants := ["alice@example.com"]; threadId := "t1";
     url := "https://mail.google.com/mail/u/0/#inbox/t1"; channel := "";
     key := "gmail:alice@example.com"; isLoading := false |}.

Definition mailSecond : Context :=
  {| app := "gmail"; title := "Invoice"; sender := "alice@example.com";
     participants := ["alice@example.com"]; threadId := "t2";
     url := "https://mail.google.com/mail/u/0/#inbox/t2"; channel := "";
     key := "gmail:alice@example.com"; isLoading := false |}.

Definition emptyDom : Dom :=
  {| noteInput := ""; headerApp := ""; headerTitle := HeaderOf IconPage "";
     titleDimmed := false; notesList := ListEmpty; relatedVisible := false;
     relatedList := []; allNotesList := []; statsBar := (0, 0) |}.

(** A sidebar showing [c] with the notes [notes] of its bucket, and [draft]
    typed in the note input. *)
Definition showing (c : Context) (notes : list Note) (draft : string) : UI :=
  let u := {| currentContext := Some c; currentNotes := notes; relatedNotes := [];
              allNotes := []; currentView := CurrentView; appFilter := "all";
              sortOrder := Newest; dom := emptyDom;
              storage := [("notes_index", Other); (key c, Notes notes)];
              pendingReloads := 0 |} in
  let u1 := renderNotes (updateContextDisplay u) in
  setDom (setNoteInput draft (dom u1)) u1.

Definition firstNote : Note := mkNote "first" 1000%Z videoFallback.
Definition secondNote : Note := mkNote "second" 2000%Z videoFallback.

Definition mailNote : Note := mkNote "call back" 1500%Z mailFirst.

(** Pages of the video site. *)
Definition videoSite (address path docT : string)
           (h1 channelName : option string) : Content.Doc :=
  {| Content.href := address;
     Content.hostname := "www.youtube.com";
     Content.pathname := path;
     Content.searchQuery := None;
     Content.docTitle := docT;
     Content.titleTagText := Some docT;
     Content.hidden := false;
     Content.gmailSubject := None;
     Content.gmailThreadMatch := None;
     Content.gmailSenderEmail := None;
     Content.meetTitle := None;
     Content.meetParticipants := [];
     Content.docsTitle := None;
     Content.calendarEvent := None;
     Content.ytTitle := h1;
     Content.ytChannel := None;
     Content.ytChannelName := channelName |}.

Definition watchPage (docT : string) (h1 : option string) : Content.Doc :=
  videoSite "https://www.youtube.com/watch?v=abc" "/watch" docT h1 None.

(** A watch page whose title shows up 4000 ms in: the extractor falls back
    to the site name on the polls at 2000, 2200, ..., 3800 and finds the
    title on the poll at 4000. *)
Definition slowWatchPage (t : N) : Content.Doc :=
  if (t <? 4000)%N then watchPage "YouTube" None
  else watchPage "Real Title - YouTube" (Some "Real Title").

(** A watch page that never shows a title. *)
Definition untitledWatchPage (t : N) : Content.Doc :=
  watchPage "YouTube" None.

(** A channel page whose name element shows up 2500 ms in. *)
Definition channelPage (t : N) : Content.Doc :=
  videoSite "https://www.youtube.com/@cool" "/@cool" "YouTube" None
            (if (t <? 2500)%N then None else Some "Cool Channel").

Definition channelUnnamed : Context :=
  plainContext "youtube" "YouTube Channel" "https://www.youtube.com/@cool"
               "youtube:YouTube Channel".

Definition channelNamed : Context :=
  plainContext "youtube" "Cool Channel" "https://www.youtube.com/@cool"
               "youtube:Cool Channel".

(** A mail page. *)
Definition mailPage (t : N) : Content.Doc :=
  {| Content.href := "https://mail.google.com/mail/u/0/#inbox/t1";
     Content.hostname := "mail.google.com";
     Content.pathname := "/mail/u/0/";
     Content.searchQuery := None;
     Content.docTitle := "Lunch - Gmail";
     Content.titleTagText := Some "Lunch - Gmail";
     Content.hidden := false;
     Content.gmailSubject := Some "Lunch";
     Content.gmailThreadMatch := Some "t1";
     Content.gmailSenderEmail := Some "alice@example.com";
     Content.meetTitle := None;
     Content.meetParticipants := [];
     Content.docsTitle := None;
     Content.calendarEvent := None;
     Content.ytTitle := None;
     Content.ytChannel := None;
     Content.ytChannelName := None |}.

(** The content script at rest, sidebar open. *)
Definition atRest (address docT : string) : Content.State :=
  {| Content.currentContext := None;
     Content.sidebarOpen := true;
     Content.iframeReady := true;
     Content.lastUrl := address;
     Content.lastTitle := docT;
     Content.timers := [];
     Content.outbox := [];
     Content.finalized := [] |}.

End Examples.

(* ------------------------------------------------------------------------- *)
(** ** The page-content reply of the content script *)
(* ------------------------------------------------------------------------- *)

Module PageContent.

(** What [extractPageContent] reads from the host document: the text of
    the first element matching each selector ([None]: no such element). *)
Record Page : Type := mkPage {
  pageHostname : string;             (* window.location.hostname *)
  pageTitle : string;                (* document.title *)
  mailSubject : option string;       (* h2.hP *)
  mailBody : option string;          (* .a3s.aiL *)
  videoHeading : option string;      (* h1.ytd-video-primary-info-renderer *)
  videoHeadingAlt : option string;   (* h1 yt-formatted-string *)
  videoDescription : option string;  (* #description yt-formatted-string *)
  docsHeading : option string;       (* .docs-title-input *)
  docsBody : option string;          (* .kix-page *)
  mainText : option string;          (* main *)
  articleText : option string;       (* article *)
  bodyText : string                  (* document.body.textContent *)
}.

(** [el?.textContent || ''] *)
Definition textOr (o : option string) : string :=
  match o with
  | Some s => s
  | None => ""
  end.

(** [s.substring(0, n)] *)
Fixpoint takeChars (n : nat) (s : string) : string :=
  match n, s with
  | O, _ => EmptyString
  | S _, EmptyString => EmptyString
  | S m, String c r => String c (takeChars m r)
  end.

(** [s.replace(/X+/g, rep)] for a class [X] of code units: every maximal
    run of code units of the class becomes one [rep]. [inRun] tells that
    the previous code unit was of the class. *)
Fixpoint collapseRuns (isX : ascii -> bool) (rep : ascii) (inRun : bool)
         (s : string) : string :=
  match s with
  | EmptyString => EmptyString
  | String c r =>
      if isX c then
        if inRun then collapseRuns isX rep true r
        else String rep (collapseRuns isX rep true r)
      else String c (collapseRuns isX rep false r)
  end.

Definition lineFeed : ascii := ascii_of_nat 10.

Definition newline : string := String lineFeed EmptyString.

Definition maxContent : nat := 3000.

(** The clean-up of the generic branch:
    [.replace(/\s+/g, ' ').replace(/\n+/g, '\n').trim().substring(0, 3000)] *)
Definition cleanUp (mainContent : string) : string :=
  takeChars maxContent
    (trim (collapseRuns (Ascii.eqb lineFeed) lineFeed false
             (collapseRuns isSpace " "%char false mainContent))).

Definition extractPageContent (p : Page) : string :=
  let content :=
    if String.eqb (pageHostname p) "mail.google.com" then
      let subject := textOr (mailSubject p) in
      let emailBody := textOr (mailBody p) in
      takeChars maxContent
        ("Subject: " ++ subject ++ newline ++ newline ++ emailBody)
    else if String.eqb (pageHostname p) "www.youtube.com" then
      let title := orElse (textOr (videoHeading p))
                          (orElse (textOr (videoHeadingAlt p)) "") in
      let description := textOr (videoDescription p) in
      takeChars maxContent
        ("Title: " ++ title ++ newline ++ newline ++ "Description: " ++ description)
    else if String.eqb (pageHostname p) "docs.google.com" then
      let docTitle := textOr (docsHeading p) in
      let docContent := textOr (docsBody p) in
      takeChars maxContent
        ("Title: " ++ docTitle ++ newline ++ newline ++ docContent)
    else
      let title := pageTitle p in
      let mainContent :=
        orElse (textOr (mainText p)) (orElse (textOr (articleText p)) (bodyText p)) in
      "Title: " ++ title ++ newline ++ newline ++ cleanUp mainContent in
  orElse content "Unable to extract page content".

End PageContent.

(* ------------------------------------------------------------------------- *)
(** ** The service worker and the start of the content script *)
(* ------------------------------------------------------------------------- *)

Module Worker.

Import Sidebar.

(** [chrome.runtime.onInstalled] with reason 'install': the index entry is
    written when the store has nothing under [notes_index]. ([Other]
    stands for the object written here, which is truthy.) *)
Definition onInstalled (install : bool) (s : Store) : Store :=
  if install then
    match lookup "notes_index" s with
    | None => put "notes_index" Other s
    | Some _ => s
    end
  else s.

(** [checkForNotes]: [notes && notes.length > 0]. *)
Definition checkForNotes (contextKey : string) (s : Store) : bool :=
  match lookup contextKey s with
  | Some (Notes notes) => (0 <? List.length notes)%nat
  | Some Other => false
  | None => false
  end.

End Worker.

(* ------------------------------------------------------------------------- *)
(** ** Dates in the sidebar *)
(* ------------------------------------------------------------------------- *)

Module Dates.

Local Open Scope Z_scope.


Section FormatDate.

(** [getFullYear] of an instant, in the zone of the browser. *)
Variable fullYear : Z -> Z.


End FormatDate.

End Dates.

(* ------------------------------------------------------------------------- *)
(** ** The badge of a note in the all-notes view *)
(* ------------------------------------------------------------------------- *)

Module Badges.

Import Sidebar.

(** What [getAppEmoji] returns: an emoji of its table, the fallback page
    emoji, or, for a name that every object inherits, the member of
    [Object.prototype] of that name (which is printed into the badge). *)
Inductive Emoji : Type :=
| EmojiOf (icon : Icon)
| Inherited (name : string).

Definition objectPrototypeNames : list string :=
  ["constructor"; "__defineGetter__"; "__defineSetter__"; "hasOwnProperty";
   "__lookupGetter__"; "__lookupSetter__"; "isPrototypeOf";
   "propertyIsEnumerable"; "toString"; "valueOf"; "__proto__";
   "toLocaleString"].

(** [emojis[app] || fallback] *)
Definition getAppEmoji (app : string) : Emoji :=
  if String.eqb app "gmail" then EmojiOf IconMail
  else if String.eqb app "meet" then EmojiOf IconMeet
  else if String.eqb app "docs" then EmojiOf IconDocs
  else if String.eqb app "calendar" then EmojiOf IconCalendar
  else if String.eqb app "youtube" then EmojiOf IconVideo
  else if includesStr objectPrototypeNames app then Inherited app
  else EmojiOf IconPage.

End Badges.

(* ------------------------------------------------------------------------- *)
(** ** More concrete pages and stores *)
(* ------------------------------------------------------------------------- *)

Module MoreExamples.

(** A document titled 'Plan'. *)
Definition docsPage : Content.Doc :=
  Content.mkDoc "https://docs.google.com/document/d/1" "docs.google.com"
                "/document/d/1" None "Plan - Google Docs" None false
                None None None None [] (Some ("Plan", None)) None None None None.

(** The calendar with an event titled 'general' open. *)
Definition calendarEventPage : Content.Doc :=
  Content.mkDoc "https://calendar.google.com/calendar/u/0/r" "calendar.google.com"
                "/calendar/u/0/r" None "Google Calendar" None false
                None None None None [] None
                (Some (Some "general", None, "")) None None None.

(** A page of no supported application. *)
Definition foreignPage (t : N) : Content.Doc :=
  Content.mkDoc "https://example.org/" "example.org" "/" None "Example" None false
                None None None None [] None None None None None.

(** A store with three notes of one sender and two notes of a document,
    beside the index entry of the service worker. *)
Definition mailNotes : list Sidebar.Note :=
  [Sidebar.mkNote "call back" 100%Z Examples.mailFirst;
   Sidebar.mkNote "send invoice" 200%Z Examples.mailFirst;
   Sidebar.mkNote "paid" 200%Z Examples.mailSecond].

Definition planContext : Context :=
  Examples.plainContext "docs" "Q3 Plan" "https://docs.google.com/document/d/2"
                        "doc:Q3 Plan".

Definition planNotes : list Sidebar.Note :=
  [Sidebar.mkNote "check totals" 150%Z planContext;
   Sidebar.mkNote "ask finance" 250%Z planContext].

Definition mixedStore : Sidebar.Store :=
  [("notes_index", Sidebar.Other);
   ("gmail:alice@example.com", Sidebar.Notes mailNotes);
   ("doc:Q3 Plan", Sidebar.Notes planNotes)].

(** The sidebar on the all-notes view of [mixedStore], the notes collected
    and about to be rendered. *)
Definition allViewOf (filter : string) (o : Sidebar.SortOrder) : Sidebar.UI :=
  {| Sidebar.currentContext := Some Examples.mailSecond;
     Sidebar.currentNotes := mailNotes;
     Sidebar.relatedNotes := [];
     Sidebar.allNotes := flat_map Sidebar.allOfEntry mixedStore;
     Sidebar.currentView := Sidebar.AllView;
     Sidebar.appFilter := filter;
     Sidebar.sortOrder := o;
     Sidebar.dom := Examples.emptyDom;
     Sidebar.storage := mixedStore;
     Sidebar.pendingReloads := 0 |}.

End MoreExamples.
(* ------------------------------------------------------------------------- *)
(** ** Title similarity *)
(* ------------------------------------------------------------------------- *)

Section Similarity.

Import Sidebar.

Lemma includesStr_In (xs : list string) (w : string) :
  includesStr xs w = true <-> In w xs.
Proof.
  unfold includesStr. rewrite existsb_exists. split.
  - intros [x [Hin Heq]]. apply String.eqb_eq in Heq. now subst.
  - intros Hin. exists w. split; [assumption | apply String.eqb_refl].
Qed.

Lemma keepWord_spec (t : string) :
  filter keepWord (splitWs (toLowerCase t)) = Spec.tokens t.
Proof.
  unfold Spec.tokens. apply filter_ext. intros w.
  unfold keepWord, includesStr, commonWords, Spec.stopWords.
  f_equal. destruct (Nat.ltb_spec 2 (String.length w));
    destruct (Nat.leb_spec (String.length w) 2); simpl; try reflexivity; lia.
Qed.

Lemma tokens_of_empty (t : string) :
  toLowerCase t = "" -> Spec.tokens t = [].
Proof.
  intros E. unfold Spec.tokens. rewrite E. reflexivity.
Qed.

Lemma truthy_false (s : string) : truthy s = false <-> s = "".
Proof.
  destruct s; simpl; split; intros; congruence.
Qed.

Lemma positive_filter (A : Type) (f : A -> bool) (l : list A) :
  (0 <? List.length (filter f l)) = true <-> exists x, In x l /\ f x = true.
Proof.
  rewrite Nat.ltb_lt. split.
  - intros Hlen. destruct (filter f l) as [|x r] eqn:E; [simpl in Hlen; lia|].
    exists x. apply filter_In. rewrite E. now left.
  - intros [x Hx]. apply filter_In in Hx.
    destruct (filter f l); [contradiction | simpl; lia].
Qed.

(** C6. For every pair of titles, the relatedness test of the code holds
    exactly when the lower-cased titles, split on white space and stripped
    of tokens of length at most 2 and of stop words, share a token, and the
    lower-cased titles are not equal; "Budget Review" and "budget review"
    are not related. *)
Theorem C6_related_iff_shared_token :
  (forall a b : string, relatedTitles a b = true <-> Spec.related a b)
  /\ relatedTitles "Budget Review" "budget review" = false.
Proof.
  split; [|reflexivity].
  intros a b. unfold relatedTitles, isSimilarTitle, Spec.related.
  rewrite !keepWord_spec.
  destruct (truthy (toLowerCase a)) eqn:Ta; simpl.
  2:{ apply truthy_false in Ta. rewrite (tokens_of_empty _ Ta).
      split; [discriminate | intros [[w [[] _]] _]]. }
  destruct (truthy (toLowerCase b)) eqn:Tb; simpl.
  2:{ apply truthy_false in Tb. rewrite (tokens_of_empty _ Tb).
      split; [discriminate | intros [[w [_ []]] _]]. }
  destruct (String.eqb_spec (toLowerCase a) (toLowerCase b)) as [E|N].
  - split; [discriminate | intros [_ Hne]; contradiction].
  - rewrite positive_filter. split.
    + intros [w [H1 H2]]. apply includesStr_In in H2. split; [eauto | assumption].
    + intros [[w [H1 H2]] _]. exists w. split; [assumption|].
      now apply includesStr_In.
Qed.

End Similarity.

(* ------------------------------------------------------------------------- *)
(** ** Related notes *)
(* ------------------------------------------------------------------------- *)

Section Related.

Import Sidebar.
Local Open Scope Z_scope.

Lemma insertBy_perm (A : Type) (cmp : A -> A -> Z) (x : A) (l : list A) :
  Permutation (insertBy cmp x l) (x :: l).
Proof.
  induction l as [|y r IH]; simpl; [reflexivity|].
  destruct (cmp x y <=? 0); [reflexivity|].
  rewrite IH. apply perm_swap.
Qed.

Lemma sortBy_perm (A : Type) (cmp : A -> A -> Z) (l : list A) :
  Permutation (sortBy cmp l) l.
Proof.
  induction l as [|x r IH]; simpl; [reflexivity|].
  rewrite insertBy_perm. now constructor.
Qed.

Lemma insertBy_newestFirst_sorted (x : RelatedNote) (l : list RelatedNote) :
  StronglySorted (fun a b => timestamp (relNote b) <= timestamp (relNote a)) l ->
  StronglySorted (fun a b => timestamp (relNote b) <= timestamp (relNote a))
                 (insertBy newestFirst x l).
Proof.
  induction 1 as [|y r Hs IH Hall]; simpl.
  - repeat constructor.
  - unfold newestFirst at 1.
    destruct (Z.leb_spec (timestamp (relNote y) - timestamp (relNote x)) 0) as [Hle|Hgt].
    + constructor; [now constructor|].
      constructor; [lia|].
      eapply Forall_impl; [|exact Hall]. simpl. intros; lia.
    + constructor; [assumption|].
      rewrite Forall_forall in *. intros z Hz.
      apply (Permutation_in _ (insertBy_perm newestFirst x r)) in Hz.
      destruct Hz as [<-|Hz]; [lia | now apply Hall].
Qed.

Lemma sortBy_newestFirst_sorted (l : list RelatedNote) :
  StronglySorted (fun a b => timestamp (relNote b) <= timestamp (relNote a))
                 (sortBy newestFirst l).
Proof.
  induction l; simpl; [constructor | now apply insertBy_newestFirst_sorted].
Qed.

Lemma sorted_app_ordered (A : Type) (R : A -> A -> Prop) (l1 l2 : list A) :
  StronglySorted R (l1 ++ l2)%list ->
  forall a b, In a l1 -> In b l2 -> R a b.
Proof.
  induction l1 as [|x r IH]; simpl; intros Hs a b Ha Hb; [contradiction|].
  inversion Hs as [|? ? Hs' Hall]; subst.
  destruct Ha as [<-|Ha].
  - rewrite Forall_forall in Hall. apply Hall, in_or_app. now right.
  - now apply IH.
Qed.

Lemma indexed_from_nth (A : Type) (l : list A) (s i : nat) (x : A) :
  In (i, x) (combine (seq s (List.length l)) l) ->
  (s <= i)%nat /\ nth_error l (i - s) = Some x.
Proof.
  revert s. induction l as [|y r IH]; simpl; intros s H; [contradiction|].
  destruct H as [E|H].
  - inversion E; subst. rewrite Nat.sub_diag. split; [lia | reflexivity].
  - apply IH in H. destruct H as [Hle Hn]. split; [lia|].
    replace (i - s)%nat with (S (i - S s)) by lia. exact Hn.
Qed.

Lemma indexed_nth (A : Type) (l : list A) (i : nat) (x : A) :
  In (i, x) (indexed l) -> nth_error l i = Some x.
Proof.
  intros H. apply indexed_from_nth in H. now rewrite Nat.sub_0_r in H.
Qed.

Lemma relatedOfEntry_origin (ck ct : string) (e : string * Stored) (r : RelatedNote) :
  In r (relatedOfEntry ck ct e) ->
  contextKey r <> ck
  /\ exists notes, e = (contextKey r, Notes notes)
                   /\ nth_error notes (index r) = Some (relNote r).
Proof.
  destruct e as [k v]. unfold relatedOfEntry.
  destruct (String.eqb_spec k ck) as [E|N]; [contradiction|].
  destruct (negb (includes ":" k)); [contradiction|].
  destruct v as [notes|]; [|contradiction].
  destruct notes as [|n ns]; [contradiction|].
  destruct (isSimilarTitle ct (keyTitleOf k)); [|contradiction].
  intros H. apply in_map_iff in H. destruct H as [[i x] [<- Hin]]. simpl.
  split; [assumption|]. exists (n :: ns). split; [reflexivity|].
  now apply indexed_nth.
Qed.

Lemma findRelatedNotes_collects (u : UI) (c : Context) :
  currentContext u = Some c ->
  relatedNotes (findRelatedNotes u)
  = sortBy newestFirst
      (flat_map (relatedOfEntry (key c) (toLowerCase (title c))) (storage u)).
Proof.
  intros Hc. unfold findRelatedNotes. rewrite Hc.
  unfold renderRelatedNotes. simpl.
  destruct (flat_map _ _); reflexivity.
Qed.

Lemma findRelatedNotes_result (u : UI) (c : Context) :
  let found := flat_map (relatedOfEntry (key c) (toLowerCase (title c))) (storage u) in
  let u' := findRelatedNotes (setContext (Some c) u) in
  relatedNotes u' = sortBy newestFirst found
  /\ surfaced u' = firstn 5 (sortBy newestFirst found)
  /\ storage u' = storage u.
Proof.
  intros found u'. subst u'. unfold findRelatedNotes. simpl. fold found.
  unfold renderRelatedNotes. simpl.
  destruct found as [|r rs] eqn:E; simpl; auto.
Qed.

(** C7. Whatever the store, the current key and the current title,
    [findRelatedNotes] collects no note whose origin key is the current key
    (each collected note sits in the stored bucket of its origin key at its
    index), and the related section shows at most 5 notes: the 5 most
    recent of all collected notes, across buckets. *)
Theorem C7_findRelated_no_self_and_at_most_5 :
  forall (u : UI) (c : Context),
    let u' := findRelatedNotes (setContext (Some c) u) in
    (forall r, In r (relatedNotes u') ->
       contextKey r <> key c
       /\ exists notes, In (contextKey r, Notes notes) (storage u)
                        /\ nth_error notes (index r) = Some (relNote r))
    /\ (forall r, In r (surfaced u') -> In r (relatedNotes u'))
    /\ (List.length (surfaced u') <= 5)%nat
    /\ List.length (surfaced u') = Nat.min 5 (List.length (relatedNotes u'))
    /\ exists rest,
         relatedNotes u' = (surfaced u' ++ rest)%list
         /\ forall a b, In a (surfaced u') -> In b rest ->
                        timestamp (relNote b) <= timestamp (relNote a).
Proof.
  intros u c u'.
  destruct (findRelatedNotes_result u c) as [Hrel [Hsur _]].
  fold u' in Hrel, Hsur. rewrite Hrel, Hsur.
  set (found := flat_map (relatedOfEntry (key c) (toLowerCase (title c))) (storage u)).
  repeat split.
  - apply (Permutation_in _ (sortBy_perm newestFirst found)) in H.
    apply in_flat_map in H. destruct H as [e [_ Hr]].
    now apply relatedOfEntry_origin in Hr.
  - apply (Permutation_in _ (sortBy_perm newestFirst found)) in H.
    apply in_flat_map in H. destruct H as [e [He Hr]].
    apply relatedOfEntry_origin in Hr. destruct Hr as [_ [notes [-> Hn]]].
    exists notes. split; assumption.
  - intros r Hr. rewrite <- (firstn_skipn 5 (sortBy newestFirst found)).
    apply in_or_app. now left.
  - rewrite length_firstn. lia.
  - apply length_firstn.
  - exists (skipn 5 (sortBy newestFirst found)). split.
    + symmetry. apply firstn_skipn.
    + intros a b Ha Hb.
      refine (@sorted_app_ordered _
                (fun a b => timestamp (relNote b) <= timestamp (relNote a))
                (firstn 5 (sortBy newestFirst found))
                (skipn 5 (sortBy newestFirst found)) _ a b Ha Hb).
      rewrite firstn_skipn. apply sortBy_newestFirst_sorted.
Qed.

End Related.

(* ------------------------------------------------------------------------- *)
(** ** The note store *)
(* ------------------------------------------------------------------------- *)

Section StoreFacts.

Import Sidebar.

Lemma lookup_put_same (k : string) (v : Stored) (s : Store) :
  lookup k (put k v s) = Some v.
Proof.
  induction s as [|[k' v'] r IH]; simpl.
  - now rewrite String.eqb_refl.
  - destruct (String.eqb k' k) eqn:E; simpl.
    + now rewrite String.eqb_refl.
    + now rewrite E.
Qed.

Lemma lookup_put_other (k k' : string) (v : Stored) (s : Store) :
  k' <> k -> lookup k' (put k v s) = lookup k' s.
Proof.
  intros N. induction s as [|[k0 v0] r IH]; simpl.
  - destruct (String.eqb_spec k k'); [congruence | reflexivity].
  - destruct (String.eqb_spec k0 k) as [E|E]; simpl.
    + subst k0. destruct (String.eqb_spec k k'); [congruence | reflexivity].
    + destruct (String.eqb k0 k'); [reflexivity | exact IH].
Qed.

Lemma bucket_put_same (k : string) (l : list Note) (s : Store) :
  bucket k (put k (Notes l) s) = l.
Proof. unfold bucket. now rewrite lookup_put_same. Qed.

Lemma storage_renderRelatedNotes (u : UI) :
  storage (renderRelatedNotes u) = storage u.
Proof. unfold renderRelatedNotes. destruct (relatedNotes u); reflexivity. Qed.

Lemma storage_findRelatedNotes (u : UI) :
  storage (findRelatedNotes u) = storage u.
Proof.
  unfold findRelatedNotes. destruct (currentContext u); [|reflexivity].
  now rewrite storage_renderRelatedNotes.
Qed.

Lemma storage_loadAllNotes (u : UI) : storage (loadAllNotes u) = storage u.
Proof.
  unfold loadAllNotes, renderAllNotes. simpl.
  destruct (String.eqb (appFilter u) "all"); reflexivity.
Qed.

Lemma storage_renderNotes (u : UI) : storage (renderNotes u) = storage u.
Proof. unfold renderNotes. destruct (currentNotes u); reflexivity. Qed.

Lemma currentNotes_renderRelatedNotes (u : UI) :
  currentNotes (renderRelatedNotes u) = currentNotes u.
Proof. unfold renderRelatedNotes. destruct (relatedNotes u); reflexivity. Qed.

Lemma currentNotes_findRelatedNotes (u : UI) :
  currentNotes (findRelatedNotes u) = currentNotes u.
Proof.
  unfold findRelatedNotes. destruct (currentContext u); [|reflexivity].
  now rewrite currentNotes_renderRelatedNotes.
Qed.

Lemma currentNotes_loadAllNotes (u : UI) :
  currentNotes (loadAllNotes u) = currentNotes u.
Proof.
  unfold loadAllNotes, renderAllNotes. simpl.
  destruct (String.eqb (appFilter u) "all"); reflexivity.
Qed.

Lemma currentNotes_renderNotes (u : UI) :
  currentNotes (renderNotes u) = currentNotes u.
Proof. unfold renderNotes. destruct (currentNotes u) eqn:E; simpl; assumption. Qed.

Lemma currentContext_renderRelatedNotes (u : UI) :
  currentContext (renderRelatedNotes u) = currentContext u.
Proof. unfold renderRelatedNotes. destruct (relatedNotes u); reflexivity. Qed.

Lemma currentContext_findRelatedNotes (u : UI) :
  currentContext (findRelatedNotes u) = currentContext u.
Proof.
  unfold findRelatedNotes. destruct (currentContext u) eqn:E; [|assumption].
  now rewrite currentContext_renderRelatedNotes.
Qed.

Lemma currentContext_loadAllNotes (u : UI) :
  currentContext (loadAllNotes u) = currentContext u.
Proof.
  unfold loadAllNotes, renderAllNotes. simpl.
  destruct (String.eqb (appFilter u) "all"); reflexivity.
Qed.

Lemma currentContext_renderNotes (u : UI) :
  currentContext (renderNotes u) = currentContext u.
Proof. unfold renderNotes. destruct (currentNotes u); reflexivity. Qed.

Lemma noteInput_renderNotes (u : UI) :
  noteInput (dom (renderNotes u)) = noteInput (dom u).
Proof. unfold renderNotes. destruct (currentNotes u); reflexivity. Qed.

Lemma noteInput_renderRelatedNotes (u : UI) :
  noteInput (dom (renderRelatedNotes u)) = noteInput (dom u).
Proof. unfold renderRelatedNotes. destruct (relatedNotes u); reflexivity. Qed.

Lemma noteInput_findRelatedNotes (u : UI) :
  noteInput (dom (findRelatedNotes u)) = noteInput (dom u).
Proof.
  unfold findRelatedNotes. destruct (currentContext u); [|reflexivity].
  now rewrite noteInput_renderRelatedNotes.
Qed.

Lemma noteInput_loadAllNotes (u : UI) :
  noteInput (dom (loadAllNotes u)) = noteInput (dom u).
Proof.
  unfold loadAllNotes, renderAllNotes. simpl.
  destruct (String.eqb (appFilter u) "all"); reflexivity.
Qed.

(** What [handleAddNote] leaves in the cache and in the store. *)
Lemma handleAddNote_effect (now : Z) (writeOk : bool) (u : UI) (c : Context) :
  currentContext u = Some c ->
  truthy (trim (noteInput (dom u))) = true ->
  let note := mkNote (trim (noteInput (dom u))) now c in
  let u' := handleAddNote now writeOk u in
  currentContext u' = Some c
  /\ currentNotes u' = (currentNotes u ++ [note])%list
  /\ storage u' =
       storageSet writeOk (key c) (Notes (currentNotes u ++ [note])) (storage u)
  /\ noteInput (dom u') = "".
Proof.
  intros Hc Ht note u'. subst u'. unfold handleAddNote.
  rewrite Hc, Ht. simpl. fold note.
  match goal with
  | |- context [match currentView ?x with _ => _ end] =>
      destruct (currentView x)
  end;
  rewrite ?currentContext_loadAllNotes, ?currentNotes_loadAllNotes,
          ?storage_loadAllNotes,
          ?currentContext_findRelatedNotes, ?currentNotes_findRelatedNotes,
          ?storage_findRelatedNotes,
          ?currentContext_renderNotes, ?currentNotes_renderNotes,
          ?storage_renderNotes,
          ?noteInput_loadAllNotes, ?noteInput_findRelatedNotes,
          ?noteInput_renderNotes; simpl; auto.
Qed.

(** C9. Adding a note and then loading the notes of the context (a write
    that goes through) yields the bucket of the context's key with the new
    note, made of the trimmed text, the timestamp and the context, as its
    last element. *)
Theorem C9_append_then_list_ends_with_note :
  forall (now : Z) (u : UI) (c : Context),
    currentContext u = Some c ->
    truthy (trim (noteInput (dom u))) = true ->
    let note := mkNote (trim (noteInput (dom u))) now c in
    exists u2,
      loadNotes (handleAddNote now true u) = Done u2
      /\ currentNotes u2 = bucket (key c) (storage u2)
      /\ currentNotes u2 = (currentNotes u ++ [note])%list
      /\ last (currentNotes u2) note = note
      /\ nth_error (currentNotes u2) (List.length (currentNotes u)) = Some note.
Proof.
  intros now u c Hc Ht note.
  destruct (handleAddNote_effect now true u Hc Ht) as [Hc' [Hn' [Hs' _]]].
  fold note in Hn', Hs'. simpl in Hs'.
  unfold loadNotes. rewrite Hc', Hs', lookup_put_same.
  eexists. split; [reflexivity|].
  rewrite currentNotes_renderNotes, storage_renderNotes. simpl.
  rewrite Hs', bucket_put_same.
  repeat split.
  - apply last_last.
  - rewrite nth_error_app2, Nat.sub_diag by lia. reflexivity.
Qed.

Lemma C9_witness :
  exists u2,
    loadNotes (handleAddNote 3000 true
                 (Examples.showing Examples.videoTitled [Examples.firstNote] " third "))
    = Done u2
    /\ currentNotes u2
       = [Examples.firstNote; mkNote "third" 3000 Examples.videoTitled].
Proof.
  destruct (@C9_append_then_list_ends_with_note 3000
              (Examples.showing Examples.videoTitled [Examples.firstNote] " third ")
              Examples.videoTitled eq_refl eq_refl)
    as [u2 [H1 [_ [H3 _]]]].
  exists u2. split; [exact H1 | exact H3].
Defined.

End StoreFacts.

(* ------------------------------------------------------------------------- *)
(** ** Failed writes and out-of-range deletes *)
(* ------------------------------------------------------------------------- *)

Section Writes.

Import Sidebar.
Local Open Scope Z_scope.

Lemma removeAt_length (A : Type) (l : list A) : removeAt (List.length l) l = l.
Proof.
  unfold removeAt. rewrite firstn_all, skipn_all2 by (simpl; lia).
  apply app_nil_r.
Qed.

Lemma splice1_beyond (A : Type) (index : Z) (l : list A) :
  Z.of_nat (List.length l) <= index -> splice1 index l = l.
Proof.
  intros H. unfold splice1.
  destruct (Z.ltb_spec index 0) as [Hneg|_]; [lia|].
  rewrite Z.min_r, Nat2Z.id by lia. apply removeAt_length.
Qed.

Lemma bucket_storageSet (ok : bool) (k : string) (l : list Note) (s : Store) :
  bucket k s = l -> bucket k (storageSet ok k (Notes l) s) = l.
Proof.
  intros H. destruct ok; simpl; [apply bucket_put_same | exact H].
Qed.

(** C4, as the claim has it, fails: the write of an added note fails, yet
    the cached bucket has the note and differs from the stored bucket; the
    same after a delete whose write fails. *)
Lemma C4_failed_write_is_cached :
  let u := Examples.showing Examples.videoTitled [Examples.firstNote] "third" in
  currentNotes u = [Examples.firstNote]
  /\ currentNotes (handleAddNote 3000 false u)
     = [Examples.firstNote; mkNote "third" 3000 Examples.videoTitled]
  /\ bucket (key Examples.videoTitled) (storage (handleAddNote 3000 false u))
     = [Examples.firstNote]
  /\ exists u', handleDeleteNote true false 0 None false u = Done u'
                /\ currentNotes u' = []
                /\ bucket (key Examples.videoTitled) (storage u')
                   = [Examples.firstNote].
Proof.
  repeat split. eexists. repeat split.
Qed.

(** C4, amended. An add or a delete on the bucket of the current context
    changes the cached bucket before the write is issued, and the callback
    of the write runs whatever its outcome: the handler ends normally, the
    cached bucket holds the added note (or lacks the deleted one), the note
    input is cleared after an add, and the store is updated exactly when
    the write went through. A delete on the bucket of another key works on
    a copy read from the store, so a failed write there leaves both the
    store and the cached bucket as they were. *)
Theorem C4_write_outcome_is_not_consulted :
  forall (now index : Z) (writeOk : bool) (u : UI) (c : Context),
    currentContext u = Some c ->
    truthy (trim (noteInput (dom u))) = true ->
    let note := mkNote (trim (noteInput (dom u))) now c in
    (currentNotes (handleAddNote now writeOk u) = (currentNotes u ++ [note])%list
     /\ noteInput (dom (handleAddNote now writeOk u)) = ""
     /\ storage (handleAddNote now writeOk u)
        = if writeOk
          then put (key c) (Notes (currentNotes u ++ [note])) (storage u)
          else storage u)
    /\ (exists u',
          handleDeleteNote true writeOk index None false u = Done u'
          /\ currentNotes u' = splice1 index (currentNotes u)
          /\ storage u'
             = if writeOk
               then put (key c) (Notes (splice1 index (currentNotes u))) (storage u)
               else storage u)
    /\ (forall k fromAllView u',
          (truthy k || fromAllView)%bool = true ->
          handleDeleteNote true false index (Some k) fromAllView u = Done u' ->
          storage u' = storage u /\ currentNotes u' = currentNotes u).
Proof.
  intros now index writeOk u c Hc Ht note.
  destruct (handleAddNote_effect now writeOk u Hc Ht) as [_ [Hn [Hs Hi]]].
  fold note in Hn, Hs. split; [|split].
  - split; [exact Hn|]. split; [exact Hi|].
    rewrite Hs. destruct writeOk; reflexivity.
  - unfold handleDeleteNote. simpl. rewrite Hc.
    eexists. split; [reflexivity|].
    rewrite currentNotes_renderNotes, storage_renderNotes. simpl.
    split; [reflexivity | destruct writeOk; reflexivity].
  - intros k fromAllView u' Hgo H. unfold handleDeleteNote in H. simpl in H.
    rewrite Hgo in H.
    destruct (lookup k (storage u)) as [[l|]|] eqn:E; try congruence;
      inversion H; subst u'; clear H; destruct fromAllView;
      rewrite ?storage_loadAllNotes, ?currentNotes_loadAllNotes,
              ?storage_findRelatedNotes, ?currentNotes_findRelatedNotes;
      split; reflexivity.
Qed.

Lemma C4_witness :
  let u := Examples.showing Examples.videoTitled [Examples.firstNote] "third" in
  currentNotes (handleAddNote 3000 false u)
  = [Examples.firstNote; mkNote "third" 3000 Examples.videoTitled]
  /\ storage (handleAddNote 3000 false u) = storage u
  /\ match handleDeleteNote true false 0 (Some "youtube:Real Title") true u with
     | Done u' => storage u' = storage u /\ currentNotes u' = currentNotes u
     | Thrown => False
     end.
Proof.
  intros u.
  destruct (@C4_write_outcome_is_not_consulted 3000 0 false u Examples.videoTitled
              eq_refl eq_refl) as [[H1 [_ H3]] [_ H4]].
  split; [exact H1|]. split; [exact H3|].
  destruct (handleDeleteNote true false 0 (Some "youtube:Real Title") true u)
    as [u'|] eqn:E.
  - exact (H4 "youtube:Real Title" true u' eq_refl E).
  - vm_compute in E. discriminate E.
Defined.

(** C8, as the claim has it, fails for an index below 0: [-1] is not in
    [0, length), and the delete removes the last note of the bucket, on
    the bucket of the current context and on the bucket of another key. *)
Lemma C8_negative_index_deletes :
  let notes := [Examples.firstNote; Examples.secondNote] in
  let u := Examples.showing Examples.videoTitled notes "" in
  (exists u', handleDeleteNote true true (-1) None false u = Done u'
              /\ bucket (key Examples.videoTitled) (storage u) = notes
              /\ bucket (key Examples.videoTitled) (storage u') = [Examples.firstNote])
  /\ (exists u', handleDeleteNote true true (-1) (Some "youtube:Real Title") true
                   (setContext (Some Examples.mailFirst) u) = Done u'
              /\ bucket "youtube:Real Title" (storage u') = [Examples.firstNote]).
Proof.
  split; eexists; repeat split.
Qed.

(** C8, amended. For every key and every index at or beyond the length of
    the bucket stored at that key, the delete ends normally and the bucket
    is the same afterwards, whether or not the write goes through: on the
    bucket of another key (a key whose stored value is an array or is
    absent), and on the bucket of the current context, whose cached copy is
    unchanged and is what the store holds afterwards. *)
Theorem C8_delete_beyond_length_is_noop :
  forall (writeOk : bool) (index : Z) (u : UI),
    (forall (k : string) (fromAllView : bool),
       (truthy k || fromAllView)%bool = true ->
       lookup k (storage u) <> Some Other ->
       Z.of_nat (List.length (bucket k (storage u))) <= index ->
       exists u',
         handleDeleteNote true writeOk index (Some k) fromAllView u = Done u'
         /\ bucket k (storage u') = bucket k (storage u)
         /\ currentNotes u' = currentNotes u)
    /\ (forall c : Context,
          currentContext u = Some c ->
          bucket (key c) (storage u) = currentNotes u ->
          Z.of_nat (List.length (currentNotes u)) <= index ->
          exists u',
            handleDeleteNote true writeOk index None false u = Done u'
            /\ currentNotes u' = currentNotes u
            /\ bucket (key c) (storage u') = bucket (key c) (storage u)).
Proof.
  intros writeOk index u. split.
  - intros k fromAllView Hgo Hk Hlen. unfold handleDeleteNote. simpl.
    rewrite Hgo. unfold bucket in Hlen |- *.
    destruct (lookup k (storage u)) as [[l|]|] eqn:E; try congruence;
      rewrite splice1_beyond by exact Hlen;
      eexists; (split; [reflexivity|]);
      destruct fromAllView;
      rewrite ?storage_loadAllNotes, ?currentNotes_loadAllNotes,
              ?storage_findRelatedNotes, ?currentNotes_findRelatedNotes;
      simpl; (split; [|reflexivity]);
      destruct writeOk; simpl; rewrite ?lookup_put_same, ?E; reflexivity.
  - intros c Hc Hco Hlen. unfold handleDeleteNote. simpl. rewrite Hc.
    rewrite splice1_beyond by exact Hlen.
    eexists. split; [reflexivity|].
    rewrite currentNotes_renderNotes, storage_renderNotes. simpl.
    split; [reflexivity|].
    rewrite Hco. now apply bucket_storageSet.
Qed.

Lemma C8_witness :
  let notes := [Examples.firstNote; Examples.secondNote] in
  let u := Examples.showing Examples.videoTitled notes "" in
  (exists u', handleDeleteNote true true 2 (Some "youtube:Real Title") true u = Done u'
              /\ bucket "youtube:Real Title" (storage u') = notes)
  /\ (exists u', handleDeleteNote true true 7 None false u = Done u'
                 /\ currentNotes u' = notes).
Proof.
  intros notes u.
  destruct (C8_delete_beyond_length_is_noop true 2 u) as [H1 _].
  destruct (C8_delete_beyond_length_is_noop true 7 u) as [_ H2].
  split.
  - destruct (H1 "youtube:Real Title" true eq_refl) as [u' [Hd [Hb _]]].
    + discriminate.
    + vm_compute. discriminate.
    + exists u'. split; [exact Hd | exact Hb].
  - destruct (H2 Examples.videoTitled eq_refl eq_refl) as [u' [Hd [Hn _]]].
    + vm_compute. discriminate.
    + exists u'. split; [exact Hd | exact Hn].
Defined.

End Writes.

(* ------------------------------------------------------------------------- *)
(** ** Context updates in the sidebar *)
(* ------------------------------------------------------------------------- *)

Section Updates.

Import Sidebar.
Local Open Scope Z_scope.

(** C1, as the claim has it, fails in both directions. A committed context
    with a new key but the address already displayed only refreshes the
    header: the draft, the cached notes and the list stay and no reload is
    set. A committed context with the key already displayed but another
    address clears the draft. *)
Lemma C1_key_does_not_decide_reset :
  let u := Examples.showing Examples.videoFallback [Examples.firstNote] "draft" in
  let u' := onMessage (CONTEXT_UPDATE Examples.videoTitled) u in
  let v := Examples.showing Examples.mailFirst [Examples.mailNote] "draft" in
  let v' := onMessage (CONTEXT_UPDATE Examples.mailSecond) v in
  (key Examples.videoTitled <> key Examples.videoFallback
   /\ noteInput (dom u') = "draft"
   /\ notesList (dom u') = ListNotes [(0%nat, Examples.firstNote)]
   /\ currentNotes u' = [Examples.firstNote]
   /\ pendingReloads u' = 0%nat)
  /\ (key Examples.mailSecond = key Examples.mailFirst
      /\ noteInput (dom v) = "draft"
      /\ noteInput (dom v') = "").
Proof.
  repeat split. discriminate.
Qed.

Lemma reloadExtension_effect (u : UI) :
  let u' := reloadExtension u in
  currentContext u' = currentContext u
  /\ storage u' = storage u
  /\ noteInput (dom u') = ""
  /\ notesList (dom u') = ListLoading
  /\ relatedVisible (dom u') = false
  /\ currentView u' = CurrentView
  /\ pendingReloads u' = S (pendingReloads u).
Proof.
  unfold reloadExtension. simpl. destruct (currentView u) eqn:E; simpl; auto 10.
Qed.

Lemma currentContext_updateContextDisplay (u : UI) :
  currentContext (updateContextDisplay u) = currentContext u.
Proof. unfold updateContextDisplay. destruct (currentContext u) eqn:E; simpl; auto. Qed.

Lemma storage_updateContextDisplay (u : UI) :
  storage (updateContextDisplay u) = storage u.
Proof. unfold updateContextDisplay. destruct (currentContext u); reflexivity. Qed.

Lemma noteInput_updateContextDisplay (u : UI) :
  noteInput (dom (updateContextDisplay u)) = noteInput (dom u).
Proof. unfold updateContextDisplay. destruct (currentContext u); reflexivity. Qed.

Lemma loadNotes_effect (u : UI) (c : Context) :
  currentContext u = Some c ->
  lookup (key c) (storage u) <> Some Other ->
  exists u',
    loadNotes u = Done u'
    /\ currentContext u' = Some c
    /\ storage u' = storage u
    /\ currentNotes u' = bucket (key c) (storage u)
    /\ noteInput (dom u') = noteInput (dom u)
    /\ pendingReloads u' = pendingReloads u.
Proof.
  intros Hc Hk. unfold loadNotes, bucket. rewrite Hc.
  destruct (lookup (key c) (storage u)) as [[l|]|]; try congruence;
    eexists; (split; [reflexivity|]);
    rewrite currentContext_renderNotes, storage_renderNotes,
            currentNotes_renderNotes, noteInput_renderNotes; simpl;
    (repeat split; try assumption);
    unfold renderNotes; simpl;
    match goal with
    | |- context [match ?l with [] => _ | _ :: _ => _ end] => destruct l
    | _ => idtac
    end; reflexivity.
Qed.

Lemma reloadTimeout_effect (u : UI) (c : Context) :
  currentContext u = Some c ->
  lookup (key c) (storage u) <> Some Other ->
  exists u',
    reloadTimeout u = Done u'
    /\ currentNotes u' = bucket (key c) (storage u)
    /\ relatedNotes u'
       = sortBy newestFirst
           (flat_map (relatedOfEntry (key c) (toLowerCase (title c))) (storage u))
    /\ noteInput (dom u') = noteInput (dom u)
    /\ pendingReloads u' = Nat.pred (pendingReloads u).
Proof.
  intros Hc Hk. unfold reloadTimeout.
  set (u0 := updateContextDisplay (setPending (Nat.pred (pendingReloads u)) u)).
  assert (Hc0 : currentContext u0 = Some c)
    by (unfold u0; rewrite currentContext_updateContextDisplay; exact Hc).
  assert (Hs0 : storage u0 = storage u)
    by (unfold u0; rewrite storage_updateContextDisplay; reflexivity).
  assert (Hi0 : noteInput (dom u0) = noteInput (dom u))
    by (unfold u0; rewrite noteInput_updateContextDisplay; reflexivity).
  assert (Hp0 : pendingReloads u0 = Nat.pred (pendingReloads u)).
  { unfold u0, updateContextDisplay. simpl. rewrite Hc. reflexivity. }
  destruct (@loadNotes_effect u0 c Hc0) as [u1 [Hl [Hc1 [Hs1 [Hn1 [Hi1 Hp1]]]]]].
  { now rewrite Hs0. }
  rewrite Hl. simpl. eexists. split; [reflexivity|].
  simpl. rewrite currentNotes_findRelatedNotes, noteInput_findRelatedNotes.
  rewrite (findRelatedNotes_collects _ Hc1).
  rewrite Hn1, Hs1, Hs0, Hi1, Hi0. repeat split.
  rewrite <- Hp0, <- Hp1.
  unfold findRelatedNotes, renderRelatedNotes. rewrite Hc1. simpl.
  destruct (flat_map _ _); reflexivity.
Qed.

(** Whether a committed context makes the listener reload: there is no
    address on display, or the address differs, or the title on display is
    the loading title. *)
Lemma full_reload_condition (u : UI) (c : Context) :
  let previousUrl := option_map url (currentContext u) in
  let previousTitle := option_map title (currentContext u) in
  (truthyOpt previousUrl && negb (sameStr previousUrl (Some (url c)))
   || negb (truthyOpt previousUrl)
   || sameStr previousTitle (Some "Loading..."))%bool
  = match currentContext u with
    | None => true
    | Some p => (negb (truthy (url p)) || negb (String.eqb (url p) (url c))
                 || String.eqb (title p) "Loading...")%bool
    end.
Proof.
  destruct (currentContext u) as [p|]; simpl; [|reflexivity].
  destruct (truthy (url p)), (String.eqb (url p) (url c)),
    (String.eqb (title p) "Loading..."); reflexivity.
Qed.

(** C1, amended. The listener decides on the address, not on the key. A
    loading placeholder blanks the list and hides the related notes but
    keeps the note input. A committed context resets the sidebar (input
    cleared, list blanked, related notes hidden, and, 100 ms later, the
    notes of the new key loaded and the related notes recomputed) when no
    address is on display, when its address differs from the one on
    display, or when the title on display is the loading title; otherwise
    it only refreshes the header, and input, notes and list stay. *)
Theorem C1_reset_follows_address :
  forall (u : UI) (c : Context),
    let u' := onMessage (CONTEXT_UPDATE c) u in
    let differs :=
      match currentContext u with
      | None => true
      | Some p => (negb (truthy (url p)) || negb (String.eqb (url p) (url c))
                   || String.eqb (title p) "Loading...")%bool
      end in
    currentContext u' = Some c
    /\ (isLoading c = true ->
        noteInput (dom u') = noteInput (dom u)
        /\ notesList (dom u') = ListLoading
        /\ relatedVisible (dom u') = false
        /\ currentNotes u' = currentNotes u
        /\ pendingReloads u' = pendingReloads u)
    /\ (isLoading c = false -> differs = true ->
        noteInput (dom u') = ""
        /\ notesList (dom u') = ListLoading
        /\ relatedVisible (dom u') = false
        /\ pendingReloads u' = S (pendingReloads u)
        /\ (lookup (key c) (storage u) <> Some Other ->
            exists u'',
              reloadTimeout u' = Done u''
              /\ currentNotes u'' = bucket (key c) (storage u)
              /\ relatedNotes u''
                 = sortBy newestFirst
                     (flat_map (relatedOfEntry (key c) (toLowerCase (title c)))
                               (storage u))
              /\ noteInput (dom u'') = ""))
    /\ (isLoading c = false -> differs = false ->
        u' = updateContextDisplay (setContext (Some c) u)
        /\ noteInput (dom u') = noteInput (dom u)
        /\ notesList (dom u') = notesList (dom u)
        /\ currentNotes u' = currentNotes u
        /\ relatedNotes u' = relatedNotes u
        /\ surfaced u' = surfaced u
        /\ pendingReloads u' = pendingReloads u).
Proof.
  intros u c u' differs. subst u'. unfold onMessage.
  rewrite full_reload_condition. fold differs.
  destruct (isLoading c) eqn:L.
  - split; [reflexivity|]. split; [|split]; try discriminate.
    intros _. repeat split.
  - destruct differs eqn:D.
    + destruct (reloadExtension_effect (setContext (Some c) u))
        as [Hc [Hs [Hi [Hl [Hr [_ Hp]]]]]].
      split; [exact Hc|]. split; [discriminate|]. split; [|discriminate].
      intros _ _. repeat split; try assumption.
      intros Hk.
      destruct (@reloadTimeout_effect (reloadExtension (setContext (Some c) u)) c Hc)
        as [u'' [H1 [H2 [H3 [H4 _]]]]].
      * rewrite Hs. exact Hk.
      * exists u''. rewrite Hs in H2, H3. rewrite Hi in H4.
        repeat split; assumption.
    + split; [reflexivity|]. split; [discriminate|]. split; [discriminate|].
      intros _ _. repeat split.
Qed.

Lemma C1_witness :
  let v := Examples.showing Examples.mailFirst [Examples.mailNote] "draft" in
  noteInput (dom (onMessage (CONTEXT_UPDATE Examples.mailSecond) v)) = ""
  /\ noteInput (dom (onMessage (CONTEXT_UPDATE (Content.loadingContext "u")) v))
     = "draft"
  /\ onMessage (CONTEXT_UPDATE Examples.mailFirst) v
     = updateContextDisplay (setContext (Some Examples.mailFirst) v).
Proof.
  intros v.
  destruct (C1_reset_follows_address v Examples.mailSecond) as [_ [_ [H _]]].
  destruct (C1_reset_follows_address v (Content.loadingContext "u")) as [_ [G _]].
  destruct (C1_reset_follows_address v Examples.mailFirst) as [_ [_ [_ K]]].
  split; [|split].
  - apply (H eq_refl eq_refl).
  - apply (G eq_refl).
  - apply (K eq_refl eq_refl).
Defined.

(** C3 (the code does not keep the invariant). Whatever the sidebar shows
    and whatever text is typed, once a loading placeholder has arrived a
    submitted note is written to the store under the placeholder's key
    'youtube:loading', after the cached notes of the context shown before,
    with the placeholder ([isLoading] set) as its context. *)
Theorem C3_note_saved_under_loading_key :
  forall (u : UI) (address : string) (now : Z),
    let placeholder := Content.loadingContext address in
    let typed := setDom (setNoteInput "hello" (dom u)) u in
    let u1 := onMessage (CONTEXT_UPDATE placeholder) typed in
    let u2 := handleAddNote now true u1 in
    isLoading placeholder = true
    /\ key placeholder = "youtube:loading"
    /\ lookup "youtube:loading" (storage u2)
       = Some (Notes (currentNotes u ++ [mkNote "hello" now placeholder]))
    /\ bucket (key placeholder) (storage u2)
       = (currentNotes u ++ [mkNote "hello" now placeholder])%list.
Proof.
  intros u address now placeholder typed u1 u2.
  assert (Hc : currentContext u1 = Some placeholder) by reflexivity.
  assert (Ht : truthy (trim (noteInput (dom u1))) = true) by reflexivity.
  destruct (handleAddNote_effect now true u1 Hc Ht) as [_ [_ [Hs _]]].
  fold u2 in Hs. simpl in Hs.
  split; [reflexivity|]. split; [reflexivity|].
  unfold bucket. rewrite Hs. simpl key. rewrite lookup_put_same.
  split; reflexivity.
Qed.

End Updates.

(* ------------------------------------------------------------------------- *)
(** ** The resolver *)
(* ------------------------------------------------------------------------- *)

Section ResolverFacts.

Import Content.

Variable doc : N -> Doc.

Lemma insertTimer_perm (x : N * Task) (q : list (N * Task)) :
  Permutation (insertTimer x q) (x :: q).
Proof.
  induction q as [|y r IH]; simpl; [reflexivity|].
  destruct (fst y <=? fst x)%N; [|reflexivity].
  rewrite IH. apply perm_swap.
Qed.

Lemma postToSidebar_frame (now : N) (m : Msg) (st : State) :
  let st' := postToSidebar now m st in
  timers st' = timers st /\ finalized st' = finalized st
  /\ lastUrl st' = lastUrl st /\ lastTitle st' = lastTitle st
  /\ sidebarOpen st' = sidebarOpen st /\ iframeReady st' = iframeReady st
  /\ outbox st' = if sidebarOpen st && iframeReady st
                  then (outbox st ++ [(now, m)])%list else outbox st.
Proof.
  unfold postToSidebar.
  destruct (sidebarOpen st && iframeReady st); simpl; auto 10.
Qed.

Lemma waitForContextAndUpdate_effect (force : bool) (now : N) (st : State) :
  let st' := waitForContextAndUpdate doc force now st in
  timers st' = insertTimer ((now + 2000)%N, Poll (href (doc now)) 0) (timers st)
  /\ finalized st' = finalized st
  /\ lastUrl st' = lastUrl st /\ lastTitle st' = lastTitle st
  /\ sidebarOpen st' = sidebarOpen st /\ iframeReady st' = iframeReady st
  /\ outbox st' = if sidebarOpen st && iframeReady st
                  then (outbox st
                        ++ [(now, CONTEXT_UPDATE (loadingContext (href (doc now))))])%list
                  else outbox st.
Proof.
  unfold waitForContextAndUpdate, setTimeout. simpl.
  destruct (postToSidebar_frame now
              (CONTEXT_UPDATE (loadingContext (href (doc now)))) st)
    as [-> [-> [-> [-> [-> [-> ->]]]]]].
  auto 10.
Qed.

Lemma onEvent_effect (ev : Event) (t : N) (st : State) :
  let st' := onEvent doc ev t st in
  let r := observe ev (doc t) (lastUrl st) (lastTitle st) in
  finalized st' = finalized st
  /\ lastUrl st' = fst (fst r) /\ lastTitle st' = snd (fst r)
  /\ sidebarOpen st' = sidebarOpen st /\ iframeReady st' = iframeReady st
  /\ timers st' = (if snd r
                   then insertTimer ((t + 2000)%N, Poll (href (doc t)) 0) (timers st)
                   else timers st)
  /\ outbox st' = (if snd r && (sidebarOpen st && iframeReady st)
                   then (outbox st
                         ++ [(t, CONTEXT_UPDATE (loadingContext (href (doc t))))])%list
                   else outbox st).
Proof.
  unfold onEvent.
  destruct (observe ev (doc t) (lastUrl st) (lastTitle st)) as [[u ti] go].
  cbv zeta. cbn [fst snd]. destruct go; [|simpl; auto 10].
  destruct (waitForContextAndUpdate_effect (forced ev) t (setLast u ti st))
    as [-> [-> [-> [-> [-> [-> ->]]]]]].
  simpl. auto 10.
Qed.

Lemma fire_effect (d : N) (url0 : string) (a : nat) (q : list (N * Task)) (st : State) :
  let st' := fire doc d (Poll url0 a) (setTimers q st) in
  lastUrl st' = lastUrl st /\ lastTitle st' = lastTitle st
  /\ sidebarOpen st' = sidebarOpen st /\ iframeReady st' = iframeReady st
  /\ match checkAndUpdate (doc d) url0 (S a) with
     | Commit c =>
         finalized st' = (finalized st ++ [(d, c)])%list /\ timers st' = q
         /\ outbox st' = (if sidebarOpen st && iframeReady st
                          then (outbox st ++ [(d, CONTEXT_UPDATE c)])%list
                          else outbox st)
     | Retry =>
         finalized st' = finalized st
         /\ timers st' = insertTimer ((d + 200)%N, Poll url0 (S a)) q
         /\ outbox st' = outbox st
     | GiveUp =>
         finalized st' = finalized st /\ timers st' = q /\ outbox st' = outbox st
     end.
Proof.
  unfold fire. destruct (checkAndUpdate (doc d) url0 (S a)) as [c| |]; simpl.
  - unfold updateContext, postToSidebar. simpl.
    destruct (sidebarOpen st && iframeReady st); simpl; auto 10.
  - auto 10.
  - auto 10.
Qed.

Lemma retry_below_budget (d : Doc) (url0 : string) (n : nat) :
  checkAndUpdate d url0 n = Retry -> n < maxAttempts.
Proof.
  unfold checkAndUpdate. destruct (detectContext d) as [c|].
  - destruct (isHomeUrl url0); [discriminate|].
    destruct (String.eqb (app c) "youtube" && includes "watch?v=" url0);
      [|discriminate].
    destruct (hasRealTitle c); cbn [orb]; [discriminate|].
    destruct (Nat.leb_spec maxAttempts n); [discriminate | auto].
  - destruct (Nat.ltb_spec n maxAttempts); [auto | discriminate].
Qed.

Lemma pollsLeft_retry (a : nat) :
  S a < maxAttempts -> pollsLeft a = S (pollsLeft (S a)).
Proof. unfold pollsLeft, maxAttempts. lia. Qed.

(** A timer and the one that replaces it on a retry end in the same commit. *)
Lemma commitOf_step (d : N) (url0 : string) (a : nat) :
  commitOf doc (d, Poll url0 a)
  = match checkAndUpdate (doc d) url0 (S a) with
    | Commit c => [(d, c)]
    | Retry => commitOf doc ((d + 200)%N, Poll url0 (S a))
    | GiveUp => []
    end.
Proof.
  unfold commitOf. unfold pollsLeft at 1.
  cbn [pollFrom]. destruct (checkAndUpdate (doc d) url0 (S a)) eqn:E; try reflexivity.
  apply retry_below_budget in E.
  replace (maxAttempts - S a) with (pollsLeft (S a))
    by (unfold pollsLeft, maxAttempts in *; lia).
  reflexivity.
Qed.

Lemma budget_timer (evs : list (N * Event)) (d : N) (url0 : string) (a : nat)
      (q : list (N * Task)) :
  budget evs ((d, Poll url0 a) :: q) = pollsLeft a + budget evs q.
Proof. unfold budget. simpl. lia. Qed.

Lemma budget_insert (evs : list (N * Event)) (d : N) (url0 : string) (a : nat)
      (q : list (N * Task)) :
  budget evs (insertTimer (d, Poll url0 a) q) = pollsLeft a + budget evs q.
Proof.
  unfold budget.
  rewrite (Permutation_list_sum
             (Permutation_map _ (insertTimer_perm (d, Poll url0 a) q))).
  simpl. lia.
Qed.

Lemma budget_event (x : N * Event) (evs : list (N * Event)) (q : list (N * Task)) :
  budget (x :: evs) q = S maxAttempts + budget evs q.
Proof. unfold budget. simpl List.length. lia. Qed.

Lemma commits_insert (x : N * Task) (q : list (N * Task)) :
  Permutation (flat_map (commitOf doc) (insertTimer x q))
              (commitOf doc x ++ flat_map (commitOf doc) q).
Proof.
  rewrite (Permutation_flat_map (commitOf doc) (insertTimer_perm x q)).
  reflexivity.
Qed.

(** One callback fires: the commits still to come are unchanged. *)
Lemma fire_commits (d : N) (k : Task) (q : list (N * Task)) (st : State)
      (evs : list (N * Event)) :
  let st' := fire doc d k (setTimers q st) in
  lastUrl st' = lastUrl st /\ lastTitle st' = lastTitle st
  /\ budget evs (timers st') < budget evs ((d, k) :: q)
  /\ exists now,
       finalized st' = (finalized st ++ now)%list
       /\ Permutation (now ++ flat_map (commitOf doc) (timers st'))
                      (flat_map (commitOf doc) ((d, k) :: q)).
Proof.
  destruct k as [url0 a]. intros st'.
  destruct (fire_effect d url0 a q st) as [Hu [Ht [_ [_ H]]]].
  fold st' in Hu, Ht, H. split; [exact Hu|]. split; [exact Ht|].
  rewrite budget_timer. cbn [flat_map]. rewrite commitOf_step.
  destruct (checkAndUpdate (doc d) url0 (S a)) eqn:E.
  - destruct H as [Hf [Hq _]]. rewrite Hq. split; [unfold pollsLeft; lia|].
    exists [(d, c)]. split; [exact Hf | reflexivity].
  - destruct H as [Hf [Hq _]]. rewrite Hq. split.
    + rewrite budget_insert. apply retry_below_budget in E.
      rewrite (pollsLeft_retry E). lia.
    + exists []. split; [now rewrite app_nil_r|]. simpl. apply commits_insert.
  - destruct H as [Hf [Hq _]]. rewrite Hq. split; [unfold pollsLeft; lia|].
    exists []. split; [now rewrite app_nil_r | reflexivity].
Qed.

(** One event is handled: the commits to come grow by the cycle it starts. *)
Lemma onEvent_commits (ev : Event) (t : N) (st : State) (evs : list (N * Event)) :
  let st' := onEvent doc ev t st in
  finalized st' = finalized st
  /\ budget evs (timers st') < budget ((t, ev) :: evs) (timers st)
  /\ Permutation
       (flat_map (commitOf doc) (timers st')
        ++ flat_map (cycleOf doc) (triggerTimes doc evs (lastUrl st') (lastTitle st')))
       (flat_map (commitOf doc) (timers st)
        ++ flat_map (cycleOf doc)
                    (triggerTimes doc ((t, ev) :: evs) (lastUrl st) (lastTitle st))).
Proof.
  intros st'.
  destruct (onEvent_effect ev t st) as [Hf [Hu [Ht [_ [_ [Hq _]]]]]].
  fold st' in Hf, Hu, Ht, Hq. split; [exact Hf|].
  rewrite budget_event, Hq, Hu, Ht. cbn [triggerTimes].
  destruct (observe ev (doc t) (lastUrl st) (lastTitle st)) as [[u ti] go].
  simpl fst; simpl snd. destruct go.
  - split.
    + rewrite budget_insert. unfold pollsLeft, maxAttempts. lia.
    + cbn [flat_map]. rewrite commits_insert. fold (cycleOf doc t).
      rewrite <- !app_assoc. apply Permutation_app_swap_app.
  - split; [lia | reflexivity].
Qed.

(** The commits of a whole run: nothing is withdrawn from what has been
    committed, and what is added is what every pending callback and every
    triggered cycle commits on its own. *)
Lemma run_commits (fuel : nat) :
  forall (evs : list (N * Event)) (st : State),
    budget evs (timers st) <= fuel ->
    exists new,
      finalized (run doc fuel evs st) = (finalized st ++ new)%list
      /\ Permutation new
           (flat_map (commitOf doc) (timers st)
            ++ flat_map (cycleOf doc)
                        (triggerTimes doc evs (lastUrl st) (lastTitle st))).
Proof.
  induction fuel as [|f IH]; intros evs st Hb.
  - exists []. split; [now rewrite app_nil_r|].
    destruct (timers st) as [|[d [u a]] q].
    + destruct evs as [|x evs]; [reflexivity|].
      rewrite budget_event in Hb. lia.
    + rewrite budget_timer in Hb. unfold pollsLeft in Hb. lia.
  - assert (Timer : forall d k q, timers st = (d, k) :: q ->
              exists new,
                finalized (run doc f evs (fire doc d k (setTimers q st)))
                = (finalized st ++ new)%list
                /\ Permutation new
                     (flat_map (commitOf doc) ((d, k) :: q)
                      ++ flat_map (cycleOf doc)
                           (triggerTimes doc evs (lastUrl st) (lastTitle st)))).
    { intros d k q Hq. rewrite Hq in Hb.
      destruct (fire_commits d k q st evs) as [Hu [Ht [Hlt [now [Hf Hp]]]]].
      destruct (IH evs (fire doc d k (setTimers q st))) as [new [Hn Hperm]]; [lia|].
      exists (now ++ new)%list. split.
      - rewrite Hn, Hf. now rewrite app_assoc.
      - rewrite Hperm, Hu, Ht, app_assoc.
        apply Permutation_app_tail. exact Hp. }
    assert (Event : forall t ev evs', evs = (t, ev) :: evs' ->
              exists new,
                finalized (run doc f evs' (onEvent doc ev t st))
                = (finalized st ++ new)%list
                /\ Permutation new
                     (flat_map (commitOf doc) (timers st)
                      ++ flat_map (cycleOf doc)
                           (triggerTimes doc evs (lastUrl st) (lastTitle st)))).
    { intros t ev evs' He. rewrite He in Hb |- *.
      destruct (onEvent_commits ev t st evs') as [Hf [Hlt Hp]].
      destruct (IH evs' (onEvent doc ev t st)) as [new [Hn Hperm]]; [lia|].
      exists new. split; [now rewrite Hn, Hf|].
      rewrite Hperm. exact Hp. }
    cbn [run].
    destruct (timers st) as [|[d k] q] eqn:Hq; destruct evs as [|[t ev] evs'].
    + exists []. split; [now rewrite app_nil_r | reflexivity].
    + apply (Event t ev evs' eq_refl).
    + apply (Timer d k q eq_refl).
    + destruct (d <=? t)%N.
      * apply (Timer d k q eq_refl).
      * apply (Event t ev evs' eq_refl).
Qed.

End ResolverFacts.

(* ------------------------------------------------------------------------- *)
(** ** Cycles, supersession and the loading placeholder *)
(* ------------------------------------------------------------------------- *)

Section Cycles.

Import Content.

Variable doc : N -> Doc.

Lemma detectContext_not_loading (d : Doc) (c : Context) :
  detectContext d = Some c -> isLoading c = false.
Proof.
  unfold detectContext, detectYouTubeContext.
  repeat match goal with
         | |- context [if ?b then _ else _] => destruct b
         end;
    intros H; inversion H; reflexivity.
Qed.

Lemma commit_is_detected (d : Doc) (url0 : string) (n : nat) (c : Context) :
  checkAndUpdate d url0 n = Commit c -> detectContext d = Some c.
Proof.
  unfold checkAndUpdate. destruct (detectContext d) as [c'|].
  - repeat match goal with
           | |- context [if ?b then _ else _] => destruct b
           end; intros H; inversion H; reflexivity.
  - destruct (n <? maxAttempts); discriminate.
Qed.

Lemma delivered_post (st st' : State) (t : N) (c : Context) :
  outbox st' = (outbox st ++ [(t, CONTEXT_UPDATE c)])%list ->
  delivered st'
  = (delivered st ++ (if isLoading c then [] else [(t, c)]))%list.
Proof.
  intros H. unfold delivered. rewrite H, flat_map_app. simpl.
  now rewrite app_nil_r.
Qed.

Lemma fire_delivered (d : N) (k : Task) (q : list (N * Task)) (st : State) :
  sidebarOpen st = true -> iframeReady st = true ->
  delivered st = finalized st ->
  let st' := fire doc d k (setTimers q st) in
  sidebarOpen st' = true /\ iframeReady st' = true
  /\ delivered st' = finalized st'.
Proof.
  intros Ho Hi Hd st'. destruct k as [url0 a].
  destruct (fire_effect doc d url0 a q st) as [_ [_ [Ho' [Hi' H]]]].
  fold st' in Ho', Hi', H. rewrite Ho', Hi'. split; [exact Ho|]. split; [exact Hi|].
  rewrite Ho, Hi in H. simpl in H.
  destruct (checkAndUpdate (doc d) url0 (S a)) eqn:E.
  - destruct H as [Hf [_ Hout]]. rewrite Hf, (@delivered_post st st' d c Hout), Hd.
    apply commit_is_detected, detectContext_not_loading in E. now rewrite E.
  - destruct H as [Hf [_ Hout]]. unfold delivered in *. now rewrite Hout, Hf.
  - destruct H as [Hf [_ Hout]]. unfold delivered in *. now rewrite Hout, Hf.
Qed.

Lemma onEvent_delivered (ev : Event) (t : N) (st : State) :
  sidebarOpen st = true -> iframeReady st = true ->
  delivered st = finalized st ->
  let st' := onEvent doc ev t st in
  sidebarOpen st' = true /\ iframeReady st' = true
  /\ delivered st' = finalized st'.
Proof.
  intros Ho Hi Hd st'.
  destruct (onEvent_effect doc ev t st) as [Hf [_ [_ [Ho' [Hi' [_ Hout]]]]]].
  fold st' in Hf, Ho', Hi', Hout. rewrite Ho', Hi', Hf.
  split; [exact Ho|]. split; [exact Hi|].
  destruct (snd (observe ev (doc t) (lastUrl st) (lastTitle st))
            && (sidebarOpen st && iframeReady st)).
  - rewrite (@delivered_post st st' t _ Hout). simpl. now rewrite app_nil_r.
  - unfold delivered in *. now rewrite Hout.
Qed.

Lemma waitForContextAndUpdate_delivered (force : bool) (t : N) (st : State) :
  sidebarOpen st = true -> iframeReady st = true ->
  delivered st = finalized st ->
  let st' := waitForContextAndUpdate doc force t st in
  sidebarOpen st' = true /\ iframeReady st' = true
  /\ delivered st' = finalized st'.
Proof.
  intros Ho Hi Hd st'.
  destruct (waitForContextAndUpdate_effect doc force t st)
    as [_ [Hf [_ [_ [Ho' [Hi' Hout]]]]]].
  fold st' in Hf, Ho', Hi', Hout. rewrite Ho', Hi', Hf.
  split; [exact Ho|]. split; [exact Hi|].
  rewrite Ho, Hi in Hout. cbn [andb] in Hout.
  rewrite (@delivered_post st st' t _ Hout). simpl. now rewrite app_nil_r.
Qed.

(** With the sidebar open, every commit is posted to it, and nothing else
    is posted as a committed context. *)
Lemma run_delivered (fuel : nat) :
  forall (evs : list (N * Event)) (st : State),
    sidebarOpen st = true -> iframeReady st = true ->
    delivered st = finalized st ->
    delivered (run doc fuel evs st) = finalized (run doc fuel evs st).
Proof.
  induction fuel as [|f IH]; intros evs st Ho Hi Hd; [exact Hd|].
  cbn [run].
  destruct (timers st) as [|[d k] q] eqn:Hq; destruct evs as [|[t ev] evs'];
    try exact Hd;
    try destruct (d <=? t)%N;
    first [ destruct (@fire_delivered d k q st Ho Hi Hd) as [Ho' [Hi' Hd']];
            now apply IH
          | destruct (@onEvent_delivered ev t st Ho Hi Hd) as [Ho' [Hi' Hd']];
            now apply IH ].
Qed.

Lemma watch_not_home (u : string) :
  includes "watch?v=" u = true -> isHomeUrl u = false.
Proof.
  intros H. unfold isHomeUrl.
  destruct (String.eqb_spec u "https://www.youtube.com/") as [->|_];
    [discriminate H|].
  destruct (String.eqb_spec u "https://www.youtube.com") as [->|_];
    [discriminate H | reflexivity].
Qed.

Lemma video_retry (d : Doc) (url0 : string) (n : nat) (c : Context) :
  includes "watch?v=" url0 = true ->
  detectContext d = Some c -> app c = "youtube" -> hasRealTitle c = false ->
  n < maxAttempts ->
  checkAndUpdate d url0 n = Retry.
Proof.
  intros Hw Hd Ha Hr Hn. unfold checkAndUpdate.
  rewrite Hd, (watch_not_home _ Hw), Ha, Hw, Hr, String.eqb_refl.
  cbn [andb orb].
  destruct (Nat.leb_spec maxAttempts n); [lia | reflexivity].
Qed.

Lemma video_commit (d : Doc) (url0 : string) (n : nat) (c : Context) :
  includes "watch?v=" url0 = true ->
  detectContext d = Some c ->
  hasRealTitle c = true \/ maxAttempts <= n ->
  checkAndUpdate d url0 n = Commit c.
Proof.
  intros Hw Hd Hor. unfold checkAndUpdate.
  rewrite Hd, (watch_not_home _ Hw), Hw.
  destruct (String.eqb (app c) "youtube"); cbn [andb]; [|reflexivity].
  destruct Hor as [Hr|Hn].
  - now rewrite Hr.
  - destruct (Nat.leb_spec maxAttempts n); [|lia].
    now rewrite orb_true_r.
Qed.

(** [n] polls in a row that ask for a retry. *)
Lemma pollFrom_skip (n : nat) :
  forall (fuel : nat) (url0 : string) (t : N) (a : nat),
    (forall k, k < n ->
       checkAndUpdate (doc (t + 200 * N.of_nat k)) url0 (S (a + k)) = Retry) ->
    pollFrom doc (n + fuel) url0 t a
    = pollFrom doc fuel url0 (t + 200 * N.of_nat n) (a + n).
Proof.
  induction n as [|n IH]; intros fuel url0 t a H.
  - rewrite Nat.add_0_r. simpl N.of_nat. now rewrite N.mul_0_r, N.add_0_r.
  - cbn [Nat.add pollFrom].
    assert (H0 := H 0 ltac:(lia)).
    simpl N.of_nat in H0. rewrite N.mul_0_r, N.add_0_r, Nat.add_0_r in H0.
    rewrite H0, IH.
    + f_equal; lia.
    + intros k Hk. specialize (H (S k) ltac:(lia)).
      replace (t + 200 + 200 * N.of_nat k)%N with (t + 200 * N.of_nat (S k))%N by lia.
      replace (S a + k) with (a + S k) by lia. exact H.
Qed.

(** A lone cycle started by a call at [t0]. *)
Lemma lone_cycle (t0 : N) (force : bool) (st : State) (fuel : nat)
      (r : N * Context) :
  timers st = [] -> maxAttempts <= fuel ->
  pollFrom doc maxAttempts (href (doc t0)) (t0 + 2000)%N 0 = Some r ->
  finalized (run doc fuel [] (waitForContextAndUpdate doc force t0 st))
  = (finalized st ++ [r])%list.
Proof.
  intros Hq Hfuel Hp.
  destruct (waitForContextAndUpdate_effect doc force t0 st)
    as [Ht [Hf _]].
  rewrite Hq in Ht. cbn [insertTimer] in Ht.
  destruct (@run_commits doc fuel [] (waitForContextAndUpdate doc force t0 st))
    as [new [Hn Hperm]].
  - rewrite Ht. unfold budget, pollsLeft, maxAttempts in *. simpl. lia.
  - rewrite Hn, Hf. f_equal.
    rewrite Ht in Hperm. cbn [flat_map triggerTimes] in Hperm.
    unfold commitOf in Hperm.
    change (pollsLeft 0) with maxAttempts in Hperm. rewrite Hp in Hperm.
    simpl in Hperm. symmetry in Hperm.
    now apply Permutation_length_1_inv in Hperm.
Qed.

End Cycles.

Section ResolverClaims.

Import Content.

(** C2, as the claim has it, fails. On a channel page whose name shows up
    late, a second trigger arrives 1000 ms after the first, during the
    first cycle's settle delay. The first cycle is not withdrawn: its
    callback fires at 2000 ms and commits the context it extracts then,
    which is posted to the sidebar; the second cycle commits another
    context at 3000 ms. *)
Lemma C2_first_cycle_still_commits :
  let st := run Examples.channelPage 60
                [(0%N, PushState); (1000%N, YtNavigateFinish)]
                (Examples.atRest "https://www.youtube.com/" "YouTube") in
  finalized st = [(2000%N, Examples.channelUnnamed); (3000%N, Examples.channelNamed)]
  /\ delivered st = finalized st
  /\ cycleOf Examples.channelPage 0 = [(2000%N, Examples.channelUnnamed)]
  /\ cycleOf Examples.channelPage 1000 = [(3000%N, Examples.channelNamed)]
  /\ Examples.channelUnnamed <> Examples.channelNamed.
Proof.
  repeat split; try (vm_compute; reflexivity). discriminate.
Qed.

(** C2, amended. The code keeps no generation marker and withdraws no
    cycle. For every pair of navigation triggers, whether or not the
    second arrives while the first cycle is in flight, each trigger starts
    a cycle of its own whose callbacks read only that cycle's address and
    attempt counter; nothing committed before is withdrawn, and the
    commits added are exactly the commit the first cycle makes on its own
    together with the commit the second makes on its own. With the sidebar
    open each of them is posted to it. *)
Theorem C2_every_cycle_runs_to_its_end :
  forall (doc : N -> Doc) (st : State) (t1 t2 : N) (e1 e2 : Event) (fuel : nat),
    timers st = [] ->
    triggerTimes doc [(t1, e1); (t2, e2)] (lastUrl st) (lastTitle st) = [t1; t2] ->
    2 * S maxAttempts <= fuel ->
    let st' := run doc fuel [(t1, e1); (t2, e2)] st in
    (exists new,
       finalized st' = (finalized st ++ new)%list
       /\ Permutation new (cycleOf doc t1 ++ cycleOf doc t2))
    /\ (forall x, In x (cycleOf doc t1) -> In x (finalized st'))
    /\ (sidebarOpen st = true -> iframeReady st = true ->
        delivered st = finalized st -> delivered st' = finalized st').
Proof.
  intros doc st t1 t2 e1 e2 fuel Hq Htr Hfuel st'.
  destruct (@run_commits doc fuel [(t1, e1); (t2, e2)] st) as [new [Hn Hp]].
  { rewrite Hq. unfold budget. simpl. unfold maxAttempts in *. lia. }
  fold st' in Hn. rewrite Hq, Htr in Hp. simpl in Hp. rewrite app_nil_r in Hp.
  split; [|split].
  - exists new. split; assumption.
  - intros x Hx. rewrite Hn. apply in_or_app. right.
    apply (Permutation_in _ (Permutation_sym Hp)). apply in_or_app. now left.
  - intros Ho Hi Hd. now apply run_delivered.
Qed.

Lemma C2_witness :
  let st := run Examples.channelPage 60
                [(0%N, PushState); (1000%N, YtNavigateFinish)]
                (Examples.atRest "https://www.youtube.com/" "YouTube") in
  In (2000%N, Examples.channelUnnamed) (finalized st)
  /\ delivered st = finalized st.
Proof.
  intros st.
  destruct (@C2_every_cycle_runs_to_its_end Examples.channelPage
              (Examples.atRest "https://www.youtube.com/" "YouTube")
              0%N 1000%N PushState YtNavigateFinish 60 eq_refl eq_refl)
    as [_ [H1 H2]].
  - unfold maxAttempts. lia.
  - split.
    + apply H1. vm_compute. left. reflexivity.
    + apply H2; reflexivity.
Defined.

(** C5. On a watch page, when the extractor yields the bare site name
    'YouTube' on each of the first 10 polls and a context titled
    'Real Title' on poll 11, the cycle commits once, at poll 11, the
    context extracted there. A commit before the last attempt has a title
    that is non-empty, is not the site name, is not the loading title and
    holds no 'watch?v='. When none of the 25 polls finds such a title, the
    context extracted by the last poll is committed. With the sidebar open
    the commits posted to it are the commits made. *)
Theorem C5_watch_page_waits_for_real_title :
  forall (doc : N -> Doc) (t0 : N) (st : State) (fuel : nat),
    timers st = [] ->
    includes "watch?v=" (href (doc t0)) = true ->
    maxAttempts <= fuel ->
    let final := finalized (run doc fuel [] (waitForContextAndUpdate doc false t0 st)) in
    (forall c,
       (forall k, k < 10 ->
          exists ck, detectContext (doc (t0 + 2000 + 200 * N.of_nat k)%N) = Some ck
                     /\ app ck = "youtube" /\ title ck = "YouTube") ->
       detectContext (doc (t0 + 4000)%N) = Some c ->
       title c = "Real Title" ->
       final = (finalized st ++ [((t0 + 4000)%N, c)])%list)
    /\ (forall d n c,
          checkAndUpdate d (href (doc t0)) n = Commit c ->
          app c = "youtube" -> n < maxAttempts ->
          title c <> "" /\ title c <> "YouTube" /\ title c <> "Loading..."
          /\ includes "watch?v=" (title c) = false)
    /\ (forall c,
          (forall k, k < 25 ->
             exists ck, detectContext (doc (t0 + 2000 + 200 * N.of_nat k)%N) = Some ck
                        /\ app ck = "youtube" /\ hasRealTitle ck = false) ->
          detectContext (doc (t0 + 6800)%N) = Some c ->
          final = (finalized st ++ [((t0 + 6800)%N, c)])%list)
    /\ (sidebarOpen st = true -> iframeReady st = true ->
        delivered st = finalized st ->
        delivered (run doc fuel [] (waitForContextAndUpdate doc false t0 st)) = final).
Proof.
  intros doc t0 st fuel Hq Hw Hfuel final. subst final. split; [|split; [|split]].
  4:{ intros Ho Hi Hd.
      destruct (@waitForContextAndUpdate_delivered doc false t0 st Ho Hi Hd)
        as [Ho' [Hi' Hd']].
      now apply run_delivered. }
  - intros c Hpolls Hc Ht.
    apply lone_cycle; try assumption.
    change maxAttempts with (10 + 15).
    rewrite pollFrom_skip.
    + replace (t0 + 2000 + 200 * N.of_nat 10)%N with (t0 + 4000)%N by lia.
      cbn [pollFrom Nat.add].
      rewrite (@video_commit (doc (t0 + 4000)%N) (href (doc t0)) 11 c Hw Hc);
        [reflexivity|].
      left. unfold hasRealTitle. rewrite Ht. reflexivity.
    + intros k Hk. destruct (Hpolls k Hk) as [ck [Hd [Ha Hti]]].
      apply (@video_retry _ _ _ ck); try assumption.
      * unfold hasRealTitle. rewrite Hti. reflexivity.
      * unfold maxAttempts. lia.
  - intros d n c Hcommit Ha Hn.
    assert (Hreal : hasRealTitle c = true).
    { unfold checkAndUpdate in Hcommit.
      destruct (detectContext d) as [c'|].
      - rewrite (watch_not_home _ Hw), Hw in Hcommit.
        destruct (String.eqb (app c') "youtube") eqn:E; cbn [andb] in Hcommit.
        + destruct (hasRealTitle c') eqn:R; cbn [orb] in Hcommit.
          * inversion Hcommit; subst; exact R.
          * destruct (Nat.leb_spec maxAttempts n); [lia | discriminate].
        + inversion Hcommit; subst. rewrite Ha in E. discriminate.
      - destruct (n <? maxAttempts); discriminate. }
    unfold hasRealTitle in Hreal.
    repeat (apply andb_prop in Hreal; destruct Hreal as [Hreal ?]).
    repeat split.
    + intros E. rewrite E in Hreal. discriminate.
    + intros E. rewrite E in *. discriminate.
    + intros E. rewrite E in *. discriminate.
    + now apply negb_true_iff.
  - intros c Hpolls Hc.
    apply lone_cycle; try assumption.
    change maxAttempts with (24 + 1).
    rewrite pollFrom_skip.
    + replace (t0 + 2000 + 200 * N.of_nat 24)%N with (t0 + 6800)%N by lia.
      cbn [pollFrom Nat.add].
      rewrite (@video_commit (doc (t0 + 6800)%N) (href (doc t0)) 25 c Hw Hc);
        [reflexivity|].
      right. unfold maxAttempts. lia.
    + intros k Hk. destruct (Hpolls k ltac:(lia)) as [ck [Hd [Ha Hr]]].
      apply (@video_retry _ _ _ ck); try assumption.
      unfold maxAttempts. lia.
Qed.

Lemma C5_witness :
  finalized (run Examples.slowWatchPage 25 []
               (waitForContextAndUpdate Examples.slowWatchPage false 0
                  (Examples.atRest "https://www.youtube.com/" "YouTube")))
  = [(4000%N, Examples.videoTitled)]
  /\ delivered (run Examples.slowWatchPage 25 []
                  (waitForContextAndUpdate Examples.slowWatchPage false 0
                     (Examples.atRest "https://www.youtube.com/" "YouTube")))
     = [(4000%N, Examples.videoTitled)]
  /\ title Examples.videoTitled <> "YouTube"
  /\ finalized (run Examples.untitledWatchPage 25 []
                  (waitForContextAndUpdate Examples.untitledWatchPage false 0
                     (Examples.atRest "https://www.youtube.com/" "YouTube")))
     = [(6800%N, Examples.videoFallback)].
Proof.
  destruct (@C5_watch_page_waits_for_real_title Examples.slowWatchPage 0%N
              (Examples.atRest "https://www.youtube.com/" "YouTube") 25
              eq_refl eq_refl (le_n _)) as [A [B [_ D]]].
  destruct (@C5_watch_page_waits_for_real_title Examples.untitledWatchPage 0%N
              (Examples.atRest "https://www.youtube.com/" "YouTube") 25
              eq_refl eq_refl (le_n _)) as [_ [_ [C _]]].
  assert (First : forall k, k < 10 ->
            exists ck,
              detectContext (Examples.slowWatchPage (0 + 2000 + 200 * N.of_nat k))
              = Some ck /\ app ck = "youtube" /\ title ck = "YouTube").
  { intros k Hk.
    do 10 (destruct k as [|k];
           [exists Examples.videoFallback; repeat split|]).
    lia. }
  split; [|split; [|split]].
  - apply (A Examples.videoTitled First); reflexivity.
  - rewrite (D eq_refl eq_refl eq_refl).
    apply (A Examples.videoTitled First); reflexivity.
  - apply (B (Examples.slowWatchPage 4000) 11 Examples.videoTitled eq_refl eq_refl).
    unfold maxAttempts. lia.
  - apply (C Examples.videoFallback); [|reflexivity].
    intros k Hk. exists Examples.videoFallback. repeat split.
Defined.

(** C10. Whatever the observed event and whatever the host application,
    when the event triggers a cycle and the sidebar is open, the message
    posted at once carries the same placeholder: app 'youtube', title
    'Loading...', key 'youtube:loading', [isLoading] set, and the address
    of the page; on the mail, meeting, document and calendar hosts the
    extractor's app tag differs from the placeholder's. With the sidebar
    closed nothing is posted. *)
Theorem C10_placeholder_is_the_video_one :
  forall (doc : N -> Doc) (ev : Event) (t : N) (st : State),
    snd (observe ev (doc t) (lastUrl st) (lastTitle st)) = true ->
    let p := loadingContext (href (doc t)) in
    (sidebarOpen st && iframeReady st = true ->
     outbox (onEvent doc ev t st) = (outbox st ++ [(t, CONTEXT_UPDATE p)])%list)
    /\ (sidebarOpen st && iframeReady st = false ->
        outbox (onEvent doc ev t st) = outbox st)
    /\ app p = "youtube" /\ title p = "Loading..." /\ key p = "youtube:loading"
    /\ isLoading p = true /\ url p = href (doc t)
    /\ (hostname (doc t) = "mail.google.com"
        \/ hostname (doc t) = "meet.google.com"
        \/ hostname (doc t) = "docs.google.com"
        \/ hostname (doc t) = "calendar.google.com" ->
        exists c, detectContext (doc t) = Some c /\ app c <> app p).
Proof.
  intros doc ev t st Hgo p.
  destruct (onEvent_effect doc ev t st) as [_ [_ [_ [_ [_ [_ Hout]]]]]].
  rewrite Hgo in Hout. cbn [andb] in Hout.
  split; [|split].
  - intros Ho. now rewrite Ho in Hout.
  - intros Ho. now rewrite Ho in Hout.
  - repeat split.
    intros [H|[H|[H|H]]]; unfold detectContext; rewrite H; simpl;
      eexists; (split; [reflexivity|]); discriminate.
Qed.

Lemma C10_witness :
  outbox (onEvent Examples.mailPage PopState 500
            (Examples.atRest "https://mail.google.com/mail/u/0/#inbox" "Inbox - Gmail"))
  = [(500%N, CONTEXT_UPDATE
               (loadingContext "https://mail.google.com/mail/u/0/#inbox/t1"))]
  /\ exists c, detectContext (Examples.mailPage 500) = Some c
               /\ app c <> "youtube".
Proof.
  destruct (@C10_placeholder_is_the_video_one Examples.mailPage PopState 500%N
              (Examples.atRest "https://mail.google.com/mail/u/0/#inbox"
                               "Inbox - Gmail") eq_refl)
    as [H1 [_ [_ [_ [_ [_ [_ H2]]]]]]].
  split.
  - apply H1. reflexivity.
  - apply H2. left. reflexivity.
Defined.

End ResolverClaims.

(* ------------------------------------------------------------------------- *)
(** ** Further properties: the extractors *)
(* ------------------------------------------------------------------------- *)

Section ExtractorFacts.

Import Content.

Lemma prefix_empty (s : string) : prefix "" s = true.
Proof. destruct s; reflexivity. Qed.

Lemma prefix_self_app (p s : string) : prefix p (p ++ s) = true.
Proof.
  induction p as [|c p IH]; simpl; [apply prefix_empty|].
  destruct (ascii_dec c c); [exact IH | congruence].
Qed.

Lemma includes_prefix (p s : string) : prefix p s = true -> includes p s = true.
Proof. intros H. destruct s; cbn [includes]; rewrite H; reflexivity. Qed.

Lemma includes_after (p a s : string) :
  includes p s = true -> includes p (a ++ s) = true.
Proof.
  intros H. induction a as [|c a IH]; [exact H|].
  cbn [append includes]. rewrite IH. apply orb_true_r.
Qed.

Lemma orElse_never_empty (a b : string) : b <> "" -> orElse a b <> "".
Proof. unfold orElse. destruct a; simpl; [auto | discriminate]. Qed.

Lemma key_has_colon (a rest : string) : includes ":" (a ++ ":" ++ rest) = true.
Proof. apply includes_after, includes_prefix, (prefix_self_app ":" rest). Qed.

(** X1. Whatever the document, a context that [detectContext] returns has
    a title that is not empty, the address of the page as its url, no
    loading flag, a key that holds a colon (so that the scans of the store
    take it for a note key), and one of the five app tags. *)
Theorem X1_detected_context_is_well_formed :
  forall (d : Doc) (c : Context),
    detectContext d = Some c ->
    title c <> ""
    /\ url c = href d
    /\ isLoading c = false
    /\ includes ":" (key c) = true
    /\ (app c = "gmail" \/ app c = "meet" \/ app c = "docs"
        \/ app c = "calendar" \/ app c = "youtube").
Proof.
  intros d c. unfold detectContext.
  destruct (String.eqb (hostname d) "mail.google.com").
  { intros H; inversion H; subst c; clear H. unfold detectGmailContext.
    cbn [title url isLoading key app].
    repeat split; auto.
    - apply orElse_never_empty. discriminate.
    - destruct (truthy _); apply (key_has_colon "gmail"). }
  destruct (String.eqb (hostname d) "meet.google.com").
  { intros H; inversion H; subst c; clear H. unfold detectMeetContext.
    cbn [title url isLoading key app].
    repeat split; auto.
    - apply orElse_never_empty. discriminate.
    - apply (key_has_colon "meet"). }
  destruct (String.eqb (hostname d) "docs.google.com").
  { intros H; inversion H; subst c; clear H. unfold detectDocsContext.
    cbn [title url isLoading key app].
    repeat split; auto.
    - apply orElse_never_empty. discriminate.
    - apply (key_has_colon "doc"). }
  destruct (String.eqb (hostname d) "calendar.google.com").
  { intros H; inversion H; subst c; clear H. unfold detectCalendarContext.
    cbn [title url isLoading key app].
    repeat split; auto 10.
    - destruct (truthy _) eqn:T; [|discriminate].
      intros E. rewrite E in T. discriminate.
    - destruct (String.eqb _ "Google Calendar");
        [reflexivity | apply (key_has_colon "calendar")]. }
  destruct (String.eqb (hostname d) "www.youtube.com"); [|discriminate].
  intros H; inversion H; subst c; clear H. unfold detectYouTubeContext.
  destruct (isHomeUrl (href d)); cbn [title url isLoading key app].
  - repeat split; auto 10. discriminate.
  - repeat split; auto 10.
    + apply orElse_never_empty. discriminate.
    + apply (key_has_colon "youtube").
Qed.

Lemma X1_witness :
  exists c, detectContext (Examples.mailPage 0) = Some c
            /\ title c <> "" /\ includes ":" (key c) = true.
Proof.
  eexists. split; [reflexivity|].
  destruct (@X1_detected_context_is_well_formed (Examples.mailPage 0) _ eq_refl)
    as [H1 [_ [_ [H4 _]]]].
  split; [exact H1 | exact H4].
Defined.

End ExtractorFacts.

Section ExtractorKeys.

Import Content.

Lemma detected_key_head (d : Doc) (c : Context) :
  detectContext d = Some c ->
  (app c = "gmail" \/ app c = "meet" \/ app c = "docs"
   \/ app c = "calendar" \/ app c = "youtube")
  /\ exists rest,
       splitOn ":"%char (key c)
       = (if String.eqb (app c) "docs" then "doc" else app c) :: rest.
Proof.
  unfold detectContext.
  destruct (String.eqb (hostname d) "mail.google.com").
  { intros H; inversion H; subst c; clear H. unfold detectGmailContext.
    cbn [key app]. split; [auto|]. destruct (truthy _); simpl; eauto. }
  destruct (String.eqb (hostname d) "meet.google.com").
  { intros H; inversion H; subst c; clear H. split; [simpl; auto|].
    simpl; eauto. }
  destruct (String.eqb (hostname d) "docs.google.com").
  { intros H; inversion H; subst c; clear H. split; [simpl; auto|].
    simpl; eauto. }
  destruct (String.eqb (hostname d) "calendar.google.com").
  { intros H; inversion H; subst c; clear H. unfold detectCalendarContext.
    cbn [key app]. split; [auto 10|].
    destruct (String.eqb _ "Google Calendar"); simpl; eauto. }
  destruct (String.eqb (hostname d) "www.youtube.com"); [|discriminate].
  intros H; inversion H; subst c; clear H. unfold detectYouTubeContext.
  destruct (isHomeUrl (href d)); (split; [simpl; auto 10|]); simpl; eauto.
Qed.

(** X2. The app that the all-notes view reads off the key of a detected
    context (the part before the first colon) is the context's own app tag
    for mail, meetings, the calendar and the video site, but 'doc' for a
    document, whose app tag is 'docs': every note stored under the key of
    a detected context is listed with that app. *)
Theorem X2_app_read_off_the_key :
  forall (d : Doc) (c : Context),
    detectContext d = Some c ->
    let listedApp := if String.eqb (app c) "docs" then "doc" else app c in
    hd_error (splitOn ":"%char (key c)) = Some listedApp
    /\ forall notes n,
         In n (Sidebar.allOfEntry (key c, Sidebar.Notes notes)) ->
         Sidebar.allApp n = listedApp /\ Sidebar.allContextKey n = key c.
Proof.
  intros d c H listedApp.
  assert (Hhead : exists rest, splitOn ":"%char (key c) = listedApp :: rest)
    by exact (proj2 (detected_key_head d H)).
  destruct Hhead as [rest Hs]. split; [now rewrite Hs|].
  intros notes n Hn. unfold Sidebar.allOfEntry in Hn. rewrite Hs in Hn.
  destruct (negb (includes ":" (key c))); [contradiction|].
  destruct notes as [|x xs]; [contradiction|].
  apply in_map_iff in Hn. destruct Hn as [p [<- _]]. split; reflexivity.
Qed.

Lemma X2_witness :
  hd_error (splitOn ":"%char (key (detectDocsContext MoreExamples.docsPage)))
  = Some "doc"
  /\ app (detectDocsContext MoreExamples.docsPage) = "docs".
Proof.
  destruct (@X2_app_read_off_the_key MoreExamples.docsPage
              (detectDocsContext MoreExamples.docsPage) eq_refl) as [H _].
  split; [exact H | reflexivity].
Defined.

(** X3. On the mail host, two pages that show the same non-empty sender
    address get the same key, 'gmail:' followed by the address, whatever
    their subjects, titles and threads; the sender is also the only
    participant. *)
Theorem X3_mail_key_follows_the_sender :
  forall (d1 d2 : Doc) (e : string),
    hostname d1 = "mail.google.com" -> hostname d2 = "mail.google.com" ->
    e <> "" ->
    gmailSenderEmail d1 = Some e -> gmailSenderEmail d2 = Some e ->
    exists c1 c2,
      detectContext d1 = Some c1 /\ detectContext d2 = Some c2
      /\ key c1 = "gmail:" ++ e /\ key c2 = "gmail:" ++ e
      /\ sender c1 = e /\ participants c1 = [e].
Proof.
  intros d1 d2 e H1 H2 He S1 S2.
  exists (detectGmailContext d1), (detectGmailContext d2).
  unfold detectContext. rewrite H1, H2. cbn [String.eqb Ascii.eqb Bool.eqb].
  split; [reflexivity|]. split; [reflexivity|].
  unfold detectGmailContext. rewrite S1, S2. cbn [key sender participants].
  destruct e as [|ch e']; [congruence|]. repeat split.
Qed.

Lemma X3_witness :
  key (detectGmailContext (Examples.mailPage 0)) = "gmail:alice@example.com".
Proof.
  destruct (@X3_mail_key_follows_the_sender (Examples.mailPage 0)
              (Examples.mailPage 1) "alice@example.com"
              eq_refl eq_refl ltac:(discriminate) eq_refl eq_refl)
    as [c1 [c2 [E1 [_ [K1 _]]]]].
  inversion E1 as [E]. rewrite E. exact K1.
Defined.

(** X4. On the calendar host the key is 'calendar:general' exactly when
    the title read is 'Google Calendar' or 'general': every view without an
    open event, an event titled 'Google Calendar' and an event titled
    'general' share one bucket; any other title has the key 'calendar:'
    followed by the title. *)
Theorem X4_calendar_general_bucket :
  forall (d : Doc),
    hostname d = "calendar.google.com" ->
    exists c,
      detectContext d = Some c
      /\ (calendarEvent d = None ->
          title c = "Google Calendar" /\ key c = "calendar:general")
      /\ (key c = "calendar:general"
          <-> title c = "Google Calendar" \/ title c = "general")
      /\ (title c <> "Google Calendar" -> key c = "calendar:" ++ title c).
Proof.
  intros d H. exists (detectCalendarContext d).
  unfold detectContext. rewrite H. cbn [String.eqb Ascii.eqb Bool.eqb].
  split; [reflexivity|]. unfold detectCalendarContext. cbn [title key].
  split; [|split].
  - intros E. rewrite E. split; reflexivity.
  - match goal with
    | |- context [String.eqb ?x "Google Calendar"] =>
        destruct (String.eqb_spec x "Google Calendar") as [E|N]
    end.
    + split; auto.
    + split.
      * intros K. right. simpl in K. now inversion K.
      * intros [E|E]; [contradiction | rewrite E; reflexivity].
  - intros N.
    match goal with
    | |- context [String.eqb ?x "Google Calendar"] =>
        destruct (String.eqb_spec x "Google Calendar")
    end; [contradiction | reflexivity].
Qed.

Lemma X4_witness :
  exists c,
    detectContext MoreExamples.calendarEventPage = Some c
    /\ key c = "calendar:general" /\ title c = "general".
Proof.
  destruct (@X4_calendar_general_bucket MoreExamples.calendarEventPage eq_refl)
    as [c [E [_ [K _]]]].
  exists c. split; [exact E|]. inversion E; subst c. split; [|reflexivity].
  apply K. right. reflexivity.
Defined.

End ExtractorKeys.

(* ------------------------------------------------------------------------- *)
(** ** Further properties: the resolver *)
(* ------------------------------------------------------------------------- *)

Section LoopFacts.

Import Content.

Variable doc : N -> Doc.

(** With enough fuel no callback is left pending. *)
Lemma run_drains (fuel : nat) :
  forall (evs : list (N * Event)) (st : State),
    budget evs (timers st) <= fuel -> timers (run doc fuel evs st) = [].
Proof.
  induction fuel as [|f IH]; intros evs st Hb.
  - cbn [run]. destruct (timers st) as [|[d [u a]] q]; [reflexivity|].
    rewrite budget_timer in Hb. unfold pollsLeft in Hb. lia.
  - assert (Timer : forall d k q, timers st = (d, k) :: q ->
              timers (run doc f evs (fire doc d k (setTimers q st))) = []).
    { intros d k q Hq. rewrite Hq in Hb.
      destruct (fire_commits doc d k q st evs) as [_ [_ [Hlt _]]].
      apply IH. lia. }
    assert (Event : forall t ev evs', evs = (t, ev) :: evs' ->
              timers (run doc f evs' (onEvent doc ev t st)) = []).
    { intros t ev evs' He. rewrite He in Hb.
      destruct (onEvent_commits doc ev t st evs') as [_ [Hlt _]].
      apply IH. lia. }
    cbn [run].
    destruct (timers st) as [|[d k] q] eqn:Hq; destruct evs as [|[t ev] evs'].
    + exact Hq.
    + apply (Event t ev evs' eq_refl).
    + apply (Timer d k q eq_refl).
    + destruct (d <=? t)%N;
        [apply (Timer d k q eq_refl) | apply (Event t ev evs' eq_refl)].
Qed.

Lemma fire_context (d : N) (url0 : string) (a : nat) (q : list (N * Task))
      (st : State) :
  currentContext (fire doc d (Poll url0 a) (setTimers q st))
  = match checkAndUpdate (doc d) url0 (S a) with
    | Commit c => Some c
    | _ => currentContext st
    end.
Proof.
  unfold fire. destruct (checkAndUpdate (doc d) url0 (S a)); try reflexivity.
  unfold updateContext, postToSidebar. simpl.
  destruct (sidebarOpen st && iframeReady st); reflexivity.
Qed.

Lemma onEvent_context (ev : Event) (t : N) (st : State) :
  currentContext (onEvent doc ev t st) = currentContext st.
Proof.
  unfold onEvent.
  destruct (observe ev (doc t) (lastUrl st) (lastTitle st)) as [[u ti] go].
  destruct go; [|reflexivity].
  unfold waitForContextAndUpdate, setTimeout, postToSidebar. simpl.
  destruct (sidebarOpen st && iframeReady st); reflexivity.
Qed.

Lemma last_cons_default (A : Type) (a d : A) (l : list A) :
  last (a :: l) d = last l a.
Proof.
  revert a d. induction l as [|b l IH]; intros a d; [reflexivity|].
  change (last (a :: b :: l) d) with (last (b :: l) d).
  rewrite (IH b d), (IH b a). reflexivity.
Qed.

(** The context the script holds follows the commits. *)
Lemma run_context (fuel : nat) :
  forall (evs : list (N * Event)) (st : State),
    exists new,
      finalized (run doc fuel evs st) = (finalized st ++ new)%list
      /\ currentContext (run doc fuel evs st)
         = last (map (fun x => Some (snd x)) new) (currentContext st).
Proof.
  induction fuel as [|f IH]; intros evs st.
  - exists []. split; [now rewrite app_nil_r | reflexivity].
  - assert (Timer : forall d k q, timers st = (d, k) :: q ->
              exists new,
                finalized (run doc f evs (fire doc d k (setTimers q st)))
                = (finalized st ++ new)%list
                /\ currentContext (run doc f evs (fire doc d k (setTimers q st)))
                   = last (map (fun x => Some (snd x)) new) (currentContext st)).
    { intros d [u a] q Hq.
      destruct (IH evs (fire doc d (Poll u a) (setTimers q st))) as [new [Hn Hc]].
      destruct (fire_effect doc d u a q st) as [_ [_ [_ [_ H]]]].
      rewrite fire_context in Hc.
      destruct (checkAndUpdate (doc d) u (S a)) as [c| |].
      - destruct H as [Hf _]. exists ((d, c) :: new). split.
        + rewrite Hn, Hf, <- app_assoc. reflexivity.
        + rewrite Hc. cbn [map snd]. now rewrite last_cons_default.
      - destruct H as [Hf _]. exists new. rewrite Hn, Hf. auto.
      - destruct H as [Hf _]. exists new. rewrite Hn, Hf. auto. }
    assert (Event : forall t ev evs',
              exists new,
                finalized (run doc f evs' (onEvent doc ev t st))
                = (finalized st ++ new)%list
                /\ currentContext (run doc f evs' (onEvent doc ev t st))
                   = last (map (fun x => Some (snd x)) new) (currentContext st)).
    { intros t ev evs'.
      destruct (IH evs' (onEvent doc ev t st)) as [new [Hn Hc]].
      destruct (onEvent_effect doc ev t st) as [Hf _].
      exists new. rewrite Hn, Hc, Hf, onEvent_context. auto. }
    cbn [run].
    destruct (timers st) as [|[d k] q] eqn:Hq; destruct evs as [|[t ev] evs'].
    + exists []. split; [now rewrite app_nil_r | reflexivity].
    + apply Event.
    + apply (Timer d k q eq_refl).
    + destruct (d <=? t)%N; [apply (Timer d k q eq_refl) | apply Event].
Qed.

(** With the sidebar closed nothing is posted. *)
Lemma run_closed (fuel : nat) :
  forall (evs : list (N * Event)) (st : State),
    sidebarOpen st && iframeReady st = false ->
    outbox (run doc fuel evs st) = outbox st.
Proof.
  induction fuel as [|f IH]; intros evs st Hc; [reflexivity|].
  assert (Timer : forall d k q,
            outbox (run doc f evs (fire doc d k (setTimers q st))) = outbox st).
  { intros d [u a] q.
    destruct (fire_effect doc d u a q st) as [_ [_ [Ho [Hi H]]]].
    rewrite IH by (rewrite Ho, Hi; exact Hc).
    rewrite Hc in H.
    destruct (checkAndUpdate (doc d) u (S a)); destruct H as [_ [_ H]]; exact H. }
  assert (Event : forall t ev evs',
            outbox (run doc f evs' (onEvent doc ev t st)) = outbox st).
  { intros t ev evs'.
    destruct (onEvent_effect doc ev t st) as [_ [_ [_ [Ho [Hi [_ H]]]]]].
    rewrite IH by (rewrite Ho, Hi; exact Hc).
    rewrite Hc, andb_false_r in H. exact H. }
  cbn [run].
  destruct (timers st) as [|[d k] q]; destruct evs as [|[t ev] evs'];
    try reflexivity; try apply Event; try apply Timer.
  destruct (d <=? t)%N; [apply Timer | apply Event].
Qed.

(** Where a commit of a cycle comes from. *)
Lemma pollFrom_origin (fuel : nat) :
  forall (url0 : string) (t : N) (a : nat) (tc : N) (c : Context),
    pollFrom doc fuel url0 t a = Some (tc, c) ->
    detectContext (doc tc) = Some c
    /\ exists k, k < fuel /\ tc = (t + 200 * N.of_nat k)%N
                 /\ (k = 0 \/ a + k < maxAttempts).
Proof.
  induction fuel as [|f IH]; intros url0 t a tc c H; [discriminate|].
  cbn [pollFrom] in H.
  destruct (checkAndUpdate (doc t) url0 (S a)) as [c'| |] eqn:E.
  - inversion H; subst. split; [now apply commit_is_detected in E|].
    exists 0. split; [lia|]. split; [lia | now left].
  - apply retry_below_budget in E.
    destruct (IH _ _ _ _ _ H) as [Hd [k [Hk [Ht Hor]]]].
    split; [exact Hd|]. exists (S k). split; [lia|]. split; [lia|].
    right. destruct Hor; lia.
  - discriminate.
Qed.

Lemma triggerTimes_from_events (evs : list (N * Event)) :
  forall (lu lt : string) (t : N),
    In t (triggerTimes doc evs lu lt) -> exists ev, In (t, ev) evs.
Proof.
  induction evs as [|[t0 ev0] evs IH]; intros lu lt t H; [contradiction|].
  cbn [triggerTimes] in H.
  destruct (observe ev0 (doc t0) lu lt) as [[u ti] go].
  destruct go.
  - destruct H as [<-|H].
    + exists ev0. now left.
    + destruct (IH _ _ _ H) as [ev Hev]. exists ev. now right.
  - destruct (IH _ _ _ H) as [ev Hev]. exists ev. now right.
Qed.

(** A lone cycle, whether or not it commits. *)
Lemma lone_cycle_result (t0 : N) (force : bool) (st : State) (fuel : nat) :
  timers st = [] -> maxAttempts <= fuel ->
  finalized (run doc fuel [] (waitForContextAndUpdate doc force t0 st))
  = (finalized st ++ cycleOf doc t0)%list.
Proof.
  intros Hq Hfuel.
  destruct (waitForContextAndUpdate_effect doc force t0 st) as [Ht [Hf _]].
  rewrite Hq in Ht. cbn [insertTimer] in Ht.
  destruct (@run_commits doc fuel [] (waitForContextAndUpdate doc force t0 st))
    as [new [Hn Hperm]].
  - rewrite Ht. unfold budget, pollsLeft, maxAttempts in *. simpl. lia.
  - rewrite Hn, Hf. f_equal.
    rewrite Ht in Hperm. cbn [flat_map triggerTimes] in Hperm.
    rewrite !app_nil_r in Hperm. fold (cycleOf doc t0) in Hperm.
    unfold cycleOf, commitOf in *.
    destruct (pollFrom doc (pollsLeft 0) (href (doc t0)) (t0 + 2000) 0).
    + symmetry in Hperm. now apply Permutation_length_1_inv in Hperm.
    + symmetry in Hperm. now apply Permutation_nil in Hperm.
Qed.

Lemma unsupported_retry (d : Doc) (url0 : string) (n : nat) :
  detectContext d = None ->
  checkAndUpdate d url0 n = if n <? maxAttempts then Retry else GiveUp.
Proof. intros H. unfold checkAndUpdate. now rewrite H. Qed.

Lemma nonwatch_commit (d : Doc) (url0 : string) (n : nat) (c : Context) :
  includes "watch?v=" url0 = false ->
  detectContext d = Some c ->
  checkAndUpdate d url0 n = Commit c.
Proof.
  intros Hw Hd. unfold checkAndUpdate. rewrite Hd, Hw, andb_false_r.
  destruct (isHomeUrl url0); reflexivity.
Qed.

(** What a run without events posts: one message per commit. *)
Lemma run_posts (fuel : nat) :
  forall (st : State),
    exists new,
      finalized (run doc fuel [] st) = (finalized st ++ new)%list
      /\ outbox (run doc fuel [] st)
         = (outbox st
            ++ (if sidebarOpen st && iframeReady st
                then map (fun x => (fst x, CONTEXT_UPDATE (snd x))) new
                else []))%list.
Proof.
  induction fuel as [|f IH]; intros st.
  - exists []. cbn [run]. rewrite !app_nil_r.
    destruct (sidebarOpen st && iframeReady st); rewrite ?app_nil_r; auto.
  - cbn [run]. destruct (timers st) as [|[d [u a]] q].
    + exists []. rewrite !app_nil_r.
      destruct (sidebarOpen st && iframeReady st); rewrite ?app_nil_r; auto.
    + destruct (IH (fire doc d (Poll u a) (setTimers q st))) as [new [Hn Ho]].
      destruct (fire_effect doc d u a q st) as [_ [_ [Hso [Hsi H]]]].
      rewrite Hso, Hsi in Ho.
      destruct (checkAndUpdate (doc d) u (S a)) as [c| |];
        destruct H as [Hf [_ Hout]].
      * exists ((d, c) :: new). rewrite Hn, Ho, Hf, Hout.
        split; [now rewrite <- app_assoc|].
        destruct (sidebarOpen st && iframeReady st);
          [now rewrite <- app_assoc | reflexivity].
      * exists new. rewrite Hn, Ho, Hf, Hout. auto.
      * exists new. rewrite Hn, Ho, Hf, Hout. auto.
Qed.

End LoopFacts.

Section ResolverExtras.

Import Content.

(** X5. A trigger on a page whose address holds no 'watch?v=' (the home
    page, search, channel and list pages, and the other four hosts): when
    the extractor recognises the page at the first poll, 2000 ms after the
    trigger, that context is committed there and then, whatever its title;
    it becomes the context the script holds and no callback is left. *)
Theorem X5_other_pages_commit_at_first_poll :
  forall (doc : N -> Doc) (t0 : N) (st : State) (fuel : nat) (c : Context),
    timers st = [] -> maxAttempts <= fuel ->
    includes "watch?v=" (href (doc t0)) = false ->
    detectContext (doc (t0 + 2000)%N) = Some c ->
    let st' := run doc fuel [] (waitForContextAndUpdate doc false t0 st) in
    finalized st' = (finalized st ++ [((t0 + 2000)%N, c)])%list
    /\ currentContext st' = Some c
    /\ timers st' = [].
Proof.
  intros doc t0 st fuel c Hq Hfuel Hw Hd st'.
  assert (Hf : finalized st' = (finalized st ++ [((t0 + 2000)%N, c)])%list).
  { unfold st'. rewrite lone_cycle_result by assumption. f_equal.
    unfold cycleOf, commitOf. change (pollsLeft 0) with (S 24).
    cbn [pollFrom]. now rewrite (@nonwatch_commit _ _ 1 _ Hw Hd). }
  split; [exact Hf|]. split.
  - destruct (run_context doc fuel [] (waitForContextAndUpdate doc false t0 st))
      as [new [Hn Hc]].
    fold st' in Hn, Hc.
    destruct (waitForContextAndUpdate_effect doc false t0 st) as [_ [Hf0 _]].
    rewrite Hf0, Hf in Hn. apply app_inv_head in Hn. subst new.
    rewrite Hc. reflexivity.
  - apply run_drains.
    destruct (waitForContextAndUpdate_effect doc false t0 st) as [Ht _].
    rewrite Ht, Hq. unfold budget, pollsLeft, maxAttempts in *. simpl. lia.
Qed.

Lemma X5_witness :
  finalized (run Examples.mailPage 25 []
               (waitForContextAndUpdate Examples.mailPage false 0
                  (Examples.atRest "https://mail.google.com/" "Gmail")))
  = [(2000%N, Examples.mailFirst)].
Proof.
  destruct (@X5_other_pages_commit_at_first_poll Examples.mailPage 0%N
              (Examples.atRest "https://mail.google.com/" "Gmail") 25
              Examples.mailFirst eq_refl (le_n _) eq_refl eq_refl) as [H _].
  exact H.
Defined.

(** X6. A trigger on a page that the extractor never recognises during the
    25 polls: the cycle gives up after the last poll; nothing is
    committed, the context the script holds is unchanged and no callback
    is left. With the sidebar open, the loading placeholder posted at the
    trigger is the only message: no committed context follows it. *)
Theorem X6_unrecognised_page_commits_nothing :
  forall (doc : N -> Doc) (t0 : N) (st : State) (fuel : nat),
    timers st = [] -> maxAttempts <= fuel ->
    (forall k, k < 25 ->
       detectContext (doc (t0 + 2000 + 200 * N.of_nat k)%N) = None) ->
    let st' := run doc fuel [] (waitForContextAndUpdate doc false t0 st) in
    finalized st' = finalized st
    /\ currentContext st' = currentContext st
    /\ timers st' = []
    /\ outbox st'
       = if sidebarOpen st && iframeReady st
         then (outbox st
               ++ [(t0, CONTEXT_UPDATE (loadingContext (href (doc t0))))])%list
         else outbox st.
Proof.
  intros doc t0 st fuel Hq Hfuel Hnone st'.
  destruct (waitForContextAndUpdate_effect doc false t0 st)
    as [Ht [Hf0 [_ [_ [Hso [Hsi Hout]]]]]].
  assert (Hf : finalized st' = finalized st).
  { unfold st'. rewrite lone_cycle_result by assumption.
    replace (cycleOf doc t0) with (@nil (N * Context)); [apply app_nil_r|].
    unfold cycleOf, commitOf. change (pollsLeft 0) with (24 + 1).
    rewrite pollFrom_skip.
    - cbn [pollFrom Nat.add].
      rewrite unsupported_retry; [reflexivity|].
      apply Hnone. lia.
    - intros k Hk. rewrite unsupported_retry by (apply Hnone; lia).
      destruct (Nat.ltb_spec (S (0 + k)) maxAttempts);
        [reflexivity | unfold maxAttempts in *; lia]. }
  split; [exact Hf|].
  destruct (run_context doc fuel [] (waitForContextAndUpdate doc false t0 st))
    as [new [Hn Hc]].
  destruct (run_posts doc fuel (waitForContextAndUpdate doc false t0 st))
    as [new' [Hn' Ho]].
  fold st' in Hn, Hc, Hn', Ho.
  rewrite Hf0, Hf in Hn, Hn'.
  rewrite <- (app_nil_r (finalized st)) in Hn at 1.
  rewrite <- (app_nil_r (finalized st)) in Hn' at 1.
  apply app_inv_head in Hn, Hn'. subst new new'.
  split; [|split].
  - rewrite Hc. cbn [map last].
    unfold waitForContextAndUpdate, setTimeout, postToSidebar. simpl.
    destruct (sidebarOpen st && iframeReady st); reflexivity.
  - apply run_drains. rewrite Ht, Hq.
    unfold budget, pollsLeft, maxAttempts in *. simpl. lia.
  - rewrite Ho, Hout.
    destruct (sidebarOpen st' && iframeReady st');
      destruct (sidebarOpen (waitForContextAndUpdate doc false t0 st)
                && iframeReady (waitForContextAndUpdate doc false t0 st));
      now rewrite ?app_nil_r.
Qed.

Lemma X6_witness :
  outbox (run MoreExamples.foreignPage 25 []
            (waitForContextAndUpdate MoreExamples.foreignPage false 0
               (Examples.atRest "https://example.org/" "Example")))
  = [(0%N, CONTEXT_UPDATE (loadingContext "https://example.org/"))].
Proof.
  destruct (@X6_unrecognised_page_commits_nothing MoreExamples.foreignPage 0%N
              (Examples.atRest "https://example.org/" "Example") 25
              eq_refl (le_n _)) as [_ [_ [_ H]]].
  - intros k Hk. reflexivity.
  - exact H.
Defined.

(** X7. In a run that starts with no callback pending, every context
    committed during the run is what the extractor returns on the document
    at the very instant of the commit, and that instant is a poll of a
    cycle started by one of the events: 2000 ms after the event plus a
    multiple of 200 ms, at most 6800 ms after it. *)
Theorem X7_commits_are_extractor_output :
  forall (doc : N -> Doc) (evs : list (N * Event)) (st : State) (fuel : nat)
         (tc : N) (c : Context),
    timers st = [] ->
    budget evs [] <= fuel ->
    In (tc, c) (finalized (run doc fuel evs st)) ->
    In (tc, c) (finalized st)
    \/ (detectContext (doc tc) = Some c
        /\ exists t ev k,
             In (t, ev) evs /\ k < 25
             /\ tc = (t + 2000 + 200 * N.of_nat k)%N
             /\ (t + 2000 <= tc <= t + 6800)%N).
Proof.
  intros doc evs st fuel tc c Hq Hb Hin.
  destruct (@run_commits doc fuel evs st) as [new [Hn Hp]];
    [now rewrite Hq|].
  rewrite Hn in Hin. apply in_app_or in Hin. destruct Hin as [Hin|Hin];
    [now left | right].
  apply (Permutation_in _ Hp) in Hin. rewrite Hq in Hin. cbn [flat_map app] in Hin.
  apply in_flat_map in Hin. destruct Hin as [t [Ht Hc]].
  apply triggerTimes_from_events in Ht. destruct Ht as [ev Hev].
  unfold cycleOf, commitOf in Hc.
  destruct (pollFrom doc (pollsLeft 0) (href (doc t)) (t + 2000) 0)
    as [[tc' c']|] eqn:E; [|contradiction].
  destruct Hc as [Hc|[]]. inversion Hc; subst tc' c'.
  apply pollFrom_origin in E. destruct E as [Hd [k [Hk [Htc _]]]].
  split; [exact Hd|]. exists t, ev, k.
  unfold pollsLeft, maxAttempts in Hk. simpl in Hk.
  repeat split; try assumption; lia.
Qed.

Lemma X7_witness :
  detectContext (Examples.slowWatchPage 4000) = Some Examples.videoTitled.
Proof.
  destruct (@X7_commits_are_extractor_output Examples.slowWatchPage
              [(0%N, PushState)]
              (Examples.atRest "https://www.youtube.com/" "YouTube") 26
              4000%N Examples.videoTitled eq_refl) as [H|[H _]].
  - unfold budget, maxAttempts. simpl. lia.
  - vm_compute. left. reflexivity.
  - destruct H.
  - exact H.
Defined.

(** X8. The loop always comes to rest: with fuel for 26 steps per event
    and for the polls left to the pending callbacks, no callback is
    pending at the end, and from a start with no callback pending the
    number of commits added is at most the number of events. *)
Theorem X8_every_cycle_ends :
  forall (doc : N -> Doc) (evs : list (N * Event)) (st : State) (fuel : nat),
    budget evs (timers st) <= fuel ->
    timers (run doc fuel evs st) = []
    /\ (timers st = [] ->
        exists new,
          finalized (run doc fuel evs st) = (finalized st ++ new)%list
          /\ List.length new <= List.length evs).
Proof.
  intros doc evs st fuel Hb. split; [now apply run_drains|].
  intros Hq. destruct (@run_commits doc fuel evs st Hb) as [new [Hn Hp]].
  exists new. split; [exact Hn|].
  rewrite (Permutation_length Hp), Hq. cbn [flat_map List.app].
  clear Hb Hn Hp Hq.
  generalize (lastUrl st) (lastTitle st).
  induction evs as [|[t ev] evs IH]; intros lu lt; [simpl; lia|].
  cbn [triggerTimes].
  destruct (observe ev (doc t) lu lt) as [[u ti] go].
  assert (Hone : List.length (cycleOf doc t) <= 1).
  { unfold cycleOf, commitOf. destruct (pollFrom _ _ _ _ _); simpl; lia. }
  specialize (IH u ti).
  destruct go; cbn [flat_map List.app Datatypes.length] in IH |- *;
    rewrite ?length_app; lia.
Qed.

Lemma X8_witness :
  timers (run Examples.channelPage 60
            [(0%N, PushState); (1000%N, YtNavigateFinish)]
            (Examples.atRest "https://www.youtube.com/" "YouTube")) = [].
Proof.
  destruct (@X8_every_cycle_ends Examples.channelPage
              [(0%N, PushState); (1000%N, YtNavigateFinish)]
              (Examples.atRest "https://www.youtube.com/" "YouTube") 60)
    as [H _].
  - unfold budget, maxAttempts. simpl. lia.
  - exact H.
Defined.

(** X9. Whatever the events: the context the script holds at the end of a
    run is the context of the last commit of the run (and the one it held
    before when the run commits nothing), whether or not the sidebar is
    open; with the sidebar closed the run posts no message at all. *)
Theorem X9_held_context_is_last_commit :
  forall (doc : N -> Doc) (evs : list (N * Event)) (st : State) (fuel : nat)
         (new : list (N * Context)),
    finalized (run doc fuel evs st) = (finalized st ++ new)%list ->
    currentContext (run doc fuel evs st)
    = last (map (fun x => Some (snd x)) new) (currentContext st)
    /\ (sidebarOpen st && iframeReady st = false ->
        outbox (run doc fuel evs st) = outbox st).
Proof.
  intros doc evs st fuel new Hn. split.
  - destruct (run_context doc fuel evs st) as [new' [Hn' Hc]].
    rewrite Hn in Hn'. apply app_inv_head in Hn'. subst new'. exact Hc.
  - intros Hc. now apply run_closed.
Qed.

Lemma X9_witness :
  currentContext (run Examples.channelPage 60
                    [(0%N, PushState); (1000%N, YtNavigateFinish)]
                    (Examples.atRest "https://www.youtube.com/" "YouTube"))
  = Some Examples.channelNamed.
Proof.
  destruct (@X9_held_context_is_last_commit Examples.channelPage
              [(0%N, PushState); (1000%N, YtNavigateFinish)]
              (Examples.atRest "https://www.youtube.com/" "YouTube") 60
              [(2000%N, Examples.channelUnnamed); (3000%N, Examples.channelNamed)])
    as [H _].
  - vm_compute. reflexivity.
  - exact H.
Defined.

Lemma setLast_same (st : State) : setLast (lastUrl st) (lastTitle st) st = st.
Proof. destruct st; reflexivity. Qed.

Lemma observe_comes_to_rest (ev : Event) (d : Doc) (lu lt : string) :
  ev = Mutation \/ ev = TitleMutation \/ ev = VisibilityChange ->
  let r := observe ev d lu lt in
  observe ev d (fst (fst r)) (snd (fst r)) = (fst (fst r), snd (fst r), false).
Proof.
  intros [-> | [-> | ->]]; unfold observe.
  - destruct (String.eqb lu (href d)) eqn:E1; cbn [negb].
    + destruct (String.eqb lt (docTitle d)) eqn:E2;
        destruct (includes "watch?v=" (href d)) eqn:E3;
        cbn [negb andb fst snd];
        rewrite ?E1, ?E2, ?E3, ?String.eqb_refl; reflexivity.
    + cbn [fst snd]. rewrite !String.eqb_refl. reflexivity.
  - destruct (String.eqb lt (docTitle d)) eqn:E2;
      destruct (includes "watch?v=" (href d)) eqn:E3;
      cbn [negb andb fst snd];
      rewrite ?E2, ?E3, ?String.eqb_refl; reflexivity.
  - destruct (hidden d) eqn:E1; cbn [negb andb fst snd].
    + reflexivity.
    + destruct (String.eqb (href d) lu) eqn:E2; cbn [negb fst snd];
        rewrite ?E1, ?E2, ?String.eqb_refl; reflexivity.
Qed.

(** X10. The three guarded observers (document mutations, title
    mutations, visibility changes) come to rest: once one of them has been
    handled, handling the same kind of event again while the document is
    the same changes nothing, starts no cycle and posts nothing. The
    history and navigation hooks are not guarded and start a cycle every
    time; yt-navigate-start never starts one. *)
Theorem X10_guarded_observers_come_to_rest :
  forall (doc : N -> Doc) (t1 t2 : N) (st : State),
    doc t2 = doc t1 ->
    (forall ev,
       ev = Mutation \/ ev = TitleMutation \/ ev = VisibilityChange ->
       onEvent doc ev t2 (onEvent doc ev t1 st) = onEvent doc ev t1 st)
    /\ (forall ev lu lt,
          ev = PushState \/ ev = ReplaceState \/ ev = PopState
          \/ ev = YtNavigateFinish \/ ev = YtPageDataUpdated ->
          snd (observe ev (doc t1) lu lt) = true)
    /\ (forall lu lt, snd (observe YtNavigateStart (doc t1) lu lt) = false).
Proof.
  intros doc t1 t2 st Hdoc. split; [|split].
  - intros ev Hev.
    set (st1 := onEvent doc ev t1 st).
    destruct (onEvent_effect doc ev t1 st) as [_ [Hu [Ht _]]].
    fold st1 in Hu, Ht.
    assert (Hrest : observe ev (doc t2) (lastUrl st1) (lastTitle st1)
                    = (lastUrl st1, lastTitle st1, false)).
    { rewrite Hdoc, Hu, Ht. now apply observe_comes_to_rest. }
    unfold onEvent at 1. rewrite Hrest. apply setLast_same.
  - intros ev lu lt [-> | [-> | [-> | [-> | ->]]]]; reflexivity.
  - reflexivity.
Qed.

Lemma X10_witness :
  let st1 := onEvent Examples.channelPage Mutation 10
               (Examples.atRest "https://www.youtube.com/" "YouTube") in
  onEvent Examples.channelPage Mutation 20 st1 = st1.
Proof.
  intros st1.
  destruct (@X10_guarded_observers_come_to_rest Examples.channelPage 10%N 20%N
              (Examples.atRest "https://www.youtube.com/" "YouTube") eq_refl)
    as [H _].
  apply H. left. reflexivity.
Defined.

End ResolverExtras.

(* ------------------------------------------------------------------------- *)
(** ** Further properties: similarity and the scans of the store *)
(* ------------------------------------------------------------------------- *)

Section ScanFacts.

Import Sidebar.

Lemma shared_word_sym (ws1 ws2 : list string) :
  (0 <? List.length (filter (fun w => includesStr ws2 w) ws1))
  = (0 <? List.length (filter (fun w => includesStr ws1 w) ws2)).
Proof.
  apply eq_true_iff_eq. rewrite !positive_filter.
  split; intros [w [H1 H2]]; apply includesStr_In in H2;
    exists w; (split; [assumption | now apply includesStr_In]).
Qed.

(** X11. The similarity test is symmetric and no title is similar to
    itself; an empty title is similar to nothing; and two titles that the
    test relates share a word of more than 2 code units that is not a stop
    word. *)
Theorem X11_similarity_is_symmetric :
  forall (a b : string),
    isSimilarTitle a b = isSimilarTitle b a
    /\ isSimilarTitle a a = false
    /\ isSimilarTitle "" b = false
    /\ (isSimilarTitle a b = true ->
        exists w, In w (splitWs a) /\ In w (splitWs b)
                  /\ 2 < String.length w /\ ~ In w commonWords).
Proof.
  intros a b. split; [|split; [|split]].
  - unfold isSimilarTitle. rewrite (orb_comm (negb (truthy a))).
    destruct (negb (truthy b) || negb (truthy a)); [reflexivity|].
    rewrite (String.eqb_sym a b).
    destruct (String.eqb b a); [reflexivity|]. apply shared_word_sym.
  - unfold isSimilarTitle. rewrite String.eqb_refl.
    destruct (negb (truthy a) || negb (truthy a)); reflexivity.
  - reflexivity.
  - unfold isSimilarTitle.
    destruct (negb (truthy a) || negb (truthy b)); [discriminate|].
    destruct (String.eqb a b); [discriminate|].
    rewrite positive_filter. intros [w [H1 H2]].
    apply includesStr_In in H2. apply filter_In in H1, H2.
    destruct H1 as [H1 K], H2 as [H2 _]. exists w.
    unfold keepWord in K. apply andb_prop in K. destruct K as [K1 K2].
    repeat split; try assumption.
    + now apply Nat.ltb_lt.
    + intros Hin. apply includesStr_In in Hin. rewrite Hin in K2. discriminate.
Qed.

Lemma X11_witness :
  exists w, In w (splitWs "budget review 2024") /\ In w (splitWs "annual budget")
            /\ 2 < String.length w.
Proof.
  destruct (X11_similarity_is_symmetric "budget review 2024" "annual budget")
    as [_ [_ [_ H]]].
  destruct (H eq_refl) as [w [H1 [H2 [H3 _]]]].
  exists w. auto.
Defined.

Lemma no_colon_cons (c : ascii) (s : string) :
  includes ":" (String c s) = false ->
  Ascii.eqb c ":"%char = false /\ includes ":" s = false.
Proof.
  cbn [includes]. intros H. apply orb_false_elim in H. destruct H as [H1 H2].
  split; [|exact H2].
  destruct (Ascii.eqb_spec c ":"%char) as [->|]; [|reflexivity].
  cbn [prefix] in H1. destruct (ascii_dec ":" ":"); [|congruence].
  now rewrite prefix_empty in H1.
Qed.

Lemma splitOn_no_colon (s : string) :
  includes ":" s = false -> splitOn ":"%char s = [s].
Proof.
  induction s as [|c s IH]; intros H; [reflexivity|].
  apply no_colon_cons in H. destruct H as [Hc Hs].
  cbn [splitOn]. rewrite Hc, (IH Hs). reflexivity.
Qed.

Lemma splitOn_first (a s : string) :
  includes ":" a = false ->
  splitOn ":"%char (a ++ ":" ++ s) = a :: splitOn ":"%char s.
Proof.
  induction a as [|c a IH]; intros H; [reflexivity|].
  apply no_colon_cons in H. destruct H as [Hc Ha].
  cbn [append splitOn]. rewrite Hc. cbn [append] in IH. rewrite (IH Ha).
  reflexivity.
Qed.

(** X12. The title that the related-notes scan reads off a stored key is
    the lower-cased text between the first and the second colon only: for
    a key 'app:title' without a further colon it is the whole title, and
    whatever follows a colon inside the title is not compared. *)
Theorem X12_key_title_stops_at_second_colon :
  forall (a t rest : string),
    includes ":" a = false -> includes ":" t = false ->
    keyTitleOf (a ++ ":" ++ t) = toLowerCase t
    /\ keyTitleOf (a ++ ":" ++ t ++ ":" ++ rest) = toLowerCase t.
Proof.
  intros a t rest Ha Ht. unfold keyTitleOf.
  rewrite (@splitOn_first a t Ha), (@splitOn_first a (t ++ ":" ++ rest) Ha),
    (@splitOn_first t rest Ht), (@splitOn_no_colon t Ht).
  cbn [nth_error]. unfold orElse. destruct (toLowerCase t); split; reflexivity.
Qed.

Lemma X12_witness :
  keyTitleOf "youtube:Search: budget review" = "search".
Proof.
  destruct (@X12_key_title_stops_at_second_colon "youtube" "Search"
              " budget review" eq_refl eq_refl) as [_ H].
  exact H.
Defined.

Lemma nth_indexed_from (A : Type) (l : list A) (s i : nat) (x : A) :
  nth_error l i = Some x -> In ((s + i)%nat, x) (combine (seq s (List.length l)) l).
Proof.
  revert s i. induction l as [|y r IH]; intros s i H; [destruct i; discriminate|].
  destruct i as [|i]; simpl in *.
  - inversion H; subst. left. f_equal. lia.
  - right. replace (s + S i)%nat with (S s + i)%nat by lia. now apply IH.
Qed.

Lemma nth_indexed (A : Type) (l : list A) (i : nat) (x : A) :
  nth_error l i = Some x -> In (i, x) (indexed l).
Proof. intros H. apply (nth_indexed_from l 0 i H). Qed.

Lemma splitOn_not_nil (sep : ascii) (s : string) : splitOn sep s <> [].
Proof.
  destruct s as [|c s]; cbn [splitOn]; [discriminate|].
  destruct (Ascii.eqb c sep); [discriminate|].
  destruct (splitOn sep s); discriminate.
Qed.

Lemma splitOn_with_colon (k : string) :
  includes ":" k = true ->
  exists a p ps, splitOn ":"%char k = a :: p :: ps.
Proof.
  induction k as [|c k IH]; intros H; [discriminate|].
  cbn [splitOn]. destruct (Ascii.eqb c ":"%char) eqn:E.
  - destruct (splitOn ":"%char k) as [|p ps] eqn:S; [|eauto].
    now apply splitOn_not_nil in S.
  - cbn [includes] in H. apply orb_prop in H. destruct H as [H|H].
    + cbn [prefix] in H. destruct (ascii_dec ":" c) as [<-|]; [|discriminate].
      rewrite Ascii.eqb_refl in E. discriminate.
    + destruct (IH H) as [a [p [ps ->]]]. simpl. eauto.
Qed.

Lemma join_splitOn (k : string) : join ":" (splitOn ":"%char k) = k.
Proof.
  unfold join. induction k as [|c k IH]; [reflexivity|].
  cbn [splitOn]. destruct (Ascii.eqb_spec c ":"%char) as [->|N].
  - destruct (splitOn ":"%char k) as [|p ps] eqn:S.
    + now apply splitOn_not_nil in S.
    + cbn [String.concat] in *. now rewrite IH.
  - destruct (splitOn ":"%char k) as [|p ps] eqn:S.
    + now apply splitOn_not_nil in S.
    + cbn [consHead String.concat] in *.
      destruct ps; cbn [append]; now rewrite <- IH.
Qed.

Lemma allOfEntry_origin (e : string * Stored) (n : AllNote) :
  In n (allOfEntry e) ->
  includes ":" (allContextKey n) = true
  /\ allApp n ++ ":" ++ allContextTitle n = allContextKey n
  /\ exists notes, e = (allContextKey n, Notes notes)
                   /\ nth_error notes (allIndex n) = Some (allNote n).
Proof.
  destruct e as [k v]. unfold allOfEntry.
  destruct (includes ":" k) eqn:Hk; [|contradiction]. cbn [negb].
  destruct v as [notes|]; [|contradiction].
  destruct notes as [|x xs]; [contradiction|].
  destruct (splitOn_with_colon k Hk) as [a [p [ps Hs]]].
  assert (Hj := join_splitOn k). rewrite Hs in *. unfold join in *.
  intros H. apply in_map_iff in H. destruct H as [[i y] [<- Hin]].
  cbn [allContextKey allApp allContextTitle allIndex allNote fst snd].
  split; [exact Hk|]. split; [exact Hj|].
  exists (x :: xs). split; [reflexivity | now apply indexed_nth].
Qed.

Lemma allNotes_loadAllNotes (u : UI) :
  Permutation (allNotes (loadAllNotes u)) (flat_map allOfEntry (storage u)).
Proof.
  unfold loadAllNotes, renderAllNotes. simpl.
  destruct (String.eqb (appFilter u) "all"); simpl;
    [apply sortBy_perm | reflexivity].
Qed.

(** X13. The all-notes scan lists exactly the notes of the stored arrays
    whose key holds a colon. Every listed note carries the key and the
    index at which the store holds it, and its app and title put back
    together with a colon give that key; conversely every note of such an
    array is listed with its key and index. Entries under a key without a
    colon, and values that are not arrays, are never listed. *)
Theorem X13_all_notes_scan_is_exact :
  forall (u : UI),
    (forall n, In n (allNotes (loadAllNotes u)) ->
       includes ":" (allContextKey n) = true
       /\ allApp n ++ ":" ++ allContextTitle n = allContextKey n
       /\ exists notes, In (allContextKey n, Notes notes) (storage u)
                        /\ nth_error notes (allIndex n) = Some (allNote n))
    /\ (forall k notes i x,
          In (k, Notes notes) (storage u) -> includes ":" k = true ->
          nth_error notes i = Some x ->
          exists n, In n (allNotes (loadAllNotes u))
                    /\ allNote n = x /\ allContextKey n = k /\ allIndex n = i).
Proof.
  intros u. split.
  - intros n Hn. apply (Permutation_in _ (allNotes_loadAllNotes u)) in Hn.
    apply in_flat_map in Hn. destruct Hn as [e [He Hn]].
    apply allOfEntry_origin in Hn. destruct Hn as [H1 [H2 [notes [-> H3]]]].
    split; [exact H1|]. split; [exact H2|]. exists notes. auto.
  - intros k notes i x Hin Hk Hx.
    destruct (splitOn_with_colon k Hk) as [a [p [ps Hs]]].
    exists (mkAll x a (join ":" (p :: ps)) k i).
    split; [|repeat split].
    apply (Permutation_in _ (Permutation_sym (allNotes_loadAllNotes u))).
    apply in_flat_map. exists (k, Notes notes). split; [exact Hin|].
    unfold allOfEntry. rewrite Hk, Hs. cbn [negb].
    destruct notes as [|y ys]; [destruct i; discriminate|].
    apply in_map_iff. exists (i, x). split; [reflexivity | now apply nth_indexed].
Qed.

Lemma X13_witness :
  exists n,
    In n (allNotes (loadAllNotes
                      (Examples.showing Examples.videoTitled
                         [Examples.firstNote; Examples.secondNote] "")))
    /\ allNote n = Examples.secondNote /\ allIndex n = 1.
Proof.
  destruct (X13_all_notes_scan_is_exact
              (Examples.showing Examples.videoTitled
                 [Examples.firstNote; Examples.secondNote] "")) as [_ H].
  destruct (H "youtube:Real Title" [Examples.firstNote; Examples.secondNote] 1
              Examples.secondNote) as [n [H1 [H2 [_ H4]]]].
  - right. left. reflexivity.
  - reflexivity.
  - reflexivity.
  - exists n. auto.
Defined.

End ScanFacts.

(* ------------------------------------------------------------------------- *)
(** ** Further properties: the all-notes view *)
(* ------------------------------------------------------------------------- *)

Section AllViewFacts.

Import Sidebar.
Local Open Scope Z_scope.

Lemma insertBy_key_sorted (A : Type) (cmp : A -> A -> Z) (rank : A -> Z)
      (x : A) (l : list A) :
  (forall a b, cmp a b <= 0 <-> rank a <= rank b) ->
  StronglySorted (fun a b => rank a <= rank b) l ->
  StronglySorted (fun a b => rank a <= rank b) (insertBy cmp x l).
Proof.
  intros Hc. induction 1 as [|y r Hs IH Hall]; cbn [insertBy].
  - repeat constructor.
  - destruct (Z.leb_spec (cmp x y) 0) as [Hle|Hgt].
    + apply Hc in Hle. constructor; [now constructor|].
      constructor; [exact Hle|].
      eapply Forall_impl; [|exact Hall]. cbn beta. intros; lia.
    + assert (rank y <= rank x).
      { destruct (Z.le_gt_cases (rank x) (rank y)) as [K|K]; [|lia].
        apply Hc in K. lia. }
      constructor; [exact IH|].
      rewrite Forall_forall in *. intros z Hz.
      apply (Permutation_in _ (insertBy_perm cmp x r)) in Hz.
      destruct Hz as [<-|Hz]; [assumption | now apply Hall].
Qed.

Lemma sortBy_key_sorted (A : Type) (cmp : A -> A -> Z) (rank : A -> Z)
      (l : list A) :
  (forall a b, cmp a b <= 0 <-> rank a <= rank b) ->
  StronglySorted (fun a b => rank a <= rank b) (sortBy cmp l).
Proof.
  intros Hc. induction l; cbn [sortBy fold_right];
    [constructor | now apply insertBy_key_sorted].
Qed.

(** A list already in order is left as it is. *)
Lemma sortBy_in_order (A : Type) (cmp : A -> A -> Z) (l : list A) :
  Sorted (fun a b => cmp a b <= 0) l -> sortBy cmp l = l.
Proof.
  induction 1 as [|x l Hs IH Hd]; [reflexivity|].
  cbn [sortBy fold_right]. fold (sortBy cmp l). rewrite IH.
  destruct Hd as [|y r Hxy]; cbn [insertBy]; [reflexivity|].
  destruct (Z.leb_spec (cmp x y) 0); [reflexivity | lia].
Qed.

(** The order of the view as a relation on timestamps. *)
Lemma byOrder_rank (o : SortOrder) (a b : AllNote) :
  byOrder o a b <= 0
  <-> (match o with Newest => - timestamp (allNote a) | Oldest => timestamp (allNote a) end)
      <= (match o with Newest => - timestamp (allNote b) | Oldest => timestamp (allNote b) end).
Proof. destruct o; unfold byOrder; lia. Qed.

Lemma renderAllNotes_shown (u : UI) :
  allNotesList (dom (renderAllNotes u))
  = sortBy (byOrder (sortOrder u))
      (if String.eqb (appFilter u) "all" then allNotes u
       else filter (fun n => String.eqb (allApp n) (appFilter u)) (allNotes u))
  /\ statsBar (dom (renderAllNotes u))
     = (List.length (allNotesList (dom (renderAllNotes u))),
        List.length (nodup string_dec
                       (map allApp (allNotesList (dom (renderAllNotes u))))))
  /\ allNotes (renderAllNotes u)
     = (if String.eqb (appFilter u) "all"
        then sortBy (byOrder (sortOrder u)) (allNotes u)
        else allNotes u).
Proof.
  unfold renderAllNotes.
  destruct (String.eqb (appFilter u) "all"); simpl; auto.
Qed.

(** X14. The all-notes view shows, ordered by timestamp (newest first or
    oldest first as selected), exactly the collected notes when the filter
    is 'all', and exactly the collected notes whose app is the filter
    otherwise. The note count is the number of notes shown and the app
    count, the number of distinct apps among them, is at most the note
    count. Sorting never loses a collected note: without a filter the
    collected notes themselves are reordered, with a filter they are left
    as they were. *)
Theorem X14_all_view_filters_and_sorts :
  forall (u : UI),
    let u' := renderAllNotes u in
    let shown := allNotesList (dom u') in
    (forall n, In n shown <->
               In n (allNotes u)
               /\ (appFilter u = "all" \/ allApp n = appFilter u))
    /\ StronglySorted
         (fun a b => match sortOrder u with
                     | Newest => timestamp (allNote b) <= timestamp (allNote a)
                     | Oldest => timestamp (allNote a) <= timestamp (allNote b)
                     end) shown
    /\ fst (statsBar (dom u')) = List.length shown
    /\ (snd (statsBar (dom u')) <= List.length shown)%nat
    /\ Permutation (allNotes u') (allNotes u)
    /\ (appFilter u <> "all" -> allNotes u' = allNotes u).
Proof.
  intros u u' shown.
  destruct (renderAllNotes_shown u) as [Hshown [Hstats Hall]].
  fold u' in Hshown, Hstats, Hall. fold shown in Hshown, Hstats.
  split; [|split; [|split; [|split; [|split]]]].
  - intros n. rewrite Hshown. split.
    + intros H. apply (Permutation_in _ (sortBy_perm _ _)) in H.
      destruct (String.eqb_spec (appFilter u) "all") as [E|N].
      * split; [exact H | now left].
      * apply filter_In in H. destruct H as [H1 H2].
        apply String.eqb_eq in H2. split; [exact H1 | now right].
    + intros [H1 H2].
      apply (Permutation_in _ (Permutation_sym (sortBy_perm _ _))).
      destruct (String.eqb_spec (appFilter u) "all") as [E|N]; [exact H1|].
      apply filter_In. split; [exact H1|].
      destruct H2 as [H2|H2]; [contradiction | now apply String.eqb_eq].
  - rewrite Hshown.
    eapply StronglySorted_ind with
      (P := StronglySorted
              (fun a b => match sortOrder u with
                          | Newest => timestamp (allNote b) <= timestamp (allNote a)
                          | Oldest => timestamp (allNote a) <= timestamp (allNote b)
                          end));
      [constructor | |
       apply (@sortBy_key_sorted _ (byOrder (sortOrder u)) _ _
                (byOrder_rank (sortOrder u)))].
    intros a l _ IH Hf. constructor; [exact IH|].
    eapply Forall_impl; [|exact Hf]. cbn beta.
    intros b. destruct (sortOrder u); lia.
  - now rewrite Hstats.
  - rewrite Hstats. cbn [snd].
    rewrite <- (length_map allApp shown).
    apply NoDup_incl_length; [apply NoDup_nodup|].
    intros x Hx. now apply nodup_In in Hx.
  - rewrite Hall. destruct (String.eqb (appFilter u) "all");
      [apply sortBy_perm | reflexivity].
  - intros N. rewrite Hall.
    destruct (String.eqb_spec (appFilter u) "all"); [contradiction | reflexivity].
Qed.

Lemma X14_witness :
  allNotes (renderAllNotes (MoreExamples.allViewOf "gmail" Newest))
  = allNotes (MoreExamples.allViewOf "gmail" Newest)
  /\ fst (statsBar (dom (renderAllNotes (MoreExamples.allViewOf "gmail" Newest))))
     = 3%nat.
Proof.
  destruct (X14_all_view_filters_and_sorts (MoreExamples.allViewOf "gmail" Newest))
    as [_ [_ [H3 [_ [_ H6]]]]].
  split.
  - apply H6. discriminate.
  - rewrite H3. reflexivity.
Defined.

(** X15. When the notes to show are already in the selected order (their
    timestamps do not decrease for oldest first, do not increase for
    newest first), the view shows them in the order in which they were
    collected: notes with equal timestamps are not swapped, and the notes
    of one bucket, appended with timestamps that never decrease, appear
    oldest first in the order in which they were appended. *)
Theorem X15_sorting_keeps_an_ordered_list :
  forall (u : UI),
    let toShow :=
      if String.eqb (appFilter u) "all" then allNotes u
      else filter (fun n => String.eqb (allApp n) (appFilter u)) (allNotes u) in
    Sorted (fun a b => match sortOrder u with
                       | Newest => timestamp (allNote b) <= timestamp (allNote a)
                       | Oldest => timestamp (allNote a) <= timestamp (allNote b)
                       end) toShow ->
    allNotesList (dom (renderAllNotes u)) = toShow.
Proof.
  intros u toShow Hs.
  destruct (renderAllNotes_shown u) as [Hshown _]. rewrite Hshown.
  fold toShow. apply sortBy_in_order.
  induction Hs as [|x l Hs IH Hd]; constructor; [exact IH|].
  destruct Hd as [|y r Hxy]; constructor.
  unfold byOrder. destruct (sortOrder u); lia.
Qed.

Lemma X15_witness :
  map allNote
      (allNotesList (dom (renderAllNotes (MoreExamples.allViewOf "gmail" Oldest))))
  = MoreExamples.mailNotes.
Proof.
  rewrite (X15_sorting_keeps_an_ordered_list (MoreExamples.allViewOf "gmail" Oldest)).
  - reflexivity.
  - vm_compute. repeat constructor; discriminate.
Defined.

End AllViewFacts.

(* ------------------------------------------------------------------------- *)
(** ** Further properties: deleting, adding and the store *)
(* ------------------------------------------------------------------------- *)

Section DeleteFacts.

Import Sidebar.
Local Open Scope Z_scope.

Lemma splice1_in_range (A : Type) (index : Z) (l : list A) :
  0 <= index < Z.of_nat (List.length l) ->
  splice1 index l = removeAt (Z.to_nat index) l.
Proof.
  intros H. unfold splice1.
  destruct (Z.ltb_spec index 0); [lia|]. now rewrite Z.min_l by lia.
Qed.

Lemma removeAt_facts (A : Type) (i : nat) (l : list A) :
  (i < List.length l)%nat ->
  S (List.length (removeAt i l)) = List.length l
  /\ (forall j, (j < i)%nat -> nth_error (removeAt i l) j = nth_error l j)
  /\ (forall j, (i <= j)%nat -> nth_error (removeAt i l) j = nth_error l (S j)).
Proof.
  intros Hi. unfold removeAt.
  assert (Hlen : List.length (firstn i l) = i)
    by (rewrite length_firstn; lia).
  split; [|split].
  - rewrite length_app, Hlen, length_skipn. lia.
  - intros j Hj. rewrite nth_error_app1 by lia.
    rewrite nth_error_firstn. destruct (Nat.ltb_spec j i); [reflexivity | lia].
  - intros j Hj. rewrite nth_error_app2 by lia.
    rewrite Hlen, nth_error_skipn. f_equal. lia.
Qed.

(** X16. Deleting by key at an index within the bucket (a confirmed delete
    and a write that goes through, from the related notes or from the
    all-notes view) removes exactly the note at that index: the stored
    bucket is one shorter, the notes before the index stay where they
    are, the notes after it move down by one, and the cached notes of the
    current context are not touched. *)
Theorem X16_delete_removes_that_position :
  forall (u : UI) (k : string) (fromAllView : bool) (index : Z),
    (truthy k || fromAllView)%bool = true ->
    0 <= index < Z.of_nat (List.length (bucket k (storage u))) ->
    exists u',
      handleDeleteNote true true index (Some k) fromAllView u = Done u'
      /\ bucket k (storage u')
         = removeAt (Z.to_nat index) (bucket k (storage u))
      /\ S (List.length (bucket k (storage u')))
         = List.length (bucket k (storage u))
      /\ (forall j, (j < Z.to_nat index)%nat ->
            nth_error (bucket k (storage u')) j
            = nth_error (bucket k (storage u)) j)
      /\ (forall j, (Z.to_nat index <= j)%nat ->
            nth_error (bucket k (storage u')) j
            = nth_error (bucket k (storage u)) (S j))
      /\ currentNotes u' = currentNotes u.
Proof.
  intros u k fromAllView index Hgo Hin.
  unfold handleDeleteNote. cbn [negb truthyOpt]. rewrite Hgo.
  unfold bucket in Hin |- *.
  destruct (lookup k (storage u)) as [[l|]|] eqn:E;
    try (simpl in Hin; lia).
  rewrite (splice1_in_range _ Hin).
  eexists. split; [reflexivity|].
  assert (Hb : forall v,
             (if fromAllView then storage (loadAllNotes v)
              else storage (findRelatedNotes v)) = storage v).
  { intros v. destruct fromAllView;
      [apply storage_loadAllNotes | apply storage_findRelatedNotes]. }
  assert (Hs : storage (if fromAllView
                        then loadAllNotes
                               (setStorage (storageSet true k
                                  (Notes (removeAt (Z.to_nat index) l)) (storage u)) u)
                        else findRelatedNotes
                               (setStorage (storageSet true k
                                  (Notes (removeAt (Z.to_nat index) l)) (storage u)) u))
               = put k (Notes (removeAt (Z.to_nat index) l)) (storage u)).
  { destruct fromAllView;
      [rewrite storage_loadAllNotes | rewrite storage_findRelatedNotes];
      reflexivity. }
  rewrite Hs, lookup_put_same.
  destruct (@removeAt_facts _ (Z.to_nat index) l ltac:(lia)) as [H1 [H2 H3]].
  repeat split; try assumption.
  destruct fromAllView;
    [rewrite currentNotes_loadAllNotes | rewrite currentNotes_findRelatedNotes];
    reflexivity.
Qed.

Lemma X16_witness :
  exists u',
    handleDeleteNote true true 1 (Some "gmail:alice@example.com") true
                     (MoreExamples.allViewOf "all" Newest) = Done u'
    /\ map text (bucket "gmail:alice@example.com" (storage u'))
       = ["call back"; "paid"].
Proof.
  destruct (@X16_delete_removes_that_position
              (MoreExamples.allViewOf "all" Newest) "gmail:alice@example.com"
              true 1 eq_refl) as [u' [H1 [H2 _]]].
  - vm_compute. split; [discriminate | reflexivity].
  - exists u'. split; [exact H1|]. rewrite H2. reflexivity.
Defined.

Lemma indexed_rev_notes (A : Type) (l : list A) :
  map snd (indexed l) = l.
Proof.
  unfold indexed. generalize 0%nat.
  induction l as [|x l IH]; intros s; [reflexivity|].
  simpl. f_equal. apply IH.
Qed.

(** X17. The list of the current context shows the cached notes newest
    first, each with a delete button bound to the index of that very note
    in the cache; pressing it (a confirmed delete and a write that goes
    through) removes exactly that note from the cache and stores the
    shortened cache under the key of the current context. *)
Theorem X17_delete_button_deletes_its_note :
  forall (u : UI) (c : Context) (items : list (nat * Note)) (i : nat) (n : Note),
    currentContext u = Some c ->
    notesList (dom (renderNotes u)) = ListNotes items ->
    In (i, n) items ->
    map snd items = rev (currentNotes u)
    /\ nth_error (currentNotes u) i = Some n
    /\ exists u',
         handleDeleteNote true true (Z.of_nat i) None false (renderNotes u) = Done u'
         /\ currentNotes u' = removeAt i (currentNotes u)
         /\ bucket (key c) (storage u') = removeAt i (currentNotes u)
         /\ S (List.length (currentNotes u')) = List.length (currentNotes u).
Proof.
  intros u c items i n Hc Hl Hin.
  assert (Hitems : items = rev (indexed (currentNotes u))).
  { unfold renderNotes in Hl. destruct (currentNotes u) as [|x xs];
      simpl in Hl; [discriminate | now inversion Hl]. }
  subst items.
  assert (Hn : nth_error (currentNotes u) i = Some n).
  { apply in_rev in Hin. now apply indexed_nth. }
  assert (Hi : (i < List.length (currentNotes u))%nat).
  { apply nth_error_Some. congruence. }
  split; [now rewrite map_rev, indexed_rev_notes|]. split; [exact Hn|].
  unfold handleDeleteNote. cbn [negb truthyOpt orb].
  rewrite currentNotes_renderNotes, splice1_in_range, Nat2Z.id by lia.
  cbn [currentContext setCurrentNotes]. rewrite currentContext_renderNotes, Hc.
  eexists. split; [reflexivity|].
  rewrite currentNotes_renderNotes, storage_renderNotes.
  cbn [currentNotes storage setStorage setCurrentNotes storageSet].
  rewrite bucket_put_same.
  destruct (removeAt_facts (currentNotes u) Hi) as [H1 _].
  repeat split. exact H1.
Qed.

Lemma X17_witness :
  exists u',
    handleDeleteNote true true 0 None false
      (renderNotes (Examples.showing Examples.videoTitled
                      [Examples.firstNote; Examples.secondNote] "")) = Done u'
    /\ currentNotes u' = [Examples.secondNote].
Proof.
  destruct (@X17_delete_button_deletes_its_note
              (Examples.showing Examples.videoTitled
                 [Examples.firstNote; Examples.secondNote] "")
              Examples.videoTitled
              [(1%nat, Examples.secondNote); (0%nat, Examples.firstNote)]
              0%nat Examples.firstNote eq_refl eq_refl)
    as [_ [_ [u' [H1 [H2 _]]]]].
  - right. left. reflexivity.
  - exists u'. split; [exact H1 | exact H2].
Defined.

End DeleteFacts.

(* ------------------------------------------------------------------------- *)
(** ** Further properties: buckets, keys and the cache *)
(* ------------------------------------------------------------------------- *)

Section BucketFacts.

Import Sidebar.
Local Open Scope Z_scope.

Lemma in_keys_put (k x : string) (v : Stored) (s : Store) :
  In x (map fst (put k v s)) -> x = k \/ In x (map fst s).
Proof.
  induction s as [|[k' v'] r IH]; simpl.
  - intros [<-|[]]. now left.
  - destruct (String.eqb_spec k' k) as [->|N]; simpl.
    + intros [<-|H]; auto.
    + intros [<-|H]; auto. destruct (IH H); auto.
Qed.

Lemma put_keeps_keys_apart (k : string) (v : Stored) (s : Store) :
  NoDup (map fst s) -> NoDup (map fst (put k v s)).
Proof.
  induction s as [|[k' v'] r IH]; simpl; intros H.
  - repeat constructor. intros [].
  - inversion H as [|x l Hnot Hr]; subst.
    destruct (String.eqb_spec k' k) as [->|N]; simpl.
    + now constructor.
    + constructor; [|now apply IH].
      intros Hin. apply in_keys_put in Hin. destruct Hin; [congruence | contradiction].
Qed.

Lemma storageSet_other (ok : bool) (k k' : string) (v : Stored) (s : Store) :
  k' <> k -> lookup k' (storageSet ok k v s) = lookup k' s.
Proof. intros N. destruct ok; [now apply lookup_put_other | reflexivity]. Qed.

Lemma storageSet_keeps_keys_apart (ok : bool) (k : string) (v : Stored) (s : Store) :
  NoDup (map fst s) -> NoDup (map fst (storageSet ok k v s)).
Proof. destruct ok; [apply put_keeps_keys_apart | auto]. Qed.

Lemma storage_handleAddNote (now : Z) (ok : bool) (u : UI) :
  storage (handleAddNote now ok u) = storage u
  \/ exists c v, currentContext u = Some c
                 /\ storage (handleAddNote now ok u)
                    = storageSet ok (key c) v (storage u).
Proof.
  destruct (currentContext u) as [c|] eqn:Hc.
  - destruct (truthy (trim (noteInput (dom u)))) eqn:Ht.
    + right. destruct (handleAddNote_effect now ok u Hc Ht) as [_ [_ [Hs _]]].
      eauto.
    + left. unfold handleAddNote. now rewrite Hc, Ht.
  - left. unfold handleAddNote. now rewrite Hc.
Qed.

Lemma storage_handleDeleteNote (confirmed ok : bool) (index : Z)
      (rk : option string) (fromAllView : bool) (u u' : UI) :
  handleDeleteNote confirmed ok index rk fromAllView u = Done u' ->
  storage u' = storage u
  \/ (exists k v, rk = Some k /\ storage u' = storageSet ok k v (storage u))
  \/ (exists c v, currentContext u = Some c
                  /\ storage u' = storageSet ok (key c) v (storage u)).
Proof.
  unfold handleDeleteNote. destruct confirmed; cbn [negb].
  2:{ intros H; inversion H; now left. }
  destruct (truthyOpt rk || fromAllView)%bool.
  - destruct rk as [k|]; [|discriminate].
    destruct (lookup k (storage u)) as [[l|]|]; try discriminate;
      intros H; inversion H; subst u'; right; left; exists k; eexists;
      (split; [reflexivity|]); destruct fromAllView;
      rewrite ?storage_loadAllNotes, ?storage_findRelatedNotes; reflexivity.
  - cbn [currentContext setCurrentNotes].
    destruct (currentContext u) as [c|] eqn:Hc; [|discriminate].
    intros H; inversion H; subst u'. right; right. exists c. eexists.
    split; [reflexivity|]. now rewrite storage_renderNotes.
Qed.

(** X18. Adding and deleting keep the buckets apart. If no key occurs
    twice in the store, none does after an add or a delete, whatever the
    outcome of the write; and the value stored under any key other than
    the one written (the key of the current context, or the key passed to
    the delete) is what it was. *)
Theorem X18_other_buckets_are_untouched :
  forall (now index : Z) (confirmed ok : bool) (rk : option string)
         (fromAllView : bool) (u : UI),
    NoDup (map fst (storage u)) ->
    (NoDup (map fst (storage (handleAddNote now ok u)))
     /\ forall k',
          (forall c, currentContext u = Some c -> k' <> key c) ->
          lookup k' (storage (handleAddNote now ok u)) = lookup k' (storage u))
    /\ (forall u',
          handleDeleteNote confirmed ok index rk fromAllView u = Done u' ->
          NoDup (map fst (storage u'))
          /\ forall k',
               rk <> Some k' ->
               (forall c, currentContext u = Some c -> k' <> key c) ->
               lookup k' (storage u') = lookup k' (storage u)).
Proof.
  intros now index confirmed ok rk fromAllView u Hnd. split.
  - destruct (storage_handleAddNote now ok u) as [E|[c [v [Hc E]]]]; rewrite E.
    + split; auto.
    + split; [now apply storageSet_keeps_keys_apart|].
      intros k' Hk. apply storageSet_other. now apply Hk.
  - intros u' H.
    destruct (storage_handleDeleteNote _ _ _ _ _ _ H)
      as [E|[[k [v [Hk E]]]|[c [v [Hc E]]]]]; rewrite E.
    + split; auto.
    + split; [now apply storageSet_keeps_keys_apart|].
      intros k' N _. apply storageSet_other. congruence.
    + split; [now apply storageSet_keeps_keys_apart|].
      intros k' _ Hk'. apply storageSet_other. now apply Hk'.
Qed.

Lemma X18_witness :
  lookup "doc:Q3 Plan"
         (storage (handleAddNote 300 true
                     (setDom (setNoteInput "thanks" Examples.emptyDom)
                             (MoreExamples.allViewOf "all" Newest))))
  = Some (Notes MoreExamples.planNotes).
Proof.
  destruct (@X18_other_buckets_are_untouched 300 0 true true None false
              (setDom (setNoteInput "thanks" Examples.emptyDom)
                      (MoreExamples.allViewOf "all" Newest))) as [[_ H] _].
  - vm_compute. repeat constructor; intros H; repeat destruct H as [H|H];
      try discriminate H; try contradiction.
  - rewrite H; [reflexivity|]. intros c Hc. inversion Hc. discriminate.
Defined.

(** X19. Two contexts with the same key share a bucket. A note is added
    under the first; the second, with another address and the same key,
    is then committed to the sidebar and the reload completes; a note is
    added under it. The bucket of the shared key then ends with the two
    notes, in that order, each with the context it was written under. *)
Theorem X19_equal_keys_share_a_bucket :
  forall (u : UI) (a b : Context) (t1 t2 : Z) (text2 : string),
    currentContext u = Some a ->
    truthy (trim (noteInput (dom u))) = true ->
    key b = key a -> isLoading b = false -> url b <> url a ->
    truthy (trim text2) = true ->
    exists u3,
      reloadTimeout (onMessage (CONTEXT_UPDATE b) (handleAddNote t1 true u))
      = Done u3
      /\ currentNotes u3
         = (currentNotes u ++ [mkNote (trim (noteInput (dom u))) t1 a])%list
      /\ bucket (key a)
           (storage (handleAddNote t2 true (setDom (setNoteInput text2 (dom u3)) u3)))
         = (currentNotes u
            ++ [mkNote (trim (noteInput (dom u))) t1 a; mkNote (trim text2) t2 b])%list.
Proof.
  intros u a b t1 t2 text2 Hc Ht Hk Hl Hu Ht2.
  destruct (handleAddNote_effect t1 true u Hc Ht) as [Hc1 [Hn1 [Hs1 _]]].
  set (u1 := handleAddNote t1 true u) in *.
  set (n1 := mkNote (trim (noteInput (dom u))) t1 a) in *.
  assert (Hm : onMessage (CONTEXT_UPDATE b) u1
               = reloadExtension (setContext (Some b) u1)).
  { unfold onMessage. rewrite Hl, full_reload_condition, Hc1.
    destruct (String.eqb_spec (url a) (url b)) as [E|N]; [congruence|].
    cbn [negb]. now rewrite orb_true_r. }
  destruct (reloadExtension_effect (setContext (Some b) u1))
    as [Hc2 [Hs2 _]].
  rewrite <- Hm in Hc2, Hs2. cbn [currentContext setContext storage] in Hc2, Hs2.
  destruct (@reloadTimeout_effect (onMessage (CONTEXT_UPDATE b) u1) b Hc2)
    as [u3 [Hr [Hn3 _]]].
  { rewrite Hs2, Hs1, Hk. cbn [storageSet]. rewrite lookup_put_same. discriminate. }
  exists u3. split; [exact Hr|].
  assert (Hn3' : currentNotes u3 = (currentNotes u ++ [n1])%list).
  { rewrite Hn3, Hs2, Hs1, Hk. cbn [storageSet]. apply bucket_put_same. }
  split; [exact Hn3'|].
  assert (Hc3 : currentContext u3 = Some b).
  { unfold reloadTimeout in Hr.
    destruct (loadNotes _) as [v|] eqn:Hv; [|discriminate].
    cbn [bind] in Hr. inversion Hr; subst u3.
    cbn [currentContext hideLoadingState setDom].
    rewrite currentContext_findRelatedNotes.
    unfold loadNotes in Hv. rewrite currentContext_updateContextDisplay in Hv.
    cbn [currentContext setPending] in Hv. rewrite Hc2 in Hv.
    destruct (lookup _ _) as [[l|]|]; try discriminate;
      inversion Hv; subst v; rewrite currentContext_renderNotes;
      cbn [currentContext setCurrentNotes];
      now rewrite currentContext_updateContextDisplay. }
  destruct (@handleAddNote_effect t2 true
              (setDom (setNoteInput text2 (dom u3)) u3) b Hc3 Ht2)
    as [_ [_ [Hs4 _]]].
  rewrite Hs4. cbn [storageSet currentNotes setDom noteInput setNoteInput dom].
  rewrite <- Hk, bucket_put_same, Hn3', <- app_assoc. reflexivity.
Qed.

Lemma X19_witness :
  exists u3,
    reloadTimeout
      (onMessage (CONTEXT_UPDATE Examples.mailSecond)
         (handleAddNote 10 true (Examples.showing Examples.mailFirst [] "one")))
    = Done u3
    /\ map text
         (bucket "gmail:alice@example.com"
            (storage (handleAddNote 20 true
                        (setDom (setNoteInput "two" (dom u3)) u3))))
       = ["one"; "two"].
Proof.
  destruct (@X19_equal_keys_share_a_bucket
              (Examples.showing Examples.mailFirst [] "one")
              Examples.mailFirst Examples.mailSecond 10 20 "two"
              eq_refl eq_refl eq_refl eq_refl ltac:(discriminate) eq_refl)
    as [u3 [H1 [_ H3]]].
  exists u3. split; [exact H1|].
  change "gmail:alice@example.com" with (key Examples.mailFirst).
  rewrite H3. reflexivity.
Defined.

Lemma delete_from_all_view (u : UI) (k : string) (index : Z) :
  0 <= index < Z.of_nat (List.length (bucket k (storage u))) ->
  exists u1,
    handleDeleteNote true true index (Some k) true u = Done u1
    /\ bucket k (storage u1) = removeAt (Z.to_nat index) (bucket k (storage u))
    /\ currentNotes u1 = currentNotes u
    /\ currentContext u1 = currentContext u.
Proof.
  intros Hin. unfold handleDeleteNote. cbn [negb truthyOpt].
  rewrite orb_true_r. unfold bucket in Hin |- *.
  destruct (lookup k (storage u)) as [[l|]|] eqn:E; try (simpl in Hin; lia).
  rewrite (splice1_in_range _ Hin). eexists. split; [reflexivity|].
  rewrite storage_loadAllNotes, currentNotes_loadAllNotes,
    currentContext_loadAllNotes.
  cbn [storage setStorage storageSet currentNotes currentContext].
  now rewrite lookup_put_same.
Qed.

(** X20. A delete made from the all-notes view on the bucket of the
    current context changes the store but not the cached notes of the
    current context; a note added afterwards is written after the stale
    cache, so the bucket then holds the deleted note again. *)
Theorem X20_add_after_all_view_delete_restores_the_note :
  forall (u : UI) (c : Context) (index now : Z) (text1 : string),
    currentContext u = Some c ->
    bucket (key c) (storage u) = currentNotes u ->
    0 <= index < Z.of_nat (List.length (currentNotes u)) ->
    truthy (trim text1) = true ->
    exists u1,
      handleDeleteNote true true index (Some (key c)) true u = Done u1
      /\ bucket (key c) (storage u1) = removeAt (Z.to_nat index) (currentNotes u)
      /\ currentNotes u1 = currentNotes u
      /\ bucket (key c)
           (storage (handleAddNote now true
                       (setDom (setNoteInput text1 (dom u1)) u1)))
         = (currentNotes u ++ [mkNote (trim text1) now c])%list.
Proof.
  intros u c index now text1 Hc Hco Hin Ht.
  destruct (@delete_from_all_view u (key c) index) as [u1 [H1 [H2 [H3 H4]]]].
  { now rewrite Hco. }
  exists u1. rewrite Hco in H2. split; [exact H1|]. split; [exact H2|].
  split; [exact H3|].
  assert (Hc1 : currentContext (setDom (setNoteInput text1 (dom u1)) u1) = Some c).
  { cbn [currentContext setDom]. now rewrite H4, Hc. }
  destruct (@handleAddNote_effect now true _ c Hc1 Ht) as [_ [_ [Hs _]]].
  rewrite Hs. cbn [storageSet currentNotes setDom noteInput setNoteInput dom].
  now rewrite bucket_put_same, H3.
Qed.

Lemma X20_witness :
  exists u1,
    handleDeleteNote true true 0 (Some "youtube:Real Title") true
      (Examples.showing Examples.videoTitled
         [Examples.firstNote; Examples.secondNote] "") = Done u1
    /\ map text (bucket "youtube:Real Title" (storage u1)) = ["second"]
    /\ map text
         (bucket "youtube:Real Title"
            (storage (handleAddNote 3000 true
                        (setDom (setNoteInput "third" (dom u1)) u1))))
       = ["first"; "second"; "third"].
Proof.
  destruct (@X20_add_after_all_view_delete_restores_the_note
              (Examples.showing Examples.videoTitled
                 [Examples.firstNote; Examples.secondNote] "")
              Examples.videoTitled 0 3000 "third" eq_refl eq_refl)
    as [u1 [H1 [H2 [_ H4]]]].
  - vm_compute. split; [discriminate | reflexivity].
  - reflexivity.
  - exists u1. split; [exact H1|].
    change "youtube:Real Title" with (key Examples.videoTitled).
    rewrite H2, H4. split; reflexivity.
Defined.

End BucketFacts.

(* ------------------------------------------------------------------------- *)
(** ** Further properties: messages, input and the worker *)
(* ------------------------------------------------------------------------- *)

Section InputFacts.

Import Sidebar.
Local Open Scope Z_scope.

(** X21. A committed context that reaches the sidebar right after a
    loading placeholder always makes it reload, whatever the address and
    the key of the context and whatever was on display before: the note
    input is cleared, the list is blanked, the current view is selected,
    one reload is set, and when it runs the cached notes become the bucket
    of the new key. *)
Theorem X21_commit_after_placeholder_reloads :
  forall (u : UI) (address : string) (c : Context),
    isLoading c = false ->
    let u1 := onMessage (CONTEXT_UPDATE (Content.loadingContext address)) u in
    let u2 := onMessage (CONTEXT_UPDATE c) u1 in
    currentContext u2 = Some c
    /\ noteInput (dom u2) = ""
    /\ notesList (dom u2) = ListLoading
    /\ currentView u2 = CurrentView
    /\ pendingReloads u2 = S (pendingReloads u)
    /\ (lookup (key c) (storage u) <> Some Other ->
        exists u3,
          reloadTimeout u2 = Done u3
          /\ currentNotes u3 = bucket (key c) (storage u)
          /\ pendingReloads u3 = pendingReloads u).
Proof.
  intros u address c Hl u1 u2.
  assert (Hm : u2 = reloadExtension (setContext (Some c) u1)).
  { unfold u2, onMessage at 1. rewrite Hl, full_reload_condition.
    unfold u1. cbn. now rewrite orb_true_r. }
  destruct (reloadExtension_effect (setContext (Some c) u1))
    as [Hc [Hs [Hi [Hn [_ [Hv Hp]]]]]].
  rewrite <- Hm in Hc, Hs, Hi, Hn, Hv, Hp.
  cbn [currentContext setContext storage pendingReloads] in Hc, Hs, Hp.
  repeat split; try assumption.
  intros Hk.
  destruct (@reloadTimeout_effect u2 c Hc) as [u3 [H1 [H2 [_ [_ H5]]]]].
  - rewrite Hs. exact Hk.
  - exists u3. rewrite Hs in H2. rewrite Hp in H5. auto.
Qed.

Lemma X21_witness :
  noteInput
    (dom (onMessage (CONTEXT_UPDATE Examples.videoTitled)
            (onMessage (CONTEXT_UPDATE
                          (Content.loadingContext "https://www.youtube.com/watch?v=abc"))
               (Examples.showing Examples.videoFallback [Examples.firstNote] "draft"))))
  = "".
Proof.
  destruct (@X21_commit_after_placeholder_reloads
              (Examples.showing Examples.videoFallback [Examples.firstNote] "draft")
              "https://www.youtube.com/watch?v=abc" Examples.videoTitled eq_refl)
    as [_ [H _]].
  exact H.
Defined.

Lemma trimStart_blank (s : string) :
  forallb isSpace (list_ascii_of_string s) = true -> trimStart s = "".
Proof.
  induction s as [|c s IH]; [reflexivity|].
  cbn [list_ascii_of_string forallb trimStart]. intros H.
  apply andb_prop in H. destruct H as [Hc Hs]. rewrite Hc. now apply IH.
Qed.

(** X22. Submitting the form with an input that holds nothing but white
    space, or while no context is known, changes nothing: no note is
    cached or written, and the input is left as typed. *)
Theorem X22_blank_input_adds_nothing :
  forall (now : Z) (ok : bool) (u : UI),
    currentContext u = None
    \/ forallb isSpace (list_ascii_of_string (noteInput (dom u))) = true ->
    handleAddNote now ok u = u.
Proof.
  intros now ok u H. unfold handleAddNote.
  destruct (currentContext u) as [c|]; [|reflexivity].
  destruct H as [H|H]; [discriminate|].
  unfold trim. now rewrite (trimStart_blank _ H).
Qed.

Lemma X22_witness :
  let u := Examples.showing Examples.videoTitled [Examples.firstNote] "   " in
  handleAddNote 3000 true u = u.
Proof.
  intros u. apply X22_blank_input_adds_nothing. right. reflexivity.
Defined.

Lemma trimEnd_idempotent (s : string) : trimEnd (trimEnd s) = trimEnd s.
Proof.
  induction s as [|c s IH]; [reflexivity|].
  cbn [trimEnd]. destruct (trimEnd s) as [|c' r] eqn:E.
  - destruct (isSpace c) eqn:Hc; [reflexivity|].
    cbn [trimEnd]. now rewrite Hc.
  - cbn [trimEnd]. cbn [trimEnd] in IH. rewrite IH. reflexivity.
Qed.

Lemma trimEnd_keeps_head (c : ascii) (s : string) :
  isSpace c = false -> exists r, trimEnd (String c s) = String c r.
Proof.
  intros Hc. cbn [trimEnd]. destruct (trimEnd s); [rewrite Hc|]; eauto.
Qed.

Lemma trimStart_head (s : string) :
  trimStart s = "" \/ exists c r, trimStart s = String c r /\ isSpace c = false.
Proof.
  induction s as [|c s IH]; [now left|].
  cbn [trimStart]. destruct (isSpace c) eqn:Hc; [exact IH|].
  right. eauto.
Qed.

Lemma trim_idempotent (s : string) : trim (trim s) = trim s.
Proof.
  unfold trim. destruct (trimStart_head s) as [->|[c [r [-> Hc]]]]; [reflexivity|].
  destruct (@trimEnd_keeps_head c r Hc) as [r' E]. rewrite E.
  cbn [trimStart]. rewrite Hc, <- E. apply trimEnd_idempotent.
Qed.

Lemma in_put (k k' : string) (v v' : Stored) (s : Store) :
  In (k', v') (put k v s) -> (k' = k /\ v' = v) \/ In (k', v') s.
Proof.
  induction s as [|[k0 v0] r IH]; simpl.
  - intros [E|[]]. inversion E. now left.
  - destruct (String.eqb k0 k); simpl.
    + intros [E|H]; [inversion E; now left | now right; right].
    + intros [E|H]; [now right; left|]. destruct (IH H); auto.
Qed.

(** X23. Every note that the form writes has a text that is not empty and
    is already trimmed, and adding keeps this true of the whole store: if
    it holds of the cached notes and of every stored bucket before an add,
    it holds of them afterwards. *)
Theorem X23_stored_texts_are_trimmed :
  forall (now : Z) (ok : bool) (u : UI),
    (forall n, In n (currentNotes u) ->
               text n <> "" /\ trim (text n) = text n) ->
    (forall k notes n, In (k, Notes notes) (storage u) -> In n notes ->
                       text n <> "" /\ trim (text n) = text n) ->
    let u' := handleAddNote now ok u in
    (forall n, In n (currentNotes u') ->
               text n <> "" /\ trim (text n) = text n)
    /\ (forall k notes n, In (k, Notes notes) (storage u') -> In n notes ->
                          text n <> "" /\ trim (text n) = text n).
Proof.
  intros now ok u Hcache Hstore u'.
  destruct (currentContext u) as [c|] eqn:Hc.
  2:{ unfold u', handleAddNote. rewrite Hc. auto. }
  destruct (truthy (trim (noteInput (dom u)))) eqn:Ht.
  2:{ unfold u', handleAddNote. rewrite Hc, Ht. auto. }
  destruct (handleAddNote_effect now ok u Hc Ht) as [_ [Hn [Hs _]]].
  fold u' in Hn, Hs.
  assert (Hnew : forall n,
             In n (currentNotes u ++ [mkNote (trim (noteInput (dom u))) now c])%list ->
             text n <> "" /\ trim (text n) = text n).
  { intros n Hin. apply in_app_or in Hin. destruct Hin as [Hin|[<-|[]]].
    - now apply Hcache.
    - cbn [text]. split; [|apply trim_idempotent].
      intros E. rewrite E in Ht. discriminate. }
  split.
  - intros n Hin. rewrite Hn in Hin. now apply Hnew.
  - intros k notes n Hin Hnotes. rewrite Hs in Hin. destruct ok; cbn [storageSet] in Hin.
    + apply in_put in Hin. destruct Hin as [[_ E]|Hin].
      * inversion E; subst notes. now apply Hnew.
      * now apply (Hstore k notes).
    + now apply (Hstore k notes).
Qed.

Lemma X23_witness : trim "third" = "third".
Proof.
  destruct (@X23_stored_texts_are_trimmed 3000 true
              (Examples.showing Examples.videoTitled [] "  third  ")) as [H _].
  - intros n Hin. vm_compute in Hin. destruct Hin.
  - intros k notes n Hin Hn. vm_compute in Hin.
    destruct Hin as [E|[E|[]]]; [discriminate E|].
    injection E as _ <-. destruct Hn.
  - destruct (H (mkNote "third" 3000 Examples.videoTitled)) as [_ K].
    + vm_compute. left. reflexivity.
    + exact K.
Defined.

Lemma put_absent (k : string) (v : Stored) (s : Store) :
  lookup k s = None -> put k v s = (s ++ [(k, v)])%list.
Proof.
  induction s as [|[k' v'] r IH]; simpl; [reflexivity|].
  destruct (String.eqb k' k); [discriminate|]. intros H. now rewrite IH.
Qed.

(** X24. The content script finds notes for a key exactly when the bucket
    the sidebar would list for it is not empty. After a note is added for
    a context (a write that goes through) it finds notes for the key of
    the context; after the only note of a bucket is deleted, the key stays
    in the store with an empty array, and it finds none. *)
Theorem X24_checkForNotes_follows_the_bucket :
  forall (u : UI),
    (forall k, Worker.checkForNotes k (storage u) = true
               <-> bucket k (storage u) <> [])
    /\ (forall c now,
          currentContext u = Some c ->
          truthy (trim (noteInput (dom u))) = true ->
          Worker.checkForNotes (key c) (storage (handleAddNote now true u)) = true)
    /\ (forall k x fromAllView,
          (truthy k || fromAllView)%bool = true ->
          lookup k (storage u) = Some (Notes [x]) ->
          exists u',
            handleDeleteNote true true 0 (Some k) fromAllView u = Done u'
            /\ lookup k (storage u') = Some (Notes [])
            /\ Worker.checkForNotes k (storage u') = false).
Proof.
  intros u. split; [|split].
  - intros k. unfold Worker.checkForNotes, bucket.
    destruct (lookup k (storage u)) as [[[|x l]|]|]; simpl;
      split; intros H; try discriminate; try reflexivity;
      exfalso; apply H; reflexivity.
  - intros c now Hc Ht.
    destruct (handleAddNote_effect now true u Hc Ht) as [_ [_ [Hs _]]].
    rewrite Hs. cbn [storageSet]. unfold Worker.checkForNotes.
    rewrite lookup_put_same, length_app. cbn [List.length].
    apply Nat.ltb_lt. lia.
  - intros k x fromAllView Hgo Hk.
    unfold handleDeleteNote. cbn [negb truthyOpt]. rewrite Hgo, Hk.
    eexists. split; [reflexivity|].
    unfold Worker.checkForNotes.
    destruct fromAllView;
      rewrite ?storage_loadAllNotes, ?storage_findRelatedNotes;
      cbn [storage setStorage storageSet]; rewrite lookup_put_same;
      split; reflexivity.
Qed.

Lemma X24_witness :
  Worker.checkForNotes "youtube:Real Title"
    (storage (handleAddNote 3000 true
                (Examples.showing Examples.videoTitled [] "third"))) = true.
Proof.
  destruct (X24_checkForNotes_follows_the_bucket
              (Examples.showing Examples.videoTitled [] "third")) as [_ [H _]].
  apply (H Examples.videoTitled 3000 eq_refl eq_refl).
Defined.

(** X25. The index entry that the service worker writes on installation
    never shows up as notes. Installing leaves the value of every other
    key as it was, keeps the keys apart, changes neither what the
    all-notes scan collects nor what the related-notes scan collects for
    any current key and title, and installing again changes nothing. *)
Theorem X25_install_entry_is_invisible :
  forall (install : bool) (s : Store),
    let s' := Worker.onInstalled install s in
    (forall k, k <> "notes_index" -> lookup k s' = lookup k s)
    /\ (NoDup (map fst s) -> NoDup (map fst s'))
    /\ flat_map allOfEntry s' = flat_map allOfEntry s
    /\ (forall ck ct, flat_map (relatedOfEntry ck ct) s'
                      = flat_map (relatedOfEntry ck ct) s)
    /\ Worker.onInstalled install s' = s'.
Proof.
  intros install s s'. unfold s', Worker.onInstalled.
  destruct install; [|auto 10].
  destruct (lookup "notes_index" s) as [v|] eqn:E.
  - rewrite E. auto 10.
  - assert (P : put "notes_index" Other s = (s ++ [("notes_index", Other)])%list)
      by now apply put_absent.
    split; [|split; [|split; [|split]]].
    + intros k N. now apply lookup_put_other.
    + intros H. now apply put_keeps_keys_apart.
    + rewrite P, flat_map_app. cbn. apply app_nil_r.
    + intros ck ct. rewrite P, flat_map_app. cbn [flat_map relatedOfEntry].
      destruct (String.eqb "notes_index" ck); cbn; apply app_nil_r.
    + rewrite lookup_put_same. reflexivity.
Qed.

Lemma X25_witness :
  lookup "doc:Q3 Plan" (Worker.onInstalled true [("doc:Q3 Plan", Notes [])])
  = Some (Notes [])
  /\ NoDup (map fst (Worker.onInstalled true [("doc:Q3 Plan", Notes [])])).
Proof.
  destruct (X25_install_entry_is_invisible true [("doc:Q3 Plan", Notes [])])
    as [H1 [H2 _]].
  split.
  - rewrite H1; [reflexivity | discriminate].
  - apply H2. repeat constructor. intros [].
Defined.

End InputFacts.

(* ------------------------------------------------------------------------- *)
(** ** Further properties: dates and the page-content reply *)
(* ------------------------------------------------------------------------- *)

Section TextFacts.

Import Dates PageContent.
Local Open Scope Z_scope.



Lemma takeChars_length (n : nat) (s : string) :
  (String.length (takeChars n s) <= n)%nat.
Proof.
  revert s. induction n as [|n IH]; intros s; [simpl; lia|].
  destruct s as [|c r]; cbn [takeChars String.length]; [lia|].
  specialize (IH r). lia.
Qed.

Lemma append_length (a b : string) :
  String.length (a ++ b) = (String.length a + String.length b)%nat.
Proof. induction a as [|c a IH]; cbn [append String.length]; [reflexivity | now rewrite IH]. Qed.

(** Every code unit of [s] satisfies [P]. *)
Lemma collapse_white_space (s : string) (inRun : bool) :
  Forall (fun c => isSpace c = true -> c = " "%char)
         (list_ascii_of_string (collapseRuns isSpace " "%char inRun s)).
Proof.
  revert inRun. induction s as [|c s IH]; intros inRun;
    cbn [collapseRuns list_ascii_of_string]; [constructor|].
  destruct (isSpace c) eqn:Hc.
  - destruct inRun; [apply IH|].
    cbn [list_ascii_of_string]. constructor; [reflexivity | apply IH].
  - cbn [list_ascii_of_string]. constructor; [congruence | apply IH].
Qed.

Lemma collapse_line_feeds_idle (s : string) (inRun : bool) :
  Forall (fun c => isSpace c = true -> c = " "%char) (list_ascii_of_string s) ->
  collapseRuns (Ascii.eqb lineFeed) lineFeed inRun s = s.
Proof.
  revert inRun. induction s as [|c s IH]; intros inRun H; [reflexivity|].
  cbn [list_ascii_of_string] in H. inversion H as [|x l Hc Hs]; subst.
  cbn [collapseRuns].
  destruct (Ascii.eqb_spec lineFeed c) as [<-|N].
  - specialize (Hc eq_refl). discriminate Hc.
  - now rewrite IH.
Qed.

Lemma trimStart_keeps (P : ascii -> Prop) (s : string) :
  Forall P (list_ascii_of_string s) -> Forall P (list_ascii_of_string (trimStart s)).
Proof.
  induction s as [|c s IH]; intros H; [constructor|].
  cbn [trimStart]. inversion H; subst. destruct (isSpace c); auto.
Qed.

Lemma trimEnd_keeps (P : ascii -> Prop) (s : string) :
  Forall P (list_ascii_of_string s) -> Forall P (list_ascii_of_string (trimEnd s)).
Proof.
  induction s as [|c s IH]; intros H; [constructor|].
  cbn [list_ascii_of_string] in H. inversion H as [|x l Hc Hs]; subst.
  cbn [trimEnd]. specialize (IH Hs). destruct (trimEnd s) as [|c' r].
  - destruct (isSpace c); repeat constructor; assumption.
  - cbn [list_ascii_of_string]. constructor; assumption.
Qed.

Lemma takeChars_keeps (P : ascii -> Prop) (n : nat) (s : string) :
  Forall P (list_ascii_of_string s) ->
  Forall P (list_ascii_of_string (takeChars n s)).
Proof.
  revert s. induction n as [|n IH]; intros s H; [constructor|].
  destruct s as [|c r]; cbn [takeChars list_ascii_of_string]; [constructor|].
  inversion H; subst. constructor; auto.
Qed.

Lemma cleanUp_facts (s : string) :
  (String.length (cleanUp s) <= maxContent)%nat
  /\ Forall (fun c => isSpace c = true -> c = " "%char)
            (list_ascii_of_string (cleanUp s)).
Proof.
  unfold cleanUp. split; [apply takeChars_length|].
  rewrite collapse_line_feeds_idle by apply collapse_white_space.
  apply takeChars_keeps. unfold trim.
  apply trimEnd_keeps, trimStart_keeps, collapse_white_space.
Qed.

Lemma takeChars_head (n : nat) (c : ascii) (s : string) :
  takeChars (S n) (String c s) = String c (takeChars n s).
Proof. reflexivity. Qed.

(** X27. The page-content reply is never empty and never the fallback
    text 'Unable to extract page content'. On the mail, video and document
    hosts it is at most 3000 code units long. On any other host it is
    'Title: ', the document title, two line feeds and the cleaned text:
    the cleaned text is at most 3000 code units long and its only white
    space is the plain space, but the reply as a whole is longer than the
    cleaned text by the title and 9 more code units, so it is not capped
    at 3000. *)
Theorem X27_page_content_reply :
  forall (p : Page),
    let r := extractPageContent p in
    r <> ""
    /\ r <> "Unable to extract page content"
    /\ (pageHostname p = "mail.google.com" \/ pageHostname p = "www.youtube.com"
        \/ pageHostname p = "docs.google.com" ->
        (String.length r <= 3000)%nat)
    /\ (pageHostname p <> "mail.google.com" -> pageHostname p <> "www.youtube.com" ->
        pageHostname p <> "docs.google.com" ->
        exists cleaned,
          r = "Title: " ++ pageTitle p ++ newline ++ newline ++ cleaned
          /\ (String.length cleaned <= 3000)%nat
          /\ Forall (fun c => isSpace c = true -> c = " "%char)
                    (list_ascii_of_string cleaned)
          /\ String.length r
             = (9 + String.length (pageTitle p) + String.length cleaned)%nat).
Proof.
  intros p r. subst r. unfold extractPageContent.
  destruct (String.eqb_spec (pageHostname p) "mail.google.com") as [E1|N1].
  { change maxContent with (S 2999). cbn [append]. rewrite takeChars_head.
    cbn [orElse truthy]. rewrite <- takeChars_head.
    split; [discriminate|]. split; [discriminate|].
    split; [intros _; apply (takeChars_length 3000) | contradiction]. }
  destruct (String.eqb_spec (pageHostname p) "www.youtube.com") as [E2|N2].
  { change maxContent with (S 2999). cbn [append]. rewrite takeChars_head.
    cbn [orElse truthy]. rewrite <- takeChars_head.
    split; [discriminate|]. split; [discriminate|].
    split; [intros _; apply (takeChars_length 3000) | contradiction]. }
  destruct (String.eqb_spec (pageHostname p) "docs.google.com") as [E3|N3].
  { change maxContent with (S 2999). cbn [append]. rewrite takeChars_head.
    cbn [orElse truthy]. rewrite <- takeChars_head.
    split; [discriminate|]. split; [discriminate|].
    split; [intros _; apply (takeChars_length 3000) | contradiction]. }
  cbn [append orElse truthy].
  split; [discriminate|]. split; [discriminate|].
  split; [intros [H|[H|H]]; contradiction|].
  intros _ _ _.
  match goal with
  | |- context [cleanUp ?m] =>
      exists (cleanUp m); destruct (cleanUp_facts m) as [L F]
  end.
  split; [reflexivity|]. split; [exact L|]. split; [exact F|].
  cbn [String.length]. rewrite !append_length. cbn [String.length newline].
  lia.
Qed.

Lemma X27_witness :
  (String.length
     (extractPageContent
        (mkPage "mail.google.com" "Lunch - Gmail" (Some "Lunch") (Some "At noon?")
                None None None None None None None "")) <= 3000)%nat.
Proof.
  destruct (X27_page_content_reply
              (mkPage "mail.google.com" "Lunch - Gmail" (Some "Lunch")
                      (Some "At noon?") None None None None None None None ""))
    as [_ [_ [H _]]].
  apply H. left. reflexivity.
Defined.

End TextFacts.

(* ------------------------------------------------------------------------- *)
(** ** Further properties: badges and the app filter *)
(* ------------------------------------------------------------------------- *)

Section BadgeFacts.

Import Content Sidebar Badges.

Lemma listed_under_detected_key (d : Doc) (c : Context) (notes : list Note)
      (n : AllNote) :
  detectContext d = Some c ->
  In n (allOfEntry (key c, Notes notes)) ->
  allApp n = (if String.eqb (app c) "docs" then "doc" else app c).
Proof.
  intros H Hn. destruct (detected_key_head d H) as [_ [rest Hs]].
  unfold allOfEntry in Hn. rewrite Hs in Hn.
  destruct (negb (includes ":" (key c))); [contradiction|].
  destruct notes as [|x xs]; [contradiction|].
  apply in_map_iff in Hn. destruct Hn as [p [<- _]]. reflexivity.
Qed.

(** X28. The notes of a detected context in the all-notes view. Their
    badge is the emoji of the context's app for mail, meetings and the
    calendar, and the video emoji for the video site whatever the page
    (the header tells home, search and the like apart); for a document it
    is the fallback page emoji, not the one the header shows, since the
    app read off the key is 'doc'. For the same reason, filtering by the
    app tag of the context shows its notes unless it is a document. *)
Theorem X28_document_notes_lose_their_badge :
  forall (d : Doc) (c : Context) (notes : list Note) (n : AllNote),
    detectContext d = Some c ->
    In n (allOfEntry (key c, Notes notes)) ->
    getAppEmoji (allApp n)
    = EmojiOf (if String.eqb (app c) "docs" then IconPage
               else if String.eqb (app c) "youtube" then IconVideo
               else iconOf c)
    /\ (app c = "docs" -> iconOf c = IconDocs)
    /\ (forall u, appFilter u = app c -> In n (allNotes u) ->
          (In n (allNotesList (dom (renderAllNotes u))) <-> app c <> "docs")).
Proof.
  intros d c notes n H Hn.
  pose proof (listed_under_detected_key d notes n H Hn) as Ha.
  destruct (detected_key_head d H) as [Happ _].
  split; [|split].
  - rewrite Ha. unfold iconOf.
    destruct Happ as [E | [E | [E | [E | E]]]]; rewrite E; reflexivity.
  - intros E. unfold iconOf. rewrite E. reflexivity.
  - intros u Hf Hall.
    destruct (renderAllNotes_shown u) as [Hshown _]. rewrite Hshown, Hf.
    assert (Hnot : String.eqb (app c) "all" = false)
      by (destruct Happ as [E | [E | [E | [E | E]]]]; rewrite E; reflexivity).
    rewrite Hnot. split.
    + intros Hin. apply (Permutation_in _ (sortBy_perm _ _)) in Hin.
      apply filter_In in Hin. destruct Hin as [_ Heq].
      apply String.eqb_eq in Heq. rewrite Ha in Heq.
      intros E. rewrite E in Heq. discriminate.
    + intros Hd.
      apply (Permutation_in _ (Permutation_sym (sortBy_perm _ _))).
      apply filter_In. split; [exact Hall|].
      apply String.eqb_eq. rewrite Ha.
      destruct (String.eqb_spec (app c) "docs"); [contradiction | reflexivity].
Qed.

Lemma X28_witness :
  getAppEmoji "doc" = EmojiOf IconPage
  /\ iconOf (detectDocsContext MoreExamples.docsPage) = IconDocs.
Proof.
  destruct (@X28_document_notes_lose_their_badge MoreExamples.docsPage
              (detectDocsContext MoreExamples.docsPage)
              MoreExamples.planNotes
              (mkAll (mkNote "check totals" 150%Z MoreExamples.planContext)
                     "doc" "Plan" "doc:Plan" 0)
              eq_refl) as [H1 [H2 _]].
  - vm_compute. left. reflexivity.
  - split; [exact H1 | apply H2; reflexivity].
Defined.

End BadgeFacts.
